(** * HubSpot deals extraction service: model and properties

    A shallow embedding of [src/templates/services/api_service.py]
    (class [HubSpotAPIService]): the sliding-window rate controller
    [_wait_for_rate_limit], the single-page fetch [get_deals], the paginated
    generator [get_all_deals] and the observer [get_rate_limit_status].

    Python values that travel through the code (JSON documents, the cursor,
    query parameters) are one inductive type; dictionaries are association
    lists in insertion order.  Wall-clock readings are exact rationals in
    the effectful model; the controller's arithmetic is also given over an
    interface of timestamp operations, with binary64 as a second instance
    (section "The controller and its arithmetic").
    Effects (the clock, [time.sleep], [requests.get], the instance field
    [_request_times], the checkpoint callback) are threaded through a state
    monad whose state survives a raised exception, as in Python.  The
    callback is a flag in [get_all_deals] (passed or not, returning
    normally) and a function that may raise in [get_all_deals_fn]. *)

From Stdlib Require Import QArith ZArith List String Bool Lia Lqa Sorted.
From Stdlib Require Import PrimFloat.
Import ListNotations.

Local Open Scope Z_scope.

#[local] Set Warnings "-register-all".
#[local] Unset Elimination Schemes.

(* ================================================================= *)
(** ** Python values *)

(** [None], booleans, integers, strings, lists and dictionaries.  A
    dictionary is represented by its items in insertion order, each key
    bound once; lookup takes the first binding. *)
Inductive json : Type :=
| JNull
| JBool (b : bool)
| JNum (n : Z)
| JStr (s : string)
| JArr (xs : list json)
| JObj (kvs : list (string * json)).

#[local] Set Elimination Schemes.

(** Exceptions that can leave the modelled code.  The three [HubSpot*]
    classes form the hierarchy of the source: the authentication and
    rate-limit errors are subclasses of [HubSpotAPIError]. *)
Inductive requests_error : Type :=
| ReqTimeout                     (* requests.exceptions.Timeout *)
| ReqConnectionError             (* connection-level RequestException *)
| ReqHTTPError (status : Z)      (* raised by response.raise_for_status() *)
| ReqJSONDecodeError.            (* raised by response.json() *)

Inductive api_failure : Type :=
| RequestTimeout (timeout : Z)          (* "Request timeout after {timeout} seconds" *)
| RequestFailed (e : requests_error).   (* "API request failed: {e}" *)

Inductive exn : Type :=
| HubSpotAPIError (cause : api_failure)
| HubSpotAuthenticationError
| HubSpotRateLimitError (retry_after : Z)  (* "Rate limited. Retry after {retry_after}s" *)
| RequestException (e : requests_error)
| KeyError (key : string)
| IndexError
| TypeError
| AttributeError
| ValueError
| ZeroDivisionError.

(** [isinstance e HubSpotRateLimitError] *)
Definition is_HubSpotRateLimitError (e : exn) : bool :=
  match e with HubSpotRateLimitError _ => true | _ => false end.

(** [isinstance e HubSpotAPIError], subclasses included *)
Definition is_HubSpotAPIError (e : exn) : bool :=
  match e with
  | HubSpotAPIError _ | HubSpotAuthenticationError | HubSpotRateLimitError _ => true
  | _ => false
  end.

Inductive result (A : Type) : Type :=
| Ok (a : A)
| Raise (e : exn).
Arguments Ok {A} a.
Arguments Raise {A} e.

(* ================================================================= *)
(** ** Dictionary and container primitives *)

Definition params := list (string * json).

Fixpoint dict_lookup (key : string) (kvs : list (string * json)) : option json :=
  match kvs with
  | [] => None
  | (k, v) :: rest => if String.eqb k key then Some v else dict_lookup key rest
  end.

(** [d[key] = v]: overwrite in place when bound, else append. *)
Fixpoint dict_set (key : string) (v : json) (kvs : list (string * json))
  : list (string * json) :=
  match kvs with
  | [] => [(key, v)]
  | (k, v0) :: rest =>
      if String.eqb k key then (k, v) :: rest else (k, v0) :: dict_set key v rest
  end.

(** Python truthiness, as used by [if after:]. *)
Definition truthy (v : json) : bool :=
  match v with
  | JNull => false
  | JBool b => b
  | JNum n => negb (n =? 0)
  | JStr s => negb (String.eqb s EmptyString)
  | JArr xs => match xs with [] => false | _ => true end
  | JObj kvs => match kvs with [] => false | _ => true end
  end.

(** [d.get(key, default)]: only dictionaries have the method. *)
Definition py_get (d : json) (key : string) (default : json) : result json :=
  match d with
  | JObj kvs =>
      match dict_lookup key kvs with
      | Some v => Ok v
      | None => Ok default
      end
  | _ => Raise AttributeError
  end.

(** [len(v)] *)
Definition py_len (v : json) : result Z :=
  match v with
  | JArr xs => Ok (Z.of_nat (List.length xs))
  | JObj kvs => Ok (Z.of_nat (List.length kvs))
  | JStr s => Ok (Z.of_nat (String.length s))
  | _ => Raise TypeError
  end.

Fixpoint chars (s : string) : list json :=
  match s with
  | EmptyString => []
  | String c rest => JStr (String c EmptyString) :: chars rest
  end.

(** The items a [for] loop walks through. *)
Definition py_iter (v : json) : result (list json) :=
  match v with
  | JArr xs => Ok xs
  | JObj kvs => Ok (map (fun kv => JStr (fst kv)) kvs)
  | JStr s => Ok (chars s)
  | _ => Raise TypeError
  end.

Definition is_str (key : string) (v : json) : bool :=
  match v with JStr s => String.eqb s key | _ => false end.

(** [key in v] for a string [key]: key membership in a dictionary, element
    membership in a list, substring test in a string. *)
Definition py_contains (key : string) (v : json) : result bool :=
  match v with
  | JObj kvs => Ok (match dict_lookup key kvs with Some _ => true | None => false end)
  | JArr xs => Ok (existsb (is_str key) xs)
  | JStr s => Ok (match String.index 0 key s with Some _ => true | None => false end)
  | _ => Raise TypeError
  end.

(** [v[key]] for a string [key]. *)
Definition py_getitem (v : json) (key : string) : result json :=
  match v with
  | JObj kvs =>
      match dict_lookup key kvs with
      | Some x => Ok x
      | None => Raise (KeyError key)
      end
  | _ => Raise TypeError
  end.

(* ================================================================= *)
(** ** The world the service runs in *)

(** What [requests.get] can produce: an exception of the [requests]
    library, or a response.  A response carries its status code, the
    [Retry-After] header when present, and its body as [response.json()]
    decodes it ([None]: the body is not JSON). *)
Inductive header_value : Type :=
| IntText (n : Z)          (* text that [int()] reads as [n] *)
| OtherText (s : string).  (* text that [int()] rejects *)

Record response : Type := {
  status_code : Z;
  retry_after_header : option header_value;
  body : option json
}.

Inductive http_outcome : Type :=
| Fails (e : requests_error)
| Responds (r : response).

(** The environment: how much time passes before each clock reading, and
    what the remote end answers to the [k]-th request of the run. *)
Record Env : Type := {
  elapsed : nat -> Q;
  server : nat -> params -> http_outcome
}.

Record World : Type := {
  clock : Q;                    (* wall clock *)
  ticks : nat;                  (* clock readings taken so far *)
  _request_times : list Q;      (* self._request_times *)
  sleeps : list Q;              (* arguments of time.sleep, oldest first *)
  sent : list params;           (* params of each requests.get, oldest first *)
  checkpoints : list (Z * Z)    (* (page, deals_so_far) of each callback call *)
}.

(** [HubSpotAPIService.__init__]: the window starts empty. *)
Definition init_world (t0 : Q) : World :=
  {| clock := t0; ticks := 0; _request_times := []; sleeps := [];
     sent := []; checkpoints := [] |}.

(* ================================================================= *)
(** ** State-and-exception monad *)

Definition M (S A : Type) : Type := S -> result A * S.

Definition ret {S A} (a : A) : M S A := fun s => (Ok a, s).

Definition raise {S A} (e : exn) : M S A := fun s => (Raise e, s).

Definition bind {S A B} (c : M S A) (k : A -> M S B) : M S B :=
  fun s =>
    match c s with
    | (Ok a, s') => k a s'
    | (Raise e, s') => (Raise e, s')
    end.

Definition of_result {S A} (r : result A) : M S A := fun s => (r, s).

(** [try: c  except ...: h e]; the handler declines ([None]) an exception
    that matches none of its clauses. *)
Definition try_except {S A} (c : M S A) (h : exn -> option (M S A)) : M S A :=
  fun s =>
    match c s with
    | (Ok a, s') => (Ok a, s')
    | (Raise e, s') =>
        match h e with
        | Some handler => handler s'
        | None => (Raise e, s')
        end
    end.

Declare Scope monad_scope.
Delimit Scope monad_scope with monad.
Notation "x <- c ;; k" := (bind c (fun x => k))
  (at level 61, c at next level, right associativity) : monad_scope.
Notation "c ;;; k" := (bind c (fun _ => k))
  (at level 61, right associativity) : monad_scope.

Local Open Scope monad_scope.

(* ================================================================= *)
(** ** Clock and sleep *)

Definition Qltb (x y : Q) : bool := negb (Qle_bool y x).

Definition time_time (env : Env) : M World Q :=
  fun w =>
    let now := (clock w + elapsed env (ticks w))%Q in
    (Ok now,
     {| clock := now; ticks := S (ticks w); _request_times := _request_times w;
        sleeps := sleeps w; sent := sent w; checkpoints := checkpoints w |}).

(** [time.sleep(d)]: a negative length is a [ValueError]; otherwise the
    clock moves on by [d] (any oversleep is part of the next [elapsed]). *)
Definition time_sleep (d : Q) : M World unit :=
  fun w =>
    if Qltb d 0 then (Raise ValueError, w)
    else
      (Ok tt,
       {| clock := (clock w + d)%Q; ticks := ticks w;
          _request_times := _request_times w;
          sleeps := sleeps w ++ [d]; sent := sent w;
          checkpoints := checkpoints w |}).

Definition get_request_times : M World (list Q) :=
  fun w => (Ok (_request_times w), w).

Definition set_request_times (ts : list Q) : M World unit :=
  fun w =>
    (Ok tt,
     {| clock := clock w; ticks := ticks w; _request_times := ts;
        sleeps := sleeps w; sent := sent w; checkpoints := checkpoints w |}).

(* ================================================================= *)
(** ** Rate controller *)

Definition RATE_LIMIT_MAX : Z := 150.
Definition RATE_LIMIT_WINDOW : Q := 10%Q.

(** [[t for t in ts if t > cutoff_time]] *)
Definition prune (cutoff_time : Q) (ts : list Q) : list Q :=
  filter (fun t => Qltb cutoff_time t) ts.

(** [_wait_for_rate_limit], with exact arithmetic on the timestamps:
    [now - window] and [window - (now - oldest)] are computed without
    rounding.  [wait_step] below is the same code over any timestamp
    arithmetic, binary64 included. *)
Definition _wait_for_rate_limit (env : Env) : M World unit :=
  now <- time_time env ;;
  let cutoff_time := (now - RATE_LIMIT_WINDOW)%Q in
  ts <- get_request_times ;;
  set_request_times (prune cutoff_time ts) ;;;
  ts <- get_request_times ;;
  now <-
    (if RATE_LIMIT_MAX <=? Z.of_nat (List.length ts) then
       match ts with
       | [] => raise IndexError
       | oldest :: _ =>
           let wait_time := (RATE_LIMIT_WINDOW - (now - oldest))%Q in
           if Qltb 0 wait_time then
             time_sleep wait_time ;;;
             now <- time_time env ;;
             let cutoff_time := (now - RATE_LIMIT_WINDOW)%Q in
             ts <- get_request_times ;;
             set_request_times (prune cutoff_time ts) ;;;
             ret now
           else ret now
       end
     else ret now) ;;
  ts <- get_request_times ;;
  set_request_times (ts ++ [now]).

(** [get_rate_limit_status]: the dictionary it returns, as a record. *)
Record RateLimitStatus : Type := {
  requests_in_window : Z;
  max_requests : Z;
  window_seconds : Q;
  remaining : Z
}.

Definition get_rate_limit_status (env : Env) : M World RateLimitStatus :=
  now <- time_time env ;;
  let cutoff_time := (now - RATE_LIMIT_WINDOW)%Q in
  ts <- get_request_times ;;
  let active_requests := prune cutoff_time ts in
  ret {| requests_in_window := Z.of_nat (List.length active_requests);
         max_requests := RATE_LIMIT_MAX;
         window_seconds := RATE_LIMIT_WINDOW;
         remaining := RATE_LIMIT_MAX - Z.of_nat (List.length active_requests) |}.

(* ================================================================= *)
(** ** Single-page fetch *)

Definition DEFAULT_PROPERTIES : list string :=
  [ "dealname"; "amount"; "dealstage"; "pipeline"; "closedate";
    "createdate"; "hs_lastmodifieddate"; "hubspot_owner_id";
    "description"; "dealtype"; "hs_priority";
    "num_associated_contacts"; "num_associated_companies";
    "hs_is_closed"; "hs_is_closed_won";
    "hs_forecast_amount"; "hs_forecast_probability" ]%string.

(** [requests.get(url, headers=..., params=params, timeout=timeout)]: the
    request is logged, the environment answers. *)
Definition requests_get (env : Env) (ps : params) : M World response :=
  fun w =>
    let w' :=
      {| clock := clock w; ticks := ticks w; _request_times := _request_times w;
         sleeps := sleeps w; sent := sent w ++ [ps];
         checkpoints := checkpoints w |} in
    match server env (List.length (sent w)) ps with
    | Fails e => (Raise (RequestException e), w')
    | Responds r => (Ok r, w')
    end.

(** [int(response.headers.get('Retry-After', default))] *)
Definition header_int (h : option header_value) (default : Z) : result Z :=
  match h with
  | None => Ok default
  | Some (IntText n) => Ok n
  | Some (OtherText _) => Raise ValueError
  end.

(** [response.raise_for_status()] *)
Definition raise_for_status (r : response) : result unit :=
  if (400 <=? status_code r) && (status_code r <? 600)
  then Raise (RequestException (ReqHTTPError (status_code r)))
  else Ok tt.

(** [response.json()] *)
Definition response_json (r : response) : result json :=
  match body r with
  | Some data => Ok data
  | None => Raise (RequestException ReqJSONDecodeError)
  end.

(** The query parameters [get_deals] builds. *)
Definition build_params (limit : Z) (after : json)
    (properties : option (list string)) (archived : bool) : params :=
  let properties :=
    match properties with
    | None => DEFAULT_PROPERTIES
    | Some ps => ps
    end in
  let ps :=
    [ ("limit", JNum (Z.min limit 100));
      ("properties", JStr (String.concat "," properties));
      ("archived", JStr (if archived then "true" else "false")) ]%string in
  if truthy after then dict_set "after" after ps else ps.

Definition get_deals (env : Env) (limit : Z) (after : json)
    (properties : option (list string)) (archived : bool) (timeout : Z)
  : M World json :=
  _wait_for_rate_limit env ;;;
  let ps := build_params limit after properties archived in
  try_except
    (r <- requests_get env ps ;;
     (if status_code r =? 429 then
        retry_after <- of_result (header_int (retry_after_header r) 10) ;;
        raise (HubSpotRateLimitError retry_after)
      else ret tt) ;;;
     (if status_code r =? 401 then raise HubSpotAuthenticationError
      else ret tt) ;;;
     of_result (raise_for_status r) ;;;
     data <- of_result (response_json r) ;;
     results <- of_result (py_get data "results" (JArr [])) ;;
     _ <- of_result (py_len results) ;;
     ret data)
    (fun e =>
       match e with
       | RequestException ReqTimeout =>
           Some (raise (HubSpotAPIError (RequestTimeout timeout)))
       | RequestException e' =>
           Some (raise (HubSpotAPIError (RequestFailed e')))
       | _ => None
       end).

(* ================================================================= *)
(** ** The paginated generator *)

(** The generator's frame: its local variables, what it has yielded so
    far, and the world it acts on. *)
Record Gen : Type := {
  after : json;
  page_count : Z;
  total_deals : Z;
  yielded : list json;
  world : World
}.

Definition lift {A} (c : M World A) : M Gen A :=
  fun g =>
    let (r, w) := c (world g) in
    (r, {| after := after g; page_count := page_count g;
           total_deals := total_deals g; yielded := yielded g; world := w |}).

Definition get_after : M Gen json := fun g => (Ok (after g), g).
Definition get_page_count : M Gen Z := fun g => (Ok (page_count g), g).
Definition get_total_deals : M Gen Z := fun g => (Ok (total_deals g), g).

Definition set_after (a : json) : M Gen unit :=
  fun g =>
    (Ok tt, {| after := a; page_count := page_count g;
               total_deals := total_deals g; yielded := yielded g;
               world := world g |}).

(** [page_count += 1] *)
Definition incr_page_count : M Gen unit :=
  fun g =>
    (Ok tt, {| after := after g; page_count := page_count g + 1;
               total_deals := total_deals g; yielded := yielded g;
               world := world g |}).

(** [total_deals += 1; yield deal] *)
Definition yield_deal (deal : json) : M Gen unit :=
  fun g =>
    (Ok tt, {| after := after g; page_count := page_count g;
               total_deals := total_deals g + 1;
               yielded := yielded g ++ [deal]; world := world g |}).

Fixpoint yield_each (deals : list json) : M Gen unit :=
  match deals with
  | [] => ret tt
  | deal :: rest => yield_deal deal ;;; yield_each rest
  end.

(** [a % b] on Python integers *)
Definition py_mod (a b : Z) : result Z :=
  if b =? 0 then Raise ZeroDivisionError else Ok (a mod b).

(** [checkpoint_callback(page=..., deals_so_far=...)] for a callback that
    returns normally: the call is recorded.  A callback that raises is
    modelled by [call_checkpoint_fn] and [loop_body_fn] (section "A
    checkpoint callback that may raise"), of which this is the special
    case ([loop_body_fn_returning]). *)
Definition call_checkpoint (page deals_so_far : Z) : M World unit :=
  fun w =>
    (Ok tt,
     {| clock := clock w; ticks := ticks w; _request_times := _request_times w;
        sleeps := sleeps w; sent := sent w;
        checkpoints := checkpoints w ++ [(page, deals_so_far)] |}).

Inductive control : Type := Continue | Break.

(** One turn of [while True:].  [checkpoint_callback] tells whether a
    callback was passed. *)
Definition loop_body (env : Env) (properties : option (list string))
    (archived : bool) (checkpoint_callback : bool) (checkpoint_interval : Z)
  : M Gen control :=
  try_except
    (cursor <- get_after ;;
     data <- lift (get_deals env 100 cursor properties archived 30) ;;
     results <- of_result (py_get data "results" (JArr [])) ;;
     incr_page_count ;;;
     deals <- of_result (py_iter results) ;;
     yield_each deals ;;;
     _ <- of_result (py_len results) ;;
     (if checkpoint_callback then
        pages <- get_page_count ;;
        m <- of_result (py_mod pages checkpoint_interval) ;;
        if m =? 0 then
          total <- get_total_deals ;;
          lift (call_checkpoint pages total)
        else ret tt
      else ret tt) ;;;
     paging <- of_result (py_get data "paging" (JObj [])) ;;
     has_next <- of_result (py_contains "next" paging) ;;
     if negb has_next then ret Break
     else
       next <- of_result (py_getitem paging "next") ;;
       cursor <- of_result (py_getitem next "after") ;;
       set_after cursor ;;;
       ret Continue)
    (fun e =>
       if is_HubSpotRateLimitError e then
         Some (lift (time_sleep 10%Q) ;;; ret Continue)
       else if is_HubSpotAPIError e then Some (raise e)
       else None).

(** How a run of the generator ends: it returns (the consumer sees the end
    of the sequence), an exception reaches the consumer, or the model's
    fuel is spent. *)
Inductive outcome : Type :=
| Exhausted
| Raised (e : exn)
| OutOfFuel.

Fixpoint get_all_deals_loop (env : Env) (properties : option (list string))
    (archived : bool) (checkpoint_callback : bool) (checkpoint_interval : Z)
    (fuel : nat) (g : Gen) : outcome * Gen :=
  match fuel with
  | O => (OutOfFuel, g)
  | S fuel' =>
      match loop_body env properties archived checkpoint_callback
              checkpoint_interval g with
      | (Ok Break, g') => (Exhausted, g')
      | (Ok Continue, g') =>
          get_all_deals_loop env properties archived checkpoint_callback
            checkpoint_interval fuel' g'
      | (Raise e, g') => (Raised e, g')
      end
  end.

Definition start (w : World) : Gen :=
  {| after := JNull; page_count := 0; total_deals := 0; yielded := [];
     world := w |}.

(** [list(service.get_all_deals(...))]: the generator is driven to its
    end. *)
Definition get_all_deals (env : Env) (properties : option (list string))
    (archived : bool) (checkpoint_callback : bool) (checkpoint_interval : Z)
    (fuel : nat) (w : World) : outcome * Gen :=
  get_all_deals_loop env properties archived checkpoint_callback
    checkpoint_interval fuel (start w).

(* ================================================================= *)
(** * Properties *)

(* ================================================================= *)
(** ** Rate controller *)

Lemma Qltb_lt (x y : Q) : Qltb x y = true <-> (x < y)%Q.
Proof.
  unfold Qltb. rewrite negb_true_iff. split; intro H.
  - apply Qnot_le_lt. intro Hle. apply Qle_bool_iff in Hle. congruence.
  - destruct (Qle_bool y x) eqn:E; [|reflexivity].
    apply Qle_bool_iff in E. exfalso. exact (Qlt_not_le _ _ H E).
Qed.

Lemma Qltb_ge (x y : Q) : Qltb x y = false <-> (y <= x)%Q.
Proof.
  unfold Qltb. rewrite negb_false_iff. apply Qle_bool_iff.
Qed.

Lemma prune_length (c : Q) (ts : list Q) :
  (List.length (prune c ts) <= List.length ts)%nat.
Proof. apply filter_length_le. Qed.

Lemma prune_In (c t : Q) (ts : list Q) :
  In t (prune c ts) -> (c < t)%Q.
Proof.
  unfold prune. intro H. apply filter_In in H. apply Qltb_lt, H.
Qed.

(** Pruning twice with a cut-off that moved forward is pruning once. *)
Lemma prune_prune (c1 c2 : Q) (ts : list Q) :
  (c1 <= c2)%Q -> prune c2 (prune c1 ts) = prune c2 ts.
Proof.
  intro Hc. unfold prune. induction ts as [|t ts IH]; simpl; [reflexivity|].
  destruct (Qltb c1 t) eqn:E1; simpl.
  - rewrite IH. reflexivity.
  - rewrite IH. destruct (Qltb c2 t) eqn:E2; [|reflexivity].
    apply Qltb_lt in E2. apply Qltb_ge in E1. lra.
Qed.

(** A cut-off at or past the head of the list removes the head. *)
Lemma prune_drops_head (c t0 : Q) (ts : list Q) :
  (t0 <= c)%Q ->
  (List.length (prune c (t0 :: ts)) <= List.length ts)%nat.
Proof.
  intro H. unfold prune. simpl.
  apply Qltb_ge in H. rewrite H. apply filter_length_le.
Qed.

(** The world one admission leads to, written out. *)
Definition after_wait (env : Env) (w : World) : World :=
  let now := (clock w + elapsed env (ticks w))%Q in
  let ts := prune (now - RATE_LIMIT_WINDOW) (_request_times w) in
  match ts with
  | oldest :: _ =>
      let wait_time := (RATE_LIMIT_WINDOW - (now - oldest))%Q in
      if (RATE_LIMIT_MAX <=? Z.of_nat (List.length ts)) && Qltb 0 wait_time then
        let now2 := (now + wait_time + elapsed env (S (ticks w)))%Q in
        {| clock := now2; ticks := S (S (ticks w));
           _request_times := prune (now2 - RATE_LIMIT_WINDOW) ts ++ [now2];
           sleeps := sleeps w ++ [wait_time]; sent := sent w;
           checkpoints := checkpoints w |}
      else
        {| clock := now; ticks := S (ticks w); _request_times := ts ++ [now];
           sleeps := sleeps w; sent := sent w; checkpoints := checkpoints w |}
  | [] =>
      {| clock := now; ticks := S (ticks w); _request_times := [now];
         sleeps := sleeps w; sent := sent w; checkpoints := checkpoints w |}
  end.

Lemma wait_for_rate_limit_run (env : Env) (w : World) :
  _wait_for_rate_limit env w = (Ok tt, after_wait env w).
Proof.
  unfold _wait_for_rate_limit, after_wait, bind, time_time, get_request_times,
    set_request_times, ret; cbn [_request_times clock ticks sleeps sent checkpoints].
  set (now := (clock w + elapsed env (ticks w))%Q).
  destruct (prune (now - RATE_LIMIT_WINDOW) (_request_times w)) as [|t0 ts] eqn:Ets.
  - reflexivity.
  - destruct (RATE_LIMIT_MAX <=? Z.of_nat (List.length (t0 :: ts))) eqn:Eq;
      cbn [andb]; [|reflexivity].
    destruct (Qltb 0 (RATE_LIMIT_WINDOW - (now - t0))) eqn:Ew; [|reflexivity].
    unfold time_sleep; cbn [_request_times clock ticks sleeps sent checkpoints].
    assert (Hs : Qltb (RATE_LIMIT_WINDOW - (now - t0)) 0 = false).
    { apply Qltb_ge. apply Qltb_lt in Ew. lra. }
    rewrite Hs. reflexivity.
Qed.

Lemma after_wait_sent (env : Env) (w : World) :
  sent (after_wait env w) = sent w.
Proof.
  unfold after_wait.
  destruct (prune _ (_request_times w)); [reflexivity|].
  destruct (_ && _); reflexivity.
Qed.

Lemma after_wait_checkpoints (env : Env) (w : World) :
  checkpoints (after_wait env w) = checkpoints w.
Proof.
  unfold after_wait.
  destruct (prune _ (_request_times w)); [reflexivity|].
  destruct (_ && _); reflexivity.
Qed.

(** The list never grows past the quota: at the quota the controller
    sleeps until the oldest entry leaves the window, and the entry is
    dropped by the second pruning. *)
Lemma after_wait_length (env : Env) (w : World) :
  (0 <= elapsed env (S (ticks w)))%Q ->
  Z.of_nat (List.length (_request_times w)) <= RATE_LIMIT_MAX ->
  Z.of_nat (List.length (_request_times (after_wait env w))) <= RATE_LIMIT_MAX.
Proof.
  intros Hel Hlen. unfold after_wait.
  set (now := (clock w + elapsed env (ticks w))%Q).
  pose proof (prune_length (now - RATE_LIMIT_WINDOW) (_request_times w)) as Hp.
  destruct (prune (now - RATE_LIMIT_WINDOW) (_request_times w)) as [|t0 ts] eqn:Ets.
  - cbn. unfold RATE_LIMIT_MAX. lia.
  - assert (Hin : (now - RATE_LIMIT_WINDOW < t0)%Q).
    { apply (prune_In _ _ (_request_times w)). rewrite Ets. left. reflexivity. }
    assert (Hw : Qltb 0 (RATE_LIMIT_WINDOW - (now - t0)) = true).
    { apply Qltb_lt. lra. }
    rewrite Hw, andb_true_r.
    destruct (RATE_LIMIT_MAX <=? Z.of_nat (List.length (t0 :: ts))) eqn:Eq;
      cbn [_request_times]; rewrite length_app; cbn [List.length].
    + set (now2 := (now + (RATE_LIMIT_WINDOW - (now - t0))
                    + elapsed env (S (ticks w)))%Q).
      assert (Hd : (List.length (prune (now2 - RATE_LIMIT_WINDOW) (t0 :: ts))
                    <= List.length ts)%nat).
      { apply prune_drops_head. unfold now2. lra. }
      cbn [List.length] in Hp. unfold RATE_LIMIT_MAX in *. lia.
    + apply Z.leb_gt in Eq. cbn [List.length] in Eq. lia.
Qed.

(** Timestamps of [ts] inside the trailing window that ends at [T]. *)
Definition in_window (T t : Q) : bool :=
  Qltb (T - RATE_LIMIT_WINDOW) t && Qle_bool t T.

Definition window_count (T : Q) (ts : list Q) : Z :=
  Z.of_nat (List.length (filter (in_window T) ts)).

(** What one admission does to the list and to the sleep log. *)
Lemma after_wait_list (env : Env) (w : World) :
  (0 <= elapsed env (S (ticks w)))%Q ->
  _request_times (after_wait env w)
  = prune (clock (after_wait env w) - RATE_LIMIT_WINDOW) (_request_times w)
    ++ [clock (after_wait env w)].
Proof.
  intro Hel. unfold after_wait.
  set (now := (clock w + elapsed env (ticks w))%Q).
  destruct (prune (now - RATE_LIMIT_WINDOW) (_request_times w)) as [|t0 ts] eqn:Ets.
  - cbn [_request_times clock]. rewrite Ets. reflexivity.
  - destruct (_ && _) eqn:Ec; cbn [_request_times clock].
    + apply andb_true_iff in Ec. destruct Ec as [_ Ew]. apply Qltb_lt in Ew.
      rewrite <- Ets, prune_prune; [reflexivity|lra].
    + rewrite Ets. reflexivity.
Qed.

Lemma after_wait_sleeps (env : Env) (w : World) :
  let now := (clock w + elapsed env (ticks w))%Q in
  let ts := prune (now - RATE_LIMIT_WINDOW) (_request_times w) in
  (RATE_LIMIT_MAX <= Z.of_nat (List.length ts) ->
   exists oldest rest,
     ts = oldest :: rest /\
     (0 < RATE_LIMIT_WINDOW - (now - oldest))%Q /\
     sleeps (after_wait env w)
     = sleeps w ++ [(RATE_LIMIT_WINDOW - (now - oldest))%Q]) /\
  (Z.of_nat (List.length ts) < RATE_LIMIT_MAX ->
   sleeps (after_wait env w) = sleeps w).
Proof.
  intros now ts. unfold after_wait. fold now. fold ts.
  assert (Hts : forall t, In t ts -> (now - RATE_LIMIT_WINDOW < t)%Q).
  { intros t Ht. exact (prune_In _ _ _ Ht). }
  destruct ts as [|t0 rest].
  - split; [cbn; unfold RATE_LIMIT_MAX; lia|reflexivity].
  - assert (Hw : (0 < RATE_LIMIT_WINDOW - (now - t0))%Q).
    { specialize (Hts t0 (or_introl eq_refl)). lra. }
    split; intro H.
    + exists t0, rest. split; [reflexivity|]. split; [exact Hw|].
      apply Z.leb_le in H. rewrite H. apply Qltb_lt in Hw. rewrite Hw.
      reflexivity.
    + apply Z.leb_gt in H. rewrite H. reflexivity.
Qed.

Lemma window_count_le_length (T : Q) (ts : list Q) :
  window_count T ts <= Z.of_nat (List.length ts).
Proof.
  unfold window_count. apply inj_le, filter_length_le.
Qed.

(* ================================================================= *)
(** ** Single-page fetch, in closed form *)

(** The world after a request with parameters [ps] went out. *)
Definition requested (ps : params) (w : World) : World :=
  {| clock := clock w; ticks := ticks w; _request_times := _request_times w;
     sleeps := sleeps w; sent := sent w ++ [ps]; checkpoints := checkpoints w |}.

(** What [get_deals] makes of the answer to its request. *)
Definition classify (timeout : Z) (o : http_outcome) : result json :=
  match o with
  | Fails ReqTimeout => Raise (HubSpotAPIError (RequestTimeout timeout))
  | Fails e => Raise (HubSpotAPIError (RequestFailed e))
  | Responds r =>
      if status_code r =? 429 then
        match header_int (retry_after_header r) 10 with
        | Ok n => Raise (HubSpotRateLimitError n)
        | Raise e => Raise e
        end
      else if status_code r =? 401 then Raise HubSpotAuthenticationError
      else if (400 <=? status_code r) && (status_code r <? 600) then
        Raise (HubSpotAPIError (RequestFailed (ReqHTTPError (status_code r))))
      else
        match body r with
        | None => Raise (HubSpotAPIError (RequestFailed ReqJSONDecodeError))
        | Some data =>
            match py_get data "results" (JArr []) with
            | Raise e => Raise e
            | Ok results =>
                match py_len results with
                | Raise e => Raise e
                | Ok _ => Ok data
                end
            end
        end
  end.

Lemma get_deals_run (env : Env) (limit : Z) (cursor : json)
    (properties : option (list string)) (archived : bool) (timeout : Z)
    (w : World) :
  let ps := build_params limit cursor properties archived in
  get_deals env limit cursor properties archived timeout w
  = (classify timeout (server env (List.length (sent w)) ps),
     requested ps (after_wait env w)).
Proof.
  intro ps. unfold get_deals. fold ps. unfold bind at 1.
  rewrite wait_for_rate_limit_run.
  unfold try_except, bind at 1, requests_get.
  unfold requested. rewrite !after_wait_sent.
  unfold classify.
  destruct (server env (List.length (sent w)) ps) as [e|r].
  - destruct e; reflexivity.
  - unfold bind, of_result, raise, ret.
    destruct (status_code r =? 429) eqn:E429.
    + destruct (retry_after_header r) as [[n|s]|]; reflexivity.
    + destruct (status_code r =? 401) eqn:E401; [reflexivity|].
      unfold raise_for_status.
      destruct ((400 <=? status_code r) && (status_code r <? 600)) eqn:Eerr;
        [reflexivity|].
      unfold response_json. destruct (body r) as [data|]; [|reflexivity].
      destruct data as [| | | | |kvs]; try reflexivity.
      unfold py_get. destruct (dict_lookup "results" kvs) as [results|].
      * destruct results; reflexivity.
      * reflexivity.
Qed.

(* ================================================================= *)
(** ** Claims about the rate controller *)

Definition quiet_env : Env :=
  {| elapsed := fun _ => 0%Q;
     server := fun _ _ =>
       Responds {| status_code := 200; retry_after_header := None;
                   body := Some (JObj []) |} |}.

Lemma quiet_env_clock : forall k, (0 <= elapsed quiet_env k)%Q.
Proof. intro k. cbn. lra. Qed.

(** At the quota the controller does wait: the 151st admission at one
    instant sleeps for the whole window and then finds the list empty. *)
Example quota_reached_waits :
  let w150 := Nat.iter 150 (fun w => snd (_wait_for_rate_limit quiet_env w))
                (init_world 0%Q) in
  let w151 := snd (_wait_for_rate_limit quiet_env w150) in
  List.length (_request_times w150) = 150%nat
  /\ sleeps w150 = []
  /\ sleeps w151 = [10%Q]
  /\ _request_times w151 = [10%Q].
Proof. vm_compute. repeat split; reflexivity. Qed.

(** C9. The status query is read-only.  It always returns, it leaves the
    stored list (and the sleep, request and callback logs) as they were,
    and it reports the count of a pruned copy, the quota, the window and
    the difference between quota and count. *)
Theorem get_rate_limit_status_read_only (env : Env) (w : World) :
  exists status w',
    get_rate_limit_status env w = (Ok status, w')
    /\ _request_times w' = _request_times w
    /\ sleeps w' = sleeps w /\ sent w' = sent w
    /\ checkpoints w' = checkpoints w
    /\ (let now := (clock w + elapsed env (ticks w))%Q in
        let active := prune (now - RATE_LIMIT_WINDOW) (_request_times w) in
        requests_in_window status = Z.of_nat (List.length active)
        /\ max_requests status = 150
        /\ window_seconds status = 10%Q
        /\ remaining status = 150 - Z.of_nat (List.length active)).
Proof.
  unfold get_rate_limit_status, bind, time_time, get_request_times, ret.
  cbn [_request_times].
  eexists. eexists. split; [reflexivity|].
  cbn. repeat split; reflexivity.
Qed.

(** C10. Every call of [get_deals] uses up one slot of the window,
    whatever comes of the request.  The list after the call is a filtered
    copy of the old list followed by exactly one new entry, the clock
    reading of the admission; it is already in place when the admission
    returns, at which point no request has gone out; the call then sends
    exactly one request, and what the remote end answers (success, 429,
    401, time-out, transport failure) has no bearing on the list. *)
Theorem get_deals_consumes_quota (env : Env) (limit : Z) (cursor : json)
    (properties : option (list string)) (archived : bool) (timeout : Z)
    (w : World) :
  let w1 := snd (_wait_for_rate_limit env w) in
  let w2 := snd (get_deals env limit cursor properties archived timeout w) in
  (exists keep, _request_times w1 = filter keep (_request_times w) ++ [clock w1])
  /\ sent w1 = sent w
  /\ _request_times w2 = _request_times w1
  /\ sent w2 = sent w ++ [build_params limit cursor properties archived]
  /\ fst (get_deals env limit cursor properties archived timeout w)
     = classify timeout
         (server env (List.length (sent w))
            (build_params limit cursor properties archived)).
Proof.
  intros w1 w2. unfold w1, w2.
  rewrite get_deals_run, wait_for_rate_limit_run. cbn [fst snd].
  split; [|split; [|split; [|split]]].
  - unfold after_wait.
    set (now := (clock w + elapsed env (ticks w))%Q).
    destruct (prune (now - RATE_LIMIT_WINDOW) (_request_times w)) as [|t0 ts] eqn:Ets.
    + exists (fun t => Qltb (now - RATE_LIMIT_WINDOW) t).
      cbn [_request_times clock]. fold (prune (now - RATE_LIMIT_WINDOW) (_request_times w)).
      rewrite Ets. reflexivity.
    + destruct (_ && _); cbn [_request_times clock].
      * match goal with |- exists _, prune ?c _ ++ _ = _ =>
          exists (fun t => Qltb (now - RATE_LIMIT_WINDOW) t && Qltb c t) end.
        rewrite <- Ets. unfold prune. f_equal.
        clear Ets. induction (_request_times w) as [|t l IH]; [reflexivity|].
        cbn [filter]. destruct (Qltb (now - RATE_LIMIT_WINDOW) t); cbn [filter andb].
        -- destruct (Qltb _ t); [f_equal|]; exact IH.
        -- exact IH.
      * exists (fun t => Qltb (now - RATE_LIMIT_WINDOW) t).
        fold (prune (now - RATE_LIMIT_WINDOW) (_request_times w)).
        rewrite Ets. reflexivity.
  - apply after_wait_sent.
  - reflexivity.
  - cbn. rewrite after_wait_sent. reflexivity.
  - reflexivity.
Qed.

(** C8. An empty-string cursor is treated as no cursor.  With [after = ""],
    as with [after = None], the request that goes out has no [after]
    parameter, and the whole call behaves as the call without a cursor:
    same result, same final state, so the first page is fetched again. *)
Theorem get_deals_empty_cursor (env : Env) (limit : Z)
    (properties : option (list string)) (archived : bool) (timeout : Z)
    (w : World) :
  dict_lookup "after" (build_params limit (JStr "") properties archived) = None
  /\ dict_lookup "after" (build_params limit JNull properties archived) = None
  /\ sent (snd (get_deals env limit (JStr "") properties archived timeout w))
     = sent w ++ [build_params limit JNull properties archived]
  /\ get_deals env limit (JStr "") properties archived timeout w
     = get_deals env limit JNull properties archived timeout w.
Proof.
  repeat split; try reflexivity.
  rewrite get_deals_run. cbn. rewrite after_wait_sent. reflexivity.
Qed.

(* ================================================================= *)
(** ** One turn of the loop, in closed form *)

Definition with_world (g : Gen) (w : World) : Gen :=
  {| after := after g; page_count := page_count g;
     total_deals := total_deals g; yielded := yielded g; world := w |}.

(** The [except] clauses of the loop. *)
Definition handler (e : exn) : option (M Gen control) :=
  if is_HubSpotRateLimitError e then
    Some (lift (time_sleep 10%Q) ;;; ret Continue)
  else if is_HubSpotAPIError e then Some (raise e)
  else None.

(** The [try] block from the line after the call of [get_deals]. *)
Definition process_page (checkpoint_callback : bool) (checkpoint_interval : Z)
    (data : json) : M Gen control :=
  results <- of_result (py_get data "results" (JArr [])) ;;
  incr_page_count ;;;
  deals <- of_result (py_iter results) ;;
  yield_each deals ;;;
  _ <- of_result (py_len results) ;;
  (if checkpoint_callback then
     pages <- get_page_count ;;
     m <- of_result (py_mod pages checkpoint_interval) ;;
     if m =? 0 then
       total <- get_total_deals ;;
       lift (call_checkpoint pages total)
     else ret tt
   else ret tt) ;;;
  paging <- of_result (py_get data "paging" (JObj [])) ;;
  has_next <- of_result (py_contains "next" paging) ;;
  if negb has_next then ret Break
  else
    next <- of_result (py_getitem paging "next") ;;
    cursor <- of_result (py_getitem next "after") ;;
    set_after cursor ;;;
    ret Continue.

Lemma loop_body_eq (env : Env) (properties : option (list string))
    (archived cb : bool) (n : Z) :
  loop_body env properties archived cb n
  = try_except
      (cursor <- get_after ;;
       data <- lift (get_deals env 100 cursor properties archived 30) ;;
       process_page cb n data)
      handler.
Proof. reflexivity. Qed.

(** The world after the fetch of one turn: admission, then the request. *)
Definition fetched (env : Env) (properties : option (list string))
    (archived : bool) (g : Gen) : World :=
  requested (build_params 100 (after g) properties archived)
    (after_wait env (world g)).

(** The answer to the fetch of one turn. *)
Definition answer (env : Env) (properties : option (list string))
    (archived : bool) (g : Gen) : http_outcome :=
  server env (List.length (sent (world g)))
    (build_params 100 (after g) properties archived).

Lemma loop_body_fetch (env : Env) (properties : option (list string))
    (archived cb : bool) (n : Z) (g : Gen) :
  loop_body env properties archived cb n g
  = match classify 30 (answer env properties archived g) with
    | Ok data =>
        try_except (process_page cb n data) handler
          (with_world g (fetched env properties archived g))
    | Raise e =>
        match handler e with
        | Some h => h (with_world g (fetched env properties archived g))
        | None => (Raise e, with_world g (fetched env properties archived g))
        end
    end.
Proof.
  rewrite loop_body_eq. unfold try_except, bind at 1, get_after.
  unfold bind at 1, lift. rewrite get_deals_run.
  unfold answer, fetched, with_world.
  destruct (classify 30 _) as [data|e]; reflexivity.
Qed.

(** A throttled turn: the frame is untouched, the loop sleeps ten
    seconds and goes round again. *)
Definition slept (d : Q) (w : World) : World :=
  {| clock := (clock w + d)%Q; ticks := ticks w;
     _request_times := _request_times w; sleeps := sleeps w ++ [d];
     sent := sent w; checkpoints := checkpoints w |}.

Lemma loop_body_throttled (env : Env) (properties : option (list string))
    (archived cb : bool) (n : Z) (g : Gen) (k : Z) :
  classify 30 (answer env properties archived g) = Raise (HubSpotRateLimitError k) ->
  loop_body env properties archived cb n g
  = (Ok Continue, with_world g (slept 10%Q (fetched env properties archived g))).
Proof.
  intro H. rewrite loop_body_fetch, H. reflexivity.
Qed.

(** A turn whose fetch fails with any other service error: the error
    goes to the consumer. *)
Lemma loop_body_fatal (env : Env) (properties : option (list string))
    (archived cb : bool) (n : Z) (g : Gen) (e : exn) :
  classify 30 (answer env properties archived g) = Raise e ->
  is_HubSpotRateLimitError e = false ->
  loop_body env properties archived cb n g
  = (Raise e, with_world g (fetched env properties archived g)).
Proof.
  intros H Hr. rewrite loop_body_fetch, H. unfold handler. rewrite Hr.
  destruct (is_HubSpotAPIError e); reflexivity.
Qed.

Lemma yield_each_run (deals : list json) (g : Gen) :
  yield_each deals g
  = (Ok tt,
     {| after := after g; page_count := page_count g;
        total_deals := total_deals g + Z.of_nat (List.length deals);
        yielded := yielded g ++ deals; world := world g |}).
Proof.
  revert g. induction deals as [|d rest IH]; intro g.
  - cbn. rewrite Z.add_0_r, app_nil_r. destruct g; reflexivity.
  - cbn [yield_each]. unfold bind, yield_deal. rewrite IH.
    cbn [after page_count total_deals yielded world List.length].
    rewrite <- app_assoc. cbn [app].
    replace (total_deals g + 1 + Z.of_nat (List.length rest))
      with (total_deals g + Z.of_nat (S (List.length rest))) by lia.
    reflexivity.
Qed.

(** The frame after a page of [deals] was handed out, the callback
    called if it was due. *)
Definition checkpointed (page total : Z) (w : World) : World :=
  {| clock := clock w; ticks := ticks w; _request_times := _request_times w;
     sleeps := sleeps w; sent := sent w;
     checkpoints := checkpoints w ++ [(page, total)] |}.

Definition page_done (cb : bool) (n : Z) (deals : list json) (g : Gen) : Gen :=
  let pages := page_count g + 1 in
  let total := total_deals g + Z.of_nat (List.length deals) in
  {| after := after g; page_count := pages; total_deals := total;
     yielded := yielded g ++ deals;
     world := if cb && (pages mod n =? 0)
              then checkpointed pages total (world g) else world g |}.

Lemma iter_has_len (results : json) (deals : list json) :
  py_iter results = Ok deals -> exists k, py_len results = Ok k.
Proof.
  destruct results; cbn; intro H; try discriminate; eexists; reflexivity.
Qed.

Lemma process_page_run (cb : bool) (n : Z) (kvs : list (string * json))
    (results paging : json) (deals : list json) (g : Gen) :
  py_get (JObj kvs) "results" (JArr []) = Ok results ->
  py_iter results = Ok deals ->
  py_get (JObj kvs) "paging" (JObj []) = Ok paging ->
  (cb = true -> n <> 0) ->
  process_page cb n (JObj kvs) g
  = let g1 := page_done cb n deals g in
    match py_contains "next" paging with
    | Raise e => (Raise e, g1)
    | Ok false => (Ok Break, g1)
    | Ok true =>
        match py_getitem paging "next" with
        | Raise e => (Raise e, g1)
        | Ok next =>
            match py_getitem next "after" with
            | Raise e => (Raise e, g1)
            | Ok cursor =>
                (Ok Continue,
                 {| after := cursor; page_count := page_count g1;
                    total_deals := total_deals g1; yielded := yielded g1;
                    world := world g1 |})
            end
        end
    end.
Proof.
  intros Hres Hit Hpg Hn.
  destruct (iter_has_len _ _ Hit) as [k Hlen].
  unfold process_page.
  unfold bind at 1, of_result at 1. rewrite Hres.
  unfold bind at 1, incr_page_count.
  unfold bind at 1, of_result at 1. rewrite Hit.
  unfold bind at 1. rewrite yield_each_run.
  cbn [after page_count total_deals yielded world].
  unfold bind at 1, of_result at 1. rewrite Hlen.
  unfold bind at 1.
  set (g0 := {| after := after g; page_count := page_count g + 1;
                total_deals := total_deals g + Z.of_nat (List.length deals);
                yielded := yielded g ++ deals; world := world g |}).
  assert (Hcp :
    (if cb then
       pages <- get_page_count ;;
       m <- of_result (py_mod pages n) ;;
       if m =? 0 then
         total <- get_total_deals ;; lift (call_checkpoint pages total)
       else ret tt
     else ret tt) g0 = (Ok tt, page_done cb n deals g)).
  { unfold page_done. destruct cb; cbn [andb]; [|reflexivity].
    unfold bind, get_page_count, of_result, py_mod. cbn [page_count g0].
    destruct (n =? 0) eqn:En; [apply Z.eqb_eq in En; exfalso; exact (Hn eq_refl En)|].
    destruct ((page_count g + 1) mod n =? 0); reflexivity. }
  rewrite Hcp.
  unfold bind at 1, of_result at 1. rewrite Hpg.
  unfold bind at 1, of_result at 1.
  cbv zeta.
  destruct (py_contains "next" paging) as [[|]|e]; [|reflexivity|reflexivity].
  cbn [negb]. unfold bind at 1, of_result at 1.
  destruct (py_getitem paging "next") as [next|e]; [|reflexivity].
  unfold bind at 1, of_result at 1.
  destruct (py_getitem next "after") as [cursor|e]; reflexivity.
Qed.

(* ================================================================= *)
(** ** Runs against a paged dataset *)

(** A page as the remote end serves it: the records it holds, the cursor
    of the page after it, and the [Retry-After] values (absent or integer)
    of the 429 answers that come before the page is delivered. *)
Record page : Type := {
  throttles : list (option Z);
  entries : list json;
  next_cursor : option json
}.

Definition page_body (p : page) : json :=
  JObj (("results", JArr (entries p))
        :: match next_cursor p with
           | Some c => [("paging", JObj [("next", JObj [("after", c)])])]
           | None => []
           end)%string.

Definition ok_response (data : json) : response :=
  {| status_code := 200; retry_after_header := None; body := Some data |}.

Definition throttle_response (h : option Z) : response :=
  {| status_code := 429; retry_after_header := option_map IntText h;
     body := None |}.

(** Requests number [k], [k+1], ... with parameters [ps] are answered 429. *)
Fixpoint throttled (env : Env) (ps : params) (k : nat) (hs : list (option Z))
  : Prop :=
  match hs with
  | [] => True
  | h :: rest =>
      server env k ps = Responds (throttle_response h)
      /\ throttled env ps (S k) rest
  end.

(** From request number [k] on, the remote end serves the chain [pages]
    to a client that starts with [cursor] and follows the cursors: every
    page but the last names the next, the last names none. *)
Fixpoint serves (env : Env) (properties : option (list string))
    (archived : bool) (k : nat) (cursor : json) (pages : list page) : Prop :=
  match pages with
  | [] => False
  | p :: rest =>
      let ps := build_params 100 cursor properties archived in
      throttled env ps k (throttles p)
      /\ server env (k + List.length (throttles p)) ps
         = Responds (ok_response (page_body p))
      /\ match next_cursor p, rest with
         | None, [] => True
         | Some c, _ :: _ =>
             serves env properties archived
               (S (k + List.length (throttles p))) c rest
         | _, _ => False
         end
  end.

(** The requests such a run sends. *)
Fixpoint requests_for (properties : option (list string)) (archived : bool)
    (cursor : json) (pages : list page) : list params :=
  match pages with
  | [] => []
  | p :: rest =>
      repeat (build_params 100 cursor properties archived)
        (S (List.length (throttles p)))
      ++ match next_cursor p with
         | Some c => requests_for properties archived c rest
         | None => []
         end
  end.

Definition requests_count (pages : list page) : nat :=
  list_sum (map (fun p => S (List.length (throttles p))) pages).

(** Records held by the first [i] pages. *)
Definition records_upto (i : nat) (pages : list page) : Z :=
  Z.of_nat (List.length (List.concat (map entries (firstn i pages)))).

(** The callback calls due over [pages] when [j0] pages and [t0] records
    came before: one for each page whose number is a multiple of [n], with
    that number and the running total. *)
Definition checkpoints_from (n j0 t0 : Z) (pages : list page) : list (Z * Z) :=
  map (fun i => (j0 + Z.of_nat i, t0 + records_upto i pages))
    (filter (fun i => (j0 + Z.of_nat i) mod n =? 0)
       (seq 1 (List.length pages))).

Lemma records_upto_S (i : nat) (p : page) (rest : list page) :
  records_upto (S i) (p :: rest)
  = Z.of_nat (List.length (entries p)) + records_upto i rest.
Proof.
  unfold records_upto. cbn [firstn map List.concat]. rewrite length_app. lia.
Qed.

Lemma records_upto_mono (i j : nat) (pages : list page) :
  (i <= j)%nat -> records_upto i pages <= records_upto j pages.
Proof.
  revert i j. induction pages as [|p rest IH]; intros i j Hij.
  - unfold records_upto. rewrite !firstn_nil. lia.
  - destruct i as [|i].
    + unfold records_upto at 1. cbn. unfold records_upto. lia.
    + destruct j as [|j]; [lia|].
      rewrite !records_upto_S. specialize (IH i j). lia.
Qed.

Lemma checkpoints_from_cons (n j0 t0 : Z) (p : page) (rest : list page) :
  checkpoints_from n j0 t0 (p :: rest)
  = (if (j0 + 1) mod n =? 0
     then [(j0 + 1, t0 + Z.of_nat (List.length (entries p)))] else [])
    ++ checkpoints_from n (j0 + 1)
         (t0 + Z.of_nat (List.length (entries p))) rest.
Proof.
  unfold checkpoints_from. cbn [List.length seq filter].
  replace (j0 + Z.of_nat 1) with (j0 + 1) by lia.
  assert (Htail :
    map (fun i => (j0 + Z.of_nat i, t0 + records_upto i (p :: rest)))
      (filter (fun i => (j0 + Z.of_nat i) mod n =? 0)
         (seq 2 (List.length rest)))
    = map (fun i => (j0 + 1 + Z.of_nat i,
                     t0 + Z.of_nat (List.length (entries p))
                     + records_upto i rest))
        (filter (fun i => (j0 + 1 + Z.of_nat i) mod n =? 0)
           (seq 1 (List.length rest)))).
  { rewrite <- (seq_shift (List.length rest) 1).
    rewrite filter_map_swap, map_map.
    rewrite (filter_ext (fun x => (j0 + Z.of_nat (S x)) mod n =? 0)
               (fun i => (j0 + 1 + Z.of_nat i) mod n =? 0)).
    - apply map_ext. intro i. rewrite records_upto_S. f_equal; lia.
    - intro i. f_equal. f_equal. lia. }
  destruct ((j0 + 1) mod n =? 0); cbn [map app].
  - rewrite Htail. f_equal. f_equal.
    rewrite (records_upto_S 0). unfold records_upto. cbn. lia.
  - exact Htail.
Qed.

Section Runs.

Variable env : Env.
Variable properties : option (list string).
Variable archived : bool.
Variable cb : bool.
Variable n : Z.
Hypothesis interval_ok : cb = true -> n <> 0.

Let body := loop_body env properties archived cb n.
Let loop := get_all_deals_loop env properties archived cb n.

Lemma fetched_sent (g : Gen) :
  sent (fetched env properties archived g)
  = sent (world g) ++ [build_params 100 (after g) properties archived].
Proof. unfold fetched. cbn. rewrite after_wait_sent. reflexivity. Qed.

Lemma fetched_checkpoints (g : Gen) :
  checkpoints (fetched env properties archived g) = checkpoints (world g).
Proof. unfold fetched. cbn. apply after_wait_checkpoints. Qed.

(** A turn that is answered with a page. *)
Lemma loop_body_served (g : Gen) (p : page) :
  answer env properties archived g = Responds (ok_response (page_body p)) ->
  body g
  = let g1 := page_done cb n (entries p)
                (with_world g (fetched env properties archived g)) in
    match next_cursor p with
    | None => (Ok Break, g1)
    | Some c =>
        (Ok Continue,
         {| after := c; page_count := page_count g1;
            total_deals := total_deals g1; yielded := yielded g1;
            world := world g1 |})
    end.
Proof.
  intro Hans. unfold body. rewrite loop_body_fetch, Hans.
  assert (Hcl : classify 30 (Responds (ok_response (page_body p)))
                = Ok (page_body p)) by reflexivity.
  rewrite Hcl. unfold try_except.
  unfold page_body at 1.
  destruct (next_cursor p) as [c|] eqn:Ec.
  - rewrite (process_page_run cb n _ (JArr (entries p))
               (JObj [("next", JObj [("after", c)])])%string (entries p));
      try reflexivity; try exact interval_ok.
  - rewrite (process_page_run cb n _ (JArr (entries p)) (JObj [])
               (entries p));
      try reflexivity; try exact interval_ok.
Qed.

(** Throttled turns leave the frame alone and use up one request
    each, with the same parameters. *)
Lemma loop_throttled_prefix (hs : list (option Z)) :
  forall (g : Gen) (fuel : nat),
    throttled env (build_params 100 (after g) properties archived)
      (List.length (sent (world g))) hs ->
    exists w',
      loop (List.length hs + fuel)%nat g = loop fuel (with_world g w')
      /\ sent w'
         = sent (world g)
           ++ repeat (build_params 100 (after g) properties archived)
                (List.length hs)
      /\ checkpoints w' = checkpoints (world g).
Proof.
  induction hs as [|h rest IH]; intros g fuel Hth.
  - exists (world g). cbn [List.length repeat Nat.add].
    rewrite app_nil_r. destruct g; repeat split; reflexivity.
  - destruct Hth as [Hans Hrest].
    cbn [List.length Nat.add]. unfold loop. cbn [get_all_deals_loop].
    rewrite (loop_body_throttled env properties archived cb n g
               (match h with Some d => d | None => 10 end)).
    2:{ unfold answer. rewrite Hans. destruct h; reflexivity. }
    set (g1 := with_world g (slept 10%Q (fetched env properties archived g))).
    destruct (IH g1 fuel) as [w' [Hrun [Hsent Hcp]]].
    { unfold g1. cbn [world after with_world slept sent].
      rewrite fetched_sent, length_app. cbn [List.length].
      rewrite Nat.add_1_r. exact Hrest. }
    exists w'. split; [|split].
    + exact Hrun.
    + rewrite Hsent. unfold g1. cbn [world after with_world slept sent].
      rewrite fetched_sent, <- app_assoc. reflexivity.
    + rewrite Hcp. unfold g1. cbn [world with_world slept checkpoints].
      apply fetched_checkpoints.
Qed.

(** A served chain is walked to its end. *)
Lemma loop_serves (pages : list page) :
  forall (g : Gen) (fuel : nat),
    serves env properties archived (List.length (sent (world g)))
      (after g) pages ->
    (requests_count pages <= fuel)%nat ->
    exists g',
      loop fuel g = (Exhausted, g')
      /\ yielded g' = yielded g ++ List.concat (map entries pages)
      /\ page_count g' = page_count g + Z.of_nat (List.length pages)
      /\ total_deals g'
         = total_deals g + records_upto (List.length pages) pages
      /\ sent (world g')
         = sent (world g) ++ requests_for properties archived (after g) pages
      /\ checkpoints (world g')
         = checkpoints (world g)
           ++ (if cb
               then checkpoints_from n (page_count g) (total_deals g) pages
               else []).
Proof.
  induction pages as [|p rest IH]; intros g fuel Hsv Hfuel; [destruct Hsv|].
  destruct Hsv as [Hth [Hans Hnext]].
  unfold requests_count in Hfuel. cbn [map] in Hfuel.
  unfold list_sum in Hfuel. cbn [fold_right] in Hfuel.
  fold (list_sum (map (fun p => S (List.length (throttles p))) rest)) in Hfuel.
  fold (requests_count rest) in Hfuel.
  destruct (loop_throttled_prefix (throttles p) g
              (fuel - List.length (throttles p)) Hth)
    as [w1 [Hrun1 [Hsent1 Hcp1]]].
  replace (List.length (throttles p) + (fuel - List.length (throttles p)))%nat
    with fuel in Hrun1 by lia.
  rewrite Hrun1. clear Hrun1.
  set (g1 := with_world g w1).
  assert (Hans1 : answer env properties archived g1
                  = Responds (ok_response (page_body p))).
  { unfold answer, g1. cbn [world after with_world].
    rewrite Hsent1, length_app, repeat_length. exact Hans. }
  destruct (fuel - List.length (throttles p))%nat as [|fuel'] eqn:Ef; [lia|].
  unfold loop. cbn [get_all_deals_loop].
  fold body. rewrite (loop_body_served g1 p Hans1). cbv zeta.
  assert (Hsent2 : sent (fetched env properties archived g1)
                   = sent (world g)
                     ++ repeat (build_params 100 (after g) properties archived)
                          (S (List.length (throttles p)))).
  { rewrite fetched_sent. unfold g1. cbn [world after with_world].
    rewrite Hsent1, <- app_assoc. f_equal.
    change [build_params 100 (after g) properties archived]
      with (repeat (build_params 100 (after g) properties archived) 1).
    rewrite <- repeat_app. f_equal. lia. }
  assert (Hcp2 : checkpoints (fetched env properties archived g1)
                 = checkpoints (world g)).
  { rewrite fetched_checkpoints. exact Hcp1. }
  assert (Hcpd :
    checkpoints (world (page_done cb n (entries p)
                          (with_world g1 (fetched env properties archived g1))))
    = checkpoints (world g)
      ++ (if cb
          then (if (page_count g + 1) mod n =? 0
                then [(page_count g + 1,
                       total_deals g + Z.of_nat (List.length (entries p)))]
                else [])
          else [])).
  { unfold g1 in Hcp2 |- *. unfold page_done.
    cbn [world with_world page_count total_deals].
    destruct cb; cbn [andb].
    - destruct ((page_count g + 1) mod n =? 0).
      + unfold checkpointed. cbn [checkpoints]. rewrite Hcp2. reflexivity.
      + rewrite Hcp2, app_nil_r. reflexivity.
    - rewrite Hcp2, app_nil_r. reflexivity. }
  assert (Hsentd :
    sent (world (page_done cb n (entries p)
                   (with_world g1 (fetched env properties archived g1))))
    = sent (fetched env properties archived g1)).
  { unfold page_done. cbn [world with_world].
    destruct (cb && _); reflexivity. }
  destruct (next_cursor p) as [c|] eqn:Ec.
  - destruct rest as [|p' rest']; [destruct Hnext|].
    match goal with |- exists g', get_all_deals_loop _ _ _ _ _ _ ?G = _ /\ _ =>
      set (g2 := G) end.
    destruct (IH g2 fuel') as [g' [Hrun [Hy [Hpc [Htd [Hs Hc]]]]]].
    { unfold g2. cbn [world after]. rewrite Hsentd, Hsent2, length_app,
        repeat_length. cbn [List.length] in *.
      replace (List.length (sent (world g)) + S (List.length (throttles p)))%nat
        with (S (List.length (sent (world g)) + List.length (throttles p)))
        by lia.
      exact Hnext. }
    { lia. }
    exists g'. split; [exact Hrun|].
    unfold g2 in Hy, Hpc, Htd, Hs, Hc.
    cbn [yielded page_count total_deals page_done with_world g1]
      in Hy, Hpc, Htd.
    cbn [world after] in Hs, Hc.
    split; [|split; [|split; [|split]]].
    + rewrite Hy. cbn [map List.concat]. rewrite <- app_assoc. reflexivity.
    + rewrite Hpc. cbn [List.length]. lia.
    + rewrite Htd.
      change (List.length (p :: p' :: rest'))
        with (S (List.length (p' :: rest'))).
      rewrite (records_upto_S _ p). lia.
    + rewrite Hs, Hsentd, Hsent2. cbn [requests_for]. rewrite Ec.
      rewrite <- app_assoc. reflexivity.
    + rewrite Hc, Hcpd, <- app_assoc. f_equal.
      destruct cb; [|reflexivity].
      rewrite (checkpoints_from_cons n (page_count g) (total_deals g) p).
      reflexivity.
  - destruct rest as [|p' rest']; [|destruct Hnext].
    eexists. split; [reflexivity|].
    split; [|split; [|split; [|split]]].
    + cbn [yielded page_done with_world g1 map List.concat].
      rewrite app_nil_r. reflexivity.
    + cbn [page_count page_done with_world g1 List.length]. lia.
    + cbn [total_deals page_done with_world g1 List.length].
      rewrite (records_upto_S 0). unfold records_upto. cbn. lia.
    + rewrite Hsentd, Hsent2. cbn [requests_for]. rewrite Ec, app_nil_r.
      reflexivity.
    + rewrite Hcpd. f_equal. destruct cb; [|reflexivity].
      rewrite checkpoints_from_cons. unfold checkpoints_from.
      cbn [List.length seq filter map]. rewrite app_nil_r. reflexivity.
Qed.

End Runs.

(* ================================================================= *)
(** ** Claims about the paginated generator *)

(** A remote end that plays a fixed script, whatever it is asked. *)
Definition responses_of (p : page) : list http_outcome :=
  map (fun h => Responds (throttle_response h)) (throttles p)
  ++ [Responds (ok_response (page_body p))].

Definition script_env (pages : list page) : Env :=
  {| elapsed := fun _ => 0%Q;
     server := fun k _ =>
       nth k (List.concat (map responses_of pages))
         (Fails ReqConnectionError) |}.

Definition deal (id name : string) : json :=
  JObj [ ("id", JStr id);
         ("properties", JObj [("dealname", JStr name)]);
         ("createdAt", JStr "2024-01-01T00:00:00Z");
         ("updatedAt", JStr "2024-01-02T00:00:00Z");
         ("archived", JBool false) ]%string.

(** C5. Cursor chaining and order.  When the remote end answers the
    request without cursor with a first page that names the cursor
    "cursor123", and the request with that cursor with a last page, the
    run ends normally having yielded the records of the first page
    followed by those of the second, in the order of the pages; it sends
    exactly two requests, the first without an [after] parameter and the
    second with [after] equal to "cursor123". *)
Theorem two_pages_cursor_chain (env : Env) (properties : option (list string))
    (archived cb : bool) (n : Z) (fuel : nat) (w : World)
    (records1 records2 : list json) :
  let first := build_params 100 JNull properties archived in
  let second := build_params 100 (JStr "cursor123") properties archived in
  server env (List.length (sent w)) first
  = Responds (ok_response
      (JObj [ ("results", JArr records1);
              ("paging", JObj [("next", JObj [("after", JStr "cursor123")])])
            ]%string)) ->
  server env (S (List.length (sent w))) second
  = Responds (ok_response (JObj [("results", JArr records2)]%string)) ->
  (cb = true -> n <> 0) ->
  (2 <= fuel)%nat ->
  exists g,
    get_all_deals env properties archived cb n fuel w = (Exhausted, g)
    /\ yielded g = records1 ++ records2
    /\ sent (world g) = sent w ++ [first; second]
    /\ dict_lookup "after" first = None
    /\ dict_lookup "after" second = Some (JStr "cursor123").
Proof.
  intros first second H1 H2 Hn Hfuel.
  set (p1 := {| throttles := []; entries := records1;
                next_cursor := Some (JStr "cursor123") |}).
  set (p2 := {| throttles := []; entries := records2; next_cursor := None |}).
  destruct (loop_serves env properties archived cb n Hn [p1; p2] (start w) fuel)
    as [g [Hrun [Hy [_ [_ [Hs _]]]]]].
  - cbn [serves start world after throttles next_cursor p1 p2 List.length throttled].
    rewrite !Nat.add_0_r. repeat split; [exact H1|exact H2].
  - exact Hfuel.
  - exists g. split; [exact Hrun|]. split; [|split; [|split]].
    + rewrite Hy. cbn. rewrite app_nil_r. reflexivity.
    + rewrite Hs. reflexivity.
    + reflexivity.
    + reflexivity.
Qed.

Definition two_page_dataset : list page :=
  [ {| throttles := []; entries := [deal "123" "Deal 1"];
       next_cursor := Some (JStr "cursor123") |};
    {| throttles := []; entries := [deal "456" "Deal 2"];
       next_cursor := None |} ].

Lemma two_pages_cursor_chain_witness :
  exists g,
    get_all_deals (script_env two_page_dataset) None false false 5 2
      (init_world 0%Q) = (Exhausted, g)
    /\ yielded g = [deal "123" "Deal 1"] ++ [deal "456" "Deal 2"]
    /\ sent (world g)
       = sent (init_world 0%Q)
         ++ [build_params 100 JNull None false;
             build_params 100 (JStr "cursor123") None false]
    /\ dict_lookup "after" (build_params 100 JNull None false) = None
    /\ dict_lookup "after" (build_params 100 (JStr "cursor123") None false)
       = Some (JStr "cursor123").
Proof.
  apply (two_pages_cursor_chain (script_env two_page_dataset) None false false 5
           2 (init_world 0%Q) [deal "123" "Deal 1"] [deal "456" "Deal 2"]).
  - reflexivity.
  - reflexivity.
  - intro H. discriminate H.
  - lia.
Defined.

(** C7. Checkpoint cadence.  With a callback and a positive interval
    [n], a run over a chain of pages (429 answers in between do not
    count) calls the callback once for every page whose number is a
    multiple of [n], in order, with that page number and the number of
    records yielded so far, and at no other time.  For [n = 5] and
    twelve pages that is two calls, for pages 5 and 10, the second total
    not below the first. *)
Theorem checkpoint_cadence (env : Env) (properties : option (list string))
    (archived : bool) (n : Z) (fuel : nat) (w : World) (pages : list page) :
  0 < n ->
  serves env properties archived (List.length (sent w)) JNull pages ->
  (requests_count pages <= fuel)%nat ->
  exists g,
    get_all_deals env properties archived true n fuel w = (Exhausted, g)
    /\ page_count g = Z.of_nat (List.length pages)
    /\ total_deals g = Z.of_nat (List.length (yielded g))
    /\ checkpoints (world g)
       = checkpoints w
         ++ map (fun i => (Z.of_nat i, records_upto i pages))
              (filter (fun i => Z.of_nat i mod n =? 0)
                 (seq 1 (List.length pages)))
    /\ (n = 5 -> List.length pages = 12%nat ->
        checkpoints (world g)
        = checkpoints w
          ++ [(5, records_upto 5 pages); (10, records_upto 10 pages)]
        /\ records_upto 5 pages <= records_upto 10 pages).
Proof.
  intros Hn Hsv Hfuel.
  assert (Hn' : true = true -> n <> 0) by (intros _; lia).
  destruct (loop_serves env properties archived true n Hn' pages (start w) fuel
              Hsv Hfuel) as [g [Hrun [Hy [Hpc [Htd [_ Hc]]]]]].
  cbn [start yielded page_count total_deals world app] in Hy, Hpc, Htd, Hc.
  assert (Hcp : checkpoints (world g)
                = checkpoints w
                  ++ map (fun i => (Z.of_nat i, records_upto i pages))
                       (filter (fun i => Z.of_nat i mod n =? 0)
                          (seq 1 (List.length pages)))).
  { rewrite Hc. reflexivity. }
  exists g. split; [exact Hrun|]. split; [|split; [|split]].
  - rewrite Hpc. lia.
  - rewrite Htd, Hy. unfold records_upto. rewrite firstn_all. lia.
  - exact Hcp.
  - intros H5 H12. split.
    + rewrite Hcp, H5, H12. reflexivity.
    + apply records_upto_mono. lia.
Qed.

(** Twelve pages; page [i] holds [i] records, and the fourth page is
    delivered after one 429 answer. *)
Definition twelve_pages : list page :=
  map (fun i =>
         {| throttles := if (i =? 4)%nat then [Some 5] else [];
            entries := repeat (deal "1" "Deal") i;
            next_cursor := if (i <? 12)%nat then Some (JStr "next") else None |})
    (seq 1 12).

Lemma checkpoint_cadence_witness :
  exists g,
    get_all_deals (script_env twelve_pages) None false true 5 13
      (init_world 0%Q) = (Exhausted, g)
    /\ page_count g = Z.of_nat (List.length twelve_pages)
    /\ total_deals g = Z.of_nat (List.length (yielded g))
    /\ checkpoints (world g)
       = checkpoints (init_world 0%Q)
         ++ map (fun i => (Z.of_nat i, records_upto i twelve_pages))
              (filter (fun i => Z.of_nat i mod 5 =? 0)
                 (seq 1 (List.length twelve_pages)))
    /\ (5 = 5 -> List.length twelve_pages = 12%nat ->
        checkpoints (world g)
        = checkpoints (init_world 0%Q)
          ++ [(5, records_upto 5 twelve_pages);
              (10, records_upto 10 twelve_pages)]
        /\ records_upto 5 twelve_pages <= records_upto 10 twelve_pages).
Proof.
  apply (checkpoint_cadence (script_env twelve_pages) None false 5 13
           (init_world 0%Q) twelve_pages).
  - lia.
  - cbn. repeat split; reflexivity.
  - cbn. lia.
Defined.

(** The callback log of that run, computed. *)
Example twelve_pages_checkpoints :
  checkpoints
    (world (snd (get_all_deals (script_env twelve_pages) None false true 5 13
                   (init_world 0%Q))))
  = [(5, 15); (10, 55)].
Proof. vm_compute. reflexivity. Qed.

(** *** Record shape *)

(** The page of the single-page test of the repository. *)
Definition test_deal : json :=
  JObj [ ("id", JStr "123");
         ("properties",
          JObj [("dealname", JStr "Test Deal"); ("amount", JStr "10000")]);
         ("createdAt", JStr "2024-01-01T00:00:00Z");
         ("updatedAt", JStr "2024-01-02T00:00:00Z");
         ("archived", JBool false) ]%string.

Definition single_page : list page :=
  [ {| throttles := []; entries := [test_deal]; next_cursor := None |} ].

(** A record is the flat form of a page entry when it carries the
    entry's [id] and, at its top level, every key of the entry's
    [properties] mapping with the value found there. *)
Definition flat_record_of (entry record : json) : Prop :=
  forall props,
    py_getitem entry "properties" = Ok (JObj props) ->
    py_getitem record "id" = py_getitem entry "id"
    /\ forall k v, dict_lookup k props = Some v -> py_getitem record k = Ok v.

(** The normalization property as stated: the records yielded over a
    chain of pages are the flat forms of the page entries. *)
Definition yields_flat_records : Prop :=
  forall (env : Env) (properties : option (list string)) (archived cb : bool)
         (n : Z) (fuel : nat) (w : World) (pages : list page) (g : Gen),
    serves env properties archived (List.length (sent w)) JNull pages ->
    get_all_deals env properties archived cb n fuel w = (Exhausted, g) ->
    Forall2 flat_record_of (List.concat (map entries pages)) (yielded g).

(** C3, as stated, fails: on the single page of the repository's test
    the generator hands out the entry as it came, and that record has no
    top-level "dealname". *)
Lemma yields_flat_records_counterexample :
  let run := get_all_deals (script_env single_page) None false false 5 1
               (init_world 0%Q) in
  fst run = Exhausted
  /\ yielded (snd run) = [test_deal]
  /\ py_getitem test_deal "dealname" = Raise (KeyError "dealname")
  /\ ~ yields_flat_records.
Proof.
  split; [reflexivity|]. split; [reflexivity|]. split; [reflexivity|].
  intro H.
  assert (Hflat : Forall2 flat_record_of [test_deal] [test_deal]).
  { apply (H (script_env single_page) None false false 5 1%nat
             (init_world 0%Q) single_page
             (snd (get_all_deals (script_env single_page) None false false 5 1
                     (init_world 0%Q)))).
    - cbn. repeat split; reflexivity.
    - reflexivity. }
  inversion Hflat as [|entry record es rs Hfirst _]; subst.
  destruct (Hfirst _ eq_refl) as [_ Hkeys].
  specialize (Hkeys "dealname"%string (JStr "Test Deal") eq_refl).
  discriminate Hkeys.
Qed.

(** C3, amended.  The generator does no normalization: over a chain of
    pages it yields the entries of the [results] lists exactly as the
    remote end sent them, nested [properties] mapping included, page
    after page and in the order of each page; the count it keeps equals
    the number of records yielded. *)
Theorem yields_raw_entries (env : Env) (properties : option (list string))
    (archived cb : bool) (n : Z) (fuel : nat) (w : World) (pages : list page) :
  serves env properties archived (List.length (sent w)) JNull pages ->
  (cb = true -> n <> 0) ->
  (requests_count pages <= fuel)%nat ->
  exists g,
    get_all_deals env properties archived cb n fuel w = (Exhausted, g)
    /\ yielded g = List.concat (map entries pages)
    /\ total_deals g = Z.of_nat (List.length (yielded g))
    /\ forall record,
         In record (yielded g) <->
         exists p, In p pages /\ In record (entries p).
Proof.
  intros Hsv Hn Hfuel.
  destruct (loop_serves env properties archived cb n Hn pages (start w) fuel
              Hsv Hfuel) as [g [Hrun [Hy [_ [Htd _]]]]].
  cbn [start yielded total_deals app] in Hy, Htd.
  exists g. split; [exact Hrun|]. split; [exact Hy|]. split.
  - rewrite Htd, Hy. unfold records_upto. rewrite firstn_all. lia.
  - intro record. rewrite Hy, in_concat. split.
    + intros [l [Hl Hr]]. apply in_map_iff in Hl.
      destruct Hl as [p [Hp Hin]]. exists p. subst l. split; assumption.
    + intros [p [Hp Hr]]. exists (entries p). split; [|exact Hr].
      apply in_map. exact Hp.
Qed.

Lemma yields_raw_entries_witness :
  exists g,
    get_all_deals (script_env single_page) None false false 5 1
      (init_world 0%Q) = (Exhausted, g)
    /\ yielded g = List.concat (map entries single_page)
    /\ total_deals g = Z.of_nat (List.length (yielded g))
    /\ forall record,
         In record (yielded g) <->
         exists p, In p single_page /\ In record (entries p).
Proof.
  apply (yields_raw_entries (script_env single_page) None false false 5 1
           (init_world 0%Q) single_page).
  - cbn. repeat split; reflexivity.
  - intro H. discriminate H.
  - cbn. lia.
Defined.

(** *** Where the run ends *)

Lemma py_contains_raises (k : string) (v : json) (e : exn) :
  py_contains k v = Raise e -> handler e = None.
Proof.
  destruct v; cbn; intro H; inversion H; reflexivity.
Qed.

Lemma py_getitem_raises (v : json) (k : string) (e : exn) :
  py_getitem v k = Raise e -> handler e = None.
Proof.
  destruct v; cbn; intro H; try (inversion H; reflexivity).
  destruct (dict_lookup k kvs); inversion H; reflexivity.
Qed.

(** A turn answered with any JSON object whose [results] is a list. *)
Lemma loop_body_page (env : Env) (properties : option (list string))
    (archived cb : bool) (n : Z) (g : Gen) (kvs : list (string * json))
    (records : list json) (paging : json) :
  answer env properties archived g = Responds (ok_response (JObj kvs)) ->
  dict_lookup "results" kvs = Some (JArr records) ->
  py_get (JObj kvs) "paging" (JObj []) = Ok paging ->
  (cb = true -> n <> 0) ->
  loop_body env properties archived cb n g
  = let g1 := page_done cb n records
                (with_world g (fetched env properties archived g)) in
    match py_contains "next" paging with
    | Raise e => (Raise e, g1)
    | Ok false => (Ok Break, g1)
    | Ok true =>
        match py_getitem paging "next" with
        | Raise e => (Raise e, g1)
        | Ok next =>
            match py_getitem next "after" with
            | Raise e => (Raise e, g1)
            | Ok cursor =>
                (Ok Continue,
                 {| after := cursor; page_count := page_count g1;
                    total_deals := total_deals g1; yielded := yielded g1;
                    world := world g1 |})
            end
        end
    end.
Proof.
  intros Hans Hres Hpg Hn.
  assert (Hget : py_get (JObj kvs) "results" (JArr []) = Ok (JArr records)).
  { unfold py_get. rewrite Hres. reflexivity. }
  rewrite loop_body_fetch, Hans.
  assert (Hcl : classify 30 (Responds (ok_response (JObj kvs))) = Ok (JObj kvs)).
  { unfold classify. cbn [ok_response status_code body Z.eqb Z.leb Z.ltb
                           Z.compare Pos.compare Pos.compare_cont andb].
    rewrite Hget. reflexivity. }
  rewrite Hcl. unfold try_except.
  rewrite (process_page_run cb n kvs (JArr records) paging records
             _ Hget eq_refl Hpg Hn).
  cbv zeta.
  destruct (py_contains "next" paging) as [[|]|e] eqn:Ec.
  - destruct (py_getitem paging "next") as [next|e] eqn:En.
    + destruct (py_getitem next "after") as [cursor|e] eqn:Ea; [reflexivity|].
      rewrite (py_getitem_raises _ _ _ Ea). reflexivity.
    + rewrite (py_getitem_raises _ _ _ En). reflexivity.
  - reflexivity.
  - rewrite (py_contains_raises _ _ _ Ec). reflexivity.
Qed.

(** The page carries no usable cursor: no [paging], or a [paging]
    without [next], or a [next] without [after]. *)
Definition lacks_next_after (kvs : list (string * json)) : Prop :=
  dict_lookup "paging" kvs = None
  \/ (exists pg,
        dict_lookup "paging" kvs = Some (JObj pg)
        /\ dict_lookup "next" pg = None)
  \/ (exists pg nx,
        dict_lookup "paging" kvs = Some (JObj pg)
        /\ dict_lookup "next" pg = Some (JObj nx)
        /\ dict_lookup "after" nx = None).

(** The termination property as stated: a first page without usable
    cursor ends the run normally after its records. *)
Definition ends_when_next_after_is_missing : Prop :=
  forall (env : Env) (properties : option (list string)) (archived : bool)
         (fuel : nat) (w : World) (kvs : list (string * json))
         (records : list json),
    server env (List.length (sent w)) (build_params 100 JNull properties archived)
    = Responds (ok_response (JObj kvs)) ->
    dict_lookup "results" kvs = Some (JArr records) ->
    lacks_next_after kvs ->
    (0 < fuel)%nat ->
    exists g,
      get_all_deals env properties archived false 5 fuel w = (Exhausted, g)
      /\ yielded g = records.

(** A page whose [next] has no [after]. *)
Definition next_without_after : json :=
  JObj [ ("results", JArr [test_deal]);
         ("paging", JObj [("next", JObj [])]) ]%string.

Definition next_without_after_env : Env :=
  {| elapsed := fun _ => 0%Q;
     server := fun _ _ => Responds (ok_response next_without_after) |}.

(** C4, as stated, fails in its third case: when [next] is there
    without [after], the records of the page are yielded and then the
    lookup of the cursor fails; the run ends with [KeyError], not
    normally. *)
Lemma ends_when_next_after_is_missing_counterexample :
  let run := get_all_deals next_without_after_env None false false 5 3
               (init_world 0%Q) in
  fst run = Raised (KeyError "after")
  /\ yielded (snd run) = [test_deal]
  /\ ~ ends_when_next_after_is_missing.
Proof.
  split; [reflexivity|]. split; [reflexivity|].
  intro H.
  destruct (H next_without_after_env None false 3%nat (init_world 0%Q)
              [ ("results", JArr [test_deal]);
                ("paging", JObj [("next", JObj [])]) ]%string
              [test_deal]) as [g [Hrun _]].
  - reflexivity.
  - reflexivity.
  - right. right. exists [("next", JObj [])]%string, []. repeat split; reflexivity.
  - lia.
  - discriminate Hrun.
Qed.

(** *** Throttling *)

(** One page, delivered after one 429 answer that carries [h] as
    [Retry-After]. *)
Definition throttled_once (h : option Z) (records : list json) : list page :=
  [ {| throttles := [h]; entries := records; next_cursor := None |} ].

(** C2.  A 429 answer followed by a page: the same request is sent
    again (no cursor either time), the records of the page are yielded
    once, and the run ends normally; but the one sleep of the run lasts
    ten seconds whatever delay [d] the 429 answer announced. *)
Theorem throttle_sleep_ignores_retry_after (d : Z) (records : list json) :
  let run := get_all_deals (script_env (throttled_once (Some d) records))
               None false false 5 2 (init_world 0%Q) in
  fst run = Exhausted
  /\ yielded (snd run) = records
  /\ sent (world (snd run))
     = [build_params 100 JNull None false; build_params 100 JNull None false]
  /\ sleeps (world (snd run)) = [10%Q].
Proof.
  intro run. unfold run, get_all_deals. cbn [get_all_deals_loop].
  rewrite (loop_body_throttled _ None false false 5 (start (init_world 0%Q)) d)
    by reflexivity.
  cbn [get_all_deals_loop].
  rewrite (loop_body_page _ None false false 5 _
             [("results", JArr records)]%string records (JObj []))
    by (reflexivity || (intro H; discriminate H)).
  cbv zeta. cbn [py_contains dict_lookup fst snd yielded].
  repeat split; vm_compute; reflexivity.
Qed.

(** The announced delay of five seconds of the repository's test. *)
Example throttle_sleep_five_announced :
  sleeps (world (snd (get_all_deals
                        (script_env (throttled_once (Some 5) [test_deal]))
                        None false false 5 2 (init_world 0%Q))))
  = [10%Q].
Proof. vm_compute. reflexivity. Qed.

(** *** Authentication failures *)

Definition status_env (code : Z) (el : nat -> Q) (h : option header_value)
    (b : option json) : Env :=
  {| elapsed := el;
     server := fun _ _ =>
       Responds {| status_code := code; retry_after_header := h; body := b |} |}.

(** A 401 answer: [get_deals] raises the authentication error and the
    generator passes it on at once: one request, nothing yielded. *)
Lemma unauthorized_is_fatal (el : nat -> Q) (h : option header_value)
    (b : option json) (limit : Z) (cursor : json)
    (properties : option (list string)) (archived cb : bool) (timeout n : Z)
    (fuel : nat) (w : World) :
  let env := status_env 401 el h b in
  fst (get_deals env limit cursor properties archived timeout w)
  = Raise HubSpotAuthenticationError
  /\ fst (get_all_deals env properties archived cb n (S fuel) w)
     = Raised HubSpotAuthenticationError
  /\ yielded (snd (get_all_deals env properties archived cb n (S fuel) w)) = []
  /\ sent (world (snd (get_all_deals env properties archived cb n (S fuel) w)))
     = sent w ++ [build_params 100 JNull properties archived].
Proof.
  intro env. split.
  - rewrite get_deals_run. reflexivity.
  - unfold get_all_deals. cbn [get_all_deals_loop].
    rewrite (loop_body_fatal env properties archived cb n (start w)
               HubSpotAuthenticationError) by reflexivity.
    cbn [fst snd yielded world with_world start].
    repeat split. rewrite fetched_sent. reflexivity.
Qed.

(** C6.  A 403 answer is not raised as the authentication error:
    [get_deals] lets [raise_for_status] turn it into an HTTP error and
    re-raises that as the generic [HubSpotAPIError].  The generator still
    passes it on at once, after one request and with nothing yielded. *)
Theorem forbidden_raises_generic_error (el : nat -> Q)
    (h : option header_value) (b : option json) (limit : Z) (cursor : json)
    (properties : option (list string)) (archived cb : bool) (timeout n : Z)
    (fuel : nat) (w : World) :
  let env := status_env 403 el h b in
  fst (get_deals env limit cursor properties archived timeout w)
  = Raise (HubSpotAPIError (RequestFailed (ReqHTTPError 403)))
  /\ fst (get_deals env limit cursor properties archived timeout w)
     <> Raise HubSpotAuthenticationError
  /\ fst (get_all_deals env properties archived cb n (S fuel) w)
     = Raised (HubSpotAPIError (RequestFailed (ReqHTTPError 403)))
  /\ yielded (snd (get_all_deals env properties archived cb n (S fuel) w)) = []
  /\ sent (world (snd (get_all_deals env properties archived cb n (S fuel) w)))
     = sent w ++ [build_params 100 JNull properties archived].
Proof.
  intro env. split; [|split].
  - rewrite get_deals_run. reflexivity.
  - rewrite get_deals_run. cbn. discriminate.
  - unfold get_all_deals. cbn [get_all_deals_loop].
    rewrite (loop_body_fatal env properties archived cb n (start w)
               (HubSpotAPIError (RequestFailed (ReqHTTPError 403))))
      by reflexivity.
    cbn [fst snd yielded world with_world start].
    repeat split. rewrite fetched_sent. reflexivity.
Qed.

(* ================================================================= *)
(** * Further properties *)

(* ================================================================= *)
(** ** The stored list is chronological *)

(** The list is in non-decreasing order and holds nothing from the
    future.  The controller relies on it: it takes [_request_times[0]]
    for the oldest entry. *)
Definition chronological (w : World) : Prop :=
  StronglySorted Qle (_request_times w)
  /\ Forall (fun t => (t <= clock w)%Q) (_request_times w).

Lemma StronglySorted_prune (c : Q) (ts : list Q) :
  StronglySorted Qle ts -> StronglySorted Qle (prune c ts).
Proof.
  unfold prune. induction 1 as [|t ts Hs IH Hall]; cbn [filter];
    [constructor|].
  destruct (Qltb c t); [|exact IH].
  constructor; [exact IH|].
  apply Forall_forall. intros x Hx. apply filter_In in Hx.
  rewrite Forall_forall in Hall. apply Hall, Hx.
Qed.

Lemma StronglySorted_snoc (ts : list Q) (x : Q) :
  StronglySorted Qle ts -> Forall (fun t => (t <= x)%Q) ts ->
  StronglySorted Qle (ts ++ [x]).
Proof.
  induction 1 as [|t ts Hs IH Hall]; intro Hle; cbn [app].
  - constructor; constructor.
  - inversion Hle as [|? ? Ht Hrest]; subst.
    constructor; [apply IH, Hrest|].
    apply Forall_app. split; [exact Hall|]. constructor; [exact Ht|constructor].
Qed.

Lemma Forall_prune (P : Q -> Prop) (c : Q) (ts : list Q) :
  Forall P ts -> Forall P (prune c ts).
Proof.
  intro H. apply Forall_forall. intros x Hx. apply filter_In in Hx.
  rewrite Forall_forall in H. apply H, Hx.
Qed.

Lemma after_wait_clock (env : Env) (w : World) :
  (0 <= elapsed env (ticks w))%Q ->
  (0 <= elapsed env (S (ticks w)))%Q ->
  (clock w <= clock (after_wait env w))%Q.
Proof.
  intros H0 H1. unfold after_wait.
  set (now := (clock w + elapsed env (ticks w))%Q).
  destruct (prune (now - RATE_LIMIT_WINDOW) (_request_times w)) as [|t0 ts];
    cbn [clock]; [unfold now; lra|].
  destruct (_ && _) eqn:Ec; cbn [clock]; [|unfold now; lra].
  apply andb_true_iff in Ec. destruct Ec as [_ Ew]. apply Qltb_lt in Ew.
  unfold now in *. lra.
Qed.

Lemma wait_preserves_chronological (env : Env) (w : World) :
  (0 <= elapsed env (ticks w))%Q ->
  (0 <= elapsed env (S (ticks w)))%Q ->
  chronological w ->
  chronological (snd (_wait_for_rate_limit env w)).
Proof.
  intros H0 H1 [Hsorted Hpast].
  rewrite wait_for_rate_limit_run. cbn [snd].
  pose proof (after_wait_clock env w H0 H1) as Hclock.
  unfold chronological. rewrite (after_wait_list env w H1).
  set (now := clock (after_wait env w)) in *.
  assert (Hle : Forall (fun t => (t <= now)%Q)
                  (prune (now - RATE_LIMIT_WINDOW) (_request_times w))).
  { apply Forall_prune. eapply Forall_impl; [|exact Hpast].
    cbn. intros t Ht. lra. }
  split.
  - apply StronglySorted_snoc; [apply StronglySorted_prune, Hsorted|exact Hle].
  - apply Forall_app. split; [exact Hle|]. constructor; [lra|constructor].
Qed.

(** X1. An admission keeps the list chronological, and leaves it with
    entries of the current window only: each lies after [now - window]
    and not after [now], and the last one is [now] itself. *)
Theorem wait_keeps_chronological (env : Env) (w : World) :
  (0 <= elapsed env (ticks w))%Q ->
  (0 <= elapsed env (S (ticks w)))%Q ->
  chronological w ->
  let w' := snd (_wait_for_rate_limit env w) in
  chronological w'
  /\ Forall (fun t => (clock w' - RATE_LIMIT_WINDOW < t)%Q /\ (t <= clock w')%Q)
       (_request_times w')
  /\ last (_request_times w') 0%Q = clock w'.
Proof.
  intros H0 H1 Hc w'.
  pose proof (wait_preserves_chronological env w H0 H1 Hc) as Hc'.
  fold w' in Hc'. split; [exact Hc'|].
  destruct Hc' as [_ Hpast']. unfold w' in *. clear w'.
  rewrite wait_for_rate_limit_run in *. cbn [snd] in *.
  rewrite (after_wait_list env w H1) in *.
  set (now := clock (after_wait env w)) in *.
  split; [|apply last_last].
  apply Forall_app in Hpast'. destruct Hpast' as [Hle _].
  apply Forall_app. split.
  - apply Forall_forall. intros t Ht. split.
    + exact (prune_In _ _ _ Ht).
    + rewrite Forall_forall in Hle. apply Hle, Ht.
  - constructor; [|constructor]. unfold RATE_LIMIT_WINDOW. split; lra.
Qed.

Lemma init_world_chronological (t0 : Q) : chronological (init_world t0).
Proof. split; constructor. Qed.

Lemma wait_keeps_chronological_witness :
  let w' := snd (_wait_for_rate_limit quiet_env (init_world 0%Q)) in
  chronological w'
  /\ Forall (fun t => (clock w' - RATE_LIMIT_WINDOW < t)%Q /\ (t <= clock w')%Q)
       (_request_times w')
  /\ last (_request_times w') 0%Q = clock w'.
Proof.
  apply (wait_keeps_chronological quiet_env (init_world 0%Q)).
  - apply quiet_env_clock.
  - apply quiet_env_clock.
  - apply init_world_chronological.
Defined.



(* ================================================================= *)
(** ** The quota over the whole history of admissions *)

(** [n] admissions in a row (any amount of time may pass between them,
    as [elapsed] says): the timestamp each one records, oldest first, and
    the final state. *)
Fixpoint admissions (env : Env) (n : nat) (w : World) : list Q * World :=
  match n with
  | O => ([], w)
  | S k =>
      let w1 := snd (_wait_for_rate_limit env w) in
      let (h, w2) := admissions env k w1 in
      (last (_request_times w1) 0%Q :: h, w2)
  end.

(** The stored list is the part of the history [h] that the last
    pruning kept. *)
Definition window_of_history (w : World) (h : list Q) : Prop :=
  _request_times w = prune (clock w - RATE_LIMIT_WINDOW) h
  /\ Forall (fun t => (t <= clock w)%Q) h
  /\ Z.of_nat (List.length (_request_times w)) <= RATE_LIMIT_MAX
  /\ forall T, window_count T h <= RATE_LIMIT_MAX.

Lemma prune_snoc (c x : Q) (ts : list Q) :
  (c < x)%Q -> prune c (ts ++ [x]) = prune c ts ++ [x].
Proof.
  intro H. unfold prune. rewrite filter_app. cbn [filter].
  apply Qltb_lt in H. rewrite H. reflexivity.
Qed.

Lemma filter_length_impl {A} (f g : A -> bool) (l : list A) :
  (forall x, In x l -> f x = true -> g x = true) ->
  (List.length (filter f l) <= List.length (filter g l))%nat.
Proof.
  induction l as [|a l IH]; intro H; [cbn; lia|].
  assert (IH' : (List.length (filter f l) <= List.length (filter g l))%nat).
  { apply IH. intros x Hx. apply H. right. exact Hx. }
  cbn [filter]. destruct (f a) eqn:Ef.
  - rewrite (H a (or_introl eq_refl) Ef). cbn [List.length]. lia.
  - destruct (g a); cbn [List.length]; lia.
Qed.

Lemma window_of_history_step (env : Env) (w : World) (h : list Q) :
  (0 <= elapsed env (ticks w))%Q ->
  (0 <= elapsed env (S (ticks w)))%Q ->
  window_of_history w h ->
  window_of_history (after_wait env w) (h ++ [clock (after_wait env w)]).
Proof.
  intros H0 H1 [Hlist [Hpast [Hlen Hwin]]].
  pose proof (after_wait_clock env w H0 H1) as Hclock.
  pose proof (after_wait_list env w H1) as Hnew.
  pose proof (after_wait_length env w H1 Hlen) as Hlen'.
  set (w' := after_wait env w) in *. set (now := clock w') in *.
  assert (Hw : (now - RATE_LIMIT_WINDOW < now)%Q)
    by (unfold RATE_LIMIT_WINDOW; lra).
  assert (Hlist' : _request_times w'
                   = prune (now - RATE_LIMIT_WINDOW) (h ++ [now])).
  { rewrite Hnew, Hlist, prune_prune by lra.
    symmetry. apply prune_snoc, Hw. }
  split; [exact Hlist'|]. split; [|split; [exact Hlen'|]].
  - change (clock w') with now. apply Forall_app. split.
    + eapply Forall_impl; [|exact Hpast]. cbn. intros t Ht. lra.
    + constructor; [lra|constructor].
  - intro T. destruct (Qlt_le_dec T now) as [Hlt|Hge].
    + (* the new entry is after the window that ends at [T] *)
      unfold window_count. rewrite filter_app. cbn [filter].
      assert (Hout : in_window T now = false).
      { unfold in_window. apply andb_false_iff. right.
        destruct (Qle_bool now T) eqn:E; [|reflexivity].
        apply Qle_bool_iff in E. lra. }
      rewrite Hout, app_nil_r. apply Hwin.
    + (* the window that ends at [T] lies within what the list keeps *)
      unfold window_count.
      assert (Hsub : (List.length (filter (in_window T) (h ++ [now]))
                      <= List.length (_request_times w'))%nat).
      { rewrite Hlist'. unfold prune. apply filter_length_impl.
        intros t _ Ht. unfold in_window in Ht.
        apply andb_true_iff in Ht. destruct Ht as [Ht _].
        apply Qltb_lt in Ht. apply Qltb_lt. lra. }
      lia.
Qed.

Lemma admissions_history (env : Env) :
  (forall k, (0 <= elapsed env k)%Q) ->
  forall (n : nat) (w : World) (h0 : list Q),
    window_of_history w h0 ->
    window_of_history (snd (admissions env n w))
      (h0 ++ fst (admissions env n w)).
Proof.
  intros Hel n. induction n as [|n IH]; intros w h0 Hinv.
  - cbn. rewrite app_nil_r. exact Hinv.
  - cbn [admissions]. rewrite wait_for_rate_limit_run. cbn [snd].
    pose proof (window_of_history_step env w h0 (Hel _) (Hel _) Hinv) as Hstep.
    rewrite (after_wait_list env w (Hel _)), last_last.
    specialize (IH (after_wait env w) _ Hstep).
    destruct (admissions env n (after_wait env w)) as [h w2].
    cbn [fst snd] in *. rewrite <- app_assoc in IH. exact IH.
Qed.

Lemma admissions_respect_quota_aux (env : Env) (n : nat) (w : World) :
  (forall k, (0 <= elapsed env k)%Q) ->
  _request_times w = [] ->
  List.length (fst (admissions env n w)) = n
  /\ forall T, window_count T (fst (admissions env n w)) <= RATE_LIMIT_MAX.
Proof.
  intros Hel Hfresh. split.
  - clear Hfresh. revert w. induction n as [|n IH]; intro w; [reflexivity|].
    cbn [admissions]. specialize (IH (snd (_wait_for_rate_limit env w))).
    destruct (admissions env n _) as [h w2]. cbn [fst] in *.
    cbn [List.length]. rewrite IH. reflexivity.
  - assert (H0 : window_of_history w []).
    { split; [rewrite Hfresh; reflexivity|]. split; [constructor|].
      split; [rewrite Hfresh; cbn; unfold RATE_LIMIT_MAX; lia|].
      intro T'. cbn. unfold RATE_LIMIT_MAX. lia. }
    destruct (admissions_history env Hel n w [] H0) as [_ [_ [_ Hwin]]].
    exact Hwin.
Qed.

(** Two hundred admissions at one go: 150 at time 0, the others at
    time 10, after one sleep of the whole window. *)
Example admissions_200 :
  let h := fst (admissions quiet_env 200 (init_world 0%Q)) in
  window_count 9%Q h = 150 /\ window_count 10%Q h = 50
  /\ sleeps (snd (admissions quiet_env 200 (init_world 0%Q))) = [10%Q].
Proof. vm_compute. repeat split; reflexivity. Qed.

(* ================================================================= *)
(** ** The status report *)

Lemma get_rate_limit_status_run (env : Env) (w : World) :
  let now := (clock w + elapsed env (ticks w))%Q in
  let active := prune (now - RATE_LIMIT_WINDOW) (_request_times w) in
  get_rate_limit_status env w
  = (Ok {| requests_in_window := Z.of_nat (List.length active);
           max_requests := RATE_LIMIT_MAX;
           window_seconds := RATE_LIMIT_WINDOW;
           remaining := RATE_LIMIT_MAX - Z.of_nat (List.length active) |},
     {| clock := now; ticks := S (ticks w);
        _request_times := _request_times w; sleeps := sleeps w;
        sent := sent w; checkpoints := checkpoints w |}).
Proof. reflexivity. Qed.

Lemma prune_length_mono (c1 c2 : Q) (ts : list Q) :
  (c1 <= c2)%Q ->
  (List.length (prune c2 ts) <= List.length (prune c1 ts))%nat.
Proof.
  intro H. rewrite <- (prune_prune c1 c2 ts H). apply prune_length.
Qed.

(** X5. The report can be trusted by the next admission: when the
    status query reports a positive remaining budget and the clock does
    not run backwards, the admission that follows it does not sleep. *)
Theorem positive_budget_admits_at_once (env : Env) (w : World) :
  (0 <= elapsed env (S (ticks w)))%Q ->
  forall status w1,
    get_rate_limit_status env w = (Ok status, w1) ->
    0 < remaining status ->
    fst (_wait_for_rate_limit env w1) = Ok tt
    /\ sleeps (snd (_wait_for_rate_limit env w1)) = sleeps w.
Proof.
  intros H1 status w1 Hst Hrem.
  rewrite get_rate_limit_status_run in Hst.
  injection Hst as Hstatus Hw1. subst status w1.
  change (0 < RATE_LIMIT_MAX
              - Z.of_nat (List.length
                  (prune (clock w + elapsed env (ticks w) - RATE_LIMIT_WINDOW)
                     (_request_times w)))) in Hrem.
  rewrite wait_for_rate_limit_run. split; [reflexivity|]. cbn [snd].
  match goal with |- sleeps (after_wait env ?w1) = _ =>
    destruct (after_wait_sleeps env w1) as [_ Hno] end.
  cbn [clock ticks _request_times sleeps] in Hno. apply Hno.
  set (now := (clock w + elapsed env (ticks w))%Q) in *.
  pose proof (prune_length_mono (now - RATE_LIMIT_WINDOW)
                (now + elapsed env (S (ticks w)) - RATE_LIMIT_WINDOW)
                (_request_times w)) as Hm.
  assert (Hc : (now - RATE_LIMIT_WINDOW
                <= now + elapsed env (S (ticks w)) - RATE_LIMIT_WINDOW)%Q) by lra.
  specialize (Hm Hc). lia.
Qed.

Lemma positive_budget_admits_at_once_witness :
  let w1 := snd (get_rate_limit_status quiet_env (init_world 0%Q)) in
  fst (_wait_for_rate_limit quiet_env w1) = Ok tt
  /\ sleeps (snd (_wait_for_rate_limit quiet_env w1))
     = sleeps (init_world 0%Q).
Proof.
  apply (positive_budget_admits_at_once quiet_env (init_world 0%Q)
           (quiet_env_clock _) _ _
           (get_rate_limit_status_run quiet_env (init_world 0%Q))).
  reflexivity.
Defined.

(* ================================================================= *)
(** ** What a single fetch returns and raises *)

(** Values [len()] accepts. *)
Definition has_len (v : json) : bool :=
  match v with
  | JArr _ | JObj _ | JStr _ => true
  | _ => false
  end.

Lemma py_len_has_len (v : json) :
  (exists k, py_len v = Ok k) <-> has_len v = true.
Proof.
  split.
  - intros [k H]. destruct v; cbn in *; try discriminate H; reflexivity.
  - intro H. destruct v; cbn in *; try discriminate H; eexists; reflexivity.
Qed.

(** X6. [get_deals] succeeds exactly when the answer has a status
    outside 400..599, its body decodes to a JSON object, and the
    [results] entry of that object, if there is one, is something [len()]
    accepts; it then returns the decoded body unchanged. *)
Theorem get_deals_succeeds_iff (env : Env) (limit : Z) (cursor : json)
    (properties : option (list string)) (archived : bool) (timeout : Z)
    (w : World) (data : json) :
  fst (get_deals env limit cursor properties archived timeout w) = Ok data
  <-> exists r kvs,
        server env (List.length (sent w))
          (build_params limit cursor properties archived) = Responds r
        /\ (status_code r < 400 \/ 600 <= status_code r)
        /\ body r = Some data
        /\ data = JObj kvs
        /\ match dict_lookup "results" kvs with
           | Some results => has_len results = true
           | None => True
           end.
Proof.
  rewrite get_deals_run. cbn [fst]. unfold classify.
  destruct (server env _ _) as [e|r].
  - split.
    + destruct e; discriminate.
    + intros [r' [kvs [H _]]]. discriminate H.
  - destruct (status_code r =? 429) eqn:E429.
    { apply Z.eqb_eq in E429. split.
      - destruct (header_int _ _); discriminate.
      - intros [r' [kvs [H [Hs _]]]]. injection H as <-. lia. }
    destruct (status_code r =? 401) eqn:E401.
    { apply Z.eqb_eq in E401. split; [discriminate|].
      intros [r' [kvs [H [Hs _]]]]. injection H as <-. lia. }
    destruct ((400 <=? status_code r) && (status_code r <? 600)) eqn:Eerr.
    { apply andb_true_iff in Eerr. destruct Eerr as [E1 E2].
      apply Z.leb_le in E1. apply Z.ltb_lt in E2. split; [discriminate|].
      intros [r' [kvs [H [Hs _]]]]. injection H as <-. lia. }
    assert (Hstatus : status_code r < 400 \/ 600 <= status_code r).
    { apply andb_false_iff in Eerr. destruct Eerr as [E|E].
      - apply Z.leb_gt in E. left. exact E.
      - apply Z.ltb_ge in E. right. exact E. }
    destruct (body r) as [d|] eqn:Eb.
    + split.
      * intro H.
        destruct d as [| | | | |kvs]; try discriminate H.
        unfold py_get in H.
        exists r, kvs.
        destruct (dict_lookup "results" kvs) as [results|] eqn:Er.
        -- destruct (py_len results) as [k|e] eqn:El; [|discriminate H].
           injection H as <-.
           repeat split; try assumption; try reflexivity.
           apply py_len_has_len. exists k. exact El.
        -- cbn in H. injection H as <-.
           repeat split; try assumption; try reflexivity.
      * intros [r' [kvs [H [_ [Hb [Hd Hres]]]]]]. injection H as <-.
        rewrite Eb in Hb. injection Hb as ->. subst data.
        unfold py_get.
        destruct (dict_lookup "results" kvs) as [results|]; [|reflexivity].
        apply py_len_has_len in Hres. destruct Hres as [k Hk].
        rewrite Hk. reflexivity.
    + split; [discriminate|].
      intros [r' [kvs [H [_ [Hb _]]]]]. injection H as <-.
      rewrite Eb in Hb. discriminate Hb.
Qed.

Lemma classify_raises (timeout : Z) (o : http_outcome) (e : exn) :
  classify timeout o = Raise e ->
  is_HubSpotAPIError e = true
  \/ e = ValueError \/ e = AttributeError \/ e = TypeError.
Proof.
  unfold classify. destruct o as [e0|r].
  - destruct e0; intro H; injection H as <-; left; reflexivity.
  - destruct (status_code r =? 429).
    { destruct (retry_after_header r) as [[k|s]|]; cbn; intro H;
        injection H as <-;
        [left; reflexivity|right; left; reflexivity|left; reflexivity]. }
    destruct (status_code r =? 401);
      [intro H; injection H as <-; left; reflexivity|].
    destruct ((400 <=? status_code r) && (status_code r <? 600));
      [intro H; injection H as <-; left; reflexivity|].
    destruct (body r) as [d|];
      [|intro H; injection H as <-; left; reflexivity].
    destruct d as [| | | | |kvs]; cbn;
      try (intro H; injection H as <-; right; right; left; reflexivity).
    destruct (dict_lookup "results" kvs) as [results|]; cbn;
      [|discriminate].
    destruct results; cbn; try discriminate;
      intro H; injection H as <-; right; right; right; reflexivity.
Qed.

(** X7. [get_deals] never lets an exception of the [requests] library
    escape: time-outs, transport failures, HTTP errors raised by
    [raise_for_status] and undecodable bodies all come out as
    [HubSpotAPIError].  What it raises is an error of the [HubSpotAPIError]
    family, or [ValueError] (a [Retry-After] that is no integer),
    [AttributeError] (a body that is no object) or [TypeError] (a
    [results] without length). *)
Theorem get_deals_raises_only (env : Env) (limit : Z) (cursor : json)
    (properties : option (list string)) (archived : bool) (timeout : Z)
    (w : World) :
  match fst (get_deals env limit cursor properties archived timeout w) with
  | Ok _ => True
  | Raise e =>
      is_HubSpotAPIError e = true
      \/ e = ValueError \/ e = AttributeError \/ e = TypeError
  end.
Proof.
  rewrite get_deals_run. cbn [fst].
  destruct (classify timeout _) as [data|e] eqn:Ec; [exact I|].
  exact (classify_raises _ _ _ Ec).
Qed.

(** X8. How the failures of the transport are told apart: a time-out
    is reported with the time-out that was asked for, any other failure
    of [requests.get] with its cause, and a 4xx or 5xx status other than
    429 and 401 with that status. *)
Theorem get_deals_transport_failures (env : Env) (limit : Z) (cursor : json)
    (properties : option (list string)) (archived : bool) (timeout : Z)
    (w : World) :
  let o := server env (List.length (sent w))
             (build_params limit cursor properties archived) in
  let result := fst (get_deals env limit cursor properties archived timeout w) in
  (o = Fails ReqTimeout ->
   result = Raise (HubSpotAPIError (RequestTimeout timeout)))
  /\ (forall e, o = Fails e -> e <> ReqTimeout ->
      result = Raise (HubSpotAPIError (RequestFailed e)))
  /\ (forall r, o = Responds r ->
      400 <= status_code r < 600 ->
      status_code r <> 429 -> status_code r <> 401 ->
      result = Raise (HubSpotAPIError
                        (RequestFailed (ReqHTTPError (status_code r)))))
  /\ (forall r, o = Responds r ->
      (status_code r < 400 \/ 600 <= status_code r) -> body r = None ->
      result = Raise (HubSpotAPIError (RequestFailed ReqJSONDecodeError))).
Proof.
  intros o result. unfold result. rewrite get_deals_run. cbn [fst]. fold o.
  split; [|split; [|split]].
  - intros ->. reflexivity.
  - intros e -> He. destruct e; try reflexivity. contradiction.
  - intros r -> [H1 H2] H429 H401. unfold classify.
    apply Z.eqb_neq in H429, H401. rewrite H429, H401.
    apply Z.leb_le in H1. apply Z.ltb_lt in H2. rewrite H1, H2. reflexivity.
  - intros r -> Hs Hb. unfold classify.
    assert (H429 : (status_code r =? 429) = false) by (apply Z.eqb_neq; lia).
    assert (H401 : (status_code r =? 401) = false) by (apply Z.eqb_neq; lia).
    rewrite H429, H401.
    assert (He : ((400 <=? status_code r) && (status_code r <? 600)) = false).
    { apply andb_false_iff. destruct Hs as [Hs|Hs].
      - left. apply Z.leb_gt. exact Hs.
      - right. apply Z.ltb_ge. exact Hs. }
    rewrite He, Hb. reflexivity.
Qed.

Definition timeout_env : Env :=
  {| elapsed := fun _ => 0%Q; server := fun _ _ => Fails ReqTimeout |}.

Lemma get_deals_transport_failures_witness :
  fst (get_deals timeout_env 50 JNull None false 7 (init_world 0%Q))
  = Raise (HubSpotAPIError (RequestTimeout 7)).
Proof.
  exact (proj1 (get_deals_transport_failures timeout_env 50 JNull None false 7
                  (init_world 0%Q)) eq_refl).
Defined.

(* ================================================================= *)
(** ** What a turn of the loop can and cannot do *)

(** Exceptions the processing of a fetched page can end with. *)
Definition page_exn (e : exn) : Prop :=
  e = AttributeError \/ e = TypeError \/ (exists k, e = KeyError k)
  \/ e = ZeroDivisionError.

Lemma py_get_raises d k v e : py_get d k v = Raise e -> page_exn e.
Proof.
  destruct d; cbn; try (intro H; injection H as <-; left; reflexivity).
  destruct (dict_lookup k kvs); discriminate.
Qed.

Lemma py_iter_raises v e : py_iter v = Raise e -> page_exn e.
Proof.
  destruct v; cbn; try discriminate;
    intro H; injection H as <-; right; left; reflexivity.
Qed.

Lemma py_len_raises v e : py_len v = Raise e -> page_exn e.
Proof.
  destruct v; cbn; try discriminate;
    intro H; injection H as <-; right; left; reflexivity.
Qed.

Lemma py_mod_raises a b e : py_mod a b = Raise e -> page_exn e.
Proof.
  unfold py_mod. destruct (b =? 0); [|discriminate].
  intro H; injection H as <-. right. right. right. reflexivity.
Qed.

Lemma py_contains_page_exn k v e : py_contains k v = Raise e -> page_exn e.
Proof.
  destruct v; cbn; try discriminate;
    intro H; injection H as <-; right; left; reflexivity.
Qed.

Lemma py_getitem_page_exn v k e : py_getitem v k = Raise e -> page_exn e.
Proof.
  destruct v; cbn; try (intro H; injection H as <-; right; left; reflexivity).
  destruct (dict_lookup k kvs); [discriminate|].
  intro H; injection H as <-. right. right. left. exists k. reflexivity.
Qed.

Lemma page_exn_unhandled (e : exn) : page_exn e -> handler e = None.
Proof.
  intros [H|[H|[[k H]|H]]]; subst e; reflexivity.
Qed.

(** Two worlds that differ at most by callback calls [cps] made in
    between. *)
Definition differ_by_checkpoints (w w' : World) (cps : list (Z * Z)) : Prop :=
  clock w' = clock w /\ ticks w' = ticks w
  /\ _request_times w' = _request_times w
  /\ sleeps w' = sleeps w /\ sent w' = sent w
  /\ checkpoints w' = checkpoints w ++ cps.

Lemma differ_by_nothing (w : World) : differ_by_checkpoints w w [].
Proof.
  unfold differ_by_checkpoints. rewrite app_nil_r. repeat split; reflexivity.
Qed.

(** The processing of a page touches the world only through the
    callback, at most once, and only adds to what was yielded. *)
Lemma process_page_effect (cb : bool) (n : Z) (data : json) (g : Gen)
    (r : result control) (g' : Gen) :
  process_page cb n data g = (r, g') ->
  exists cps deals,
    differ_by_checkpoints (world g) (world g') cps
    /\ (cb = false -> cps = [])
    /\ (List.length cps <= 1)%nat
    /\ yielded g' = yielded g ++ deals
    /\ (forall e, r = Raise e -> page_exn e).
Proof.
  unfold process_page.
  unfold bind at 1, of_result at 1.
  destruct (py_get data "results" (JArr [])) as [results|e0] eqn:E1.
  2:{ intro H. injection H as <- <-. exists [], []. rewrite app_nil_r.
      split; [apply differ_by_nothing|]. repeat split; auto.
      intros e H. injection H as <-. exact (py_get_raises _ _ _ _ E1). }
  unfold bind at 1, incr_page_count.
  unfold bind at 1, of_result at 1.
  destruct (py_iter results) as [deals|e0] eqn:E2.
  2:{ intro H. injection H as <- <-. exists [], [].
      cbn [world yielded]. rewrite app_nil_r.
      split; [apply differ_by_nothing|]. repeat split; auto.
      intros e H. injection H as <-. exact (py_iter_raises _ _ E2). }
  unfold bind at 1. rewrite yield_each_run.
  cbn [after page_count total_deals yielded world].
  unfold bind at 1, of_result at 1.
  destruct (py_len results) as [k|e0] eqn:E3.
  2:{ intro H. injection H as <- <-. exists [], deals. cbn [world yielded].
      split; [apply differ_by_nothing|]. repeat split; auto.
      intros e H. injection H as <-. exact (py_len_raises _ _ E3). }
  unfold bind at 1.
  set (g0 := {| after := after g; page_count := page_count g + 1;
                total_deals := total_deals g + Z.of_nat (List.length deals);
                yielded := yielded g ++ deals; world := world g |}).
  match goal with |- context [(if cb then ?c else ret tt) g0] =>
    assert (Hcp : exists r1 g1 cps,
               (if cb then c else ret tt) g0 = (r1, g1)
               /\ differ_by_checkpoints (world g) (world g1) cps
               /\ (cb = false -> cps = [])
               /\ (List.length cps <= 1)%nat
               /\ yielded g1 = yielded g ++ deals
               /\ (forall e, r1 = Raise e -> page_exn e));
      [|destruct Hcp as [r1 [g1 [cps [Hcp [Hd [Hoff [Hone [Hy Hex]]]]]]]];
        rewrite Hcp]
  end.
  { destruct cb.
    - unfold bind, get_page_count, of_result. cbn [page_count g0].
      destruct (py_mod (page_count g + 1) n) as [m|e0] eqn:Em.
      + destruct (m =? 0).
        * exists (Ok tt). eexists.
          exists [(page_count g + 1,
                   total_deals g + Z.of_nat (List.length deals))].
          split; [reflexivity|]. cbn [world yielded g0].
          split; [repeat split; reflexivity|].
          repeat split; auto; discriminate.
        * exists (Ok tt), g0, []. split; [reflexivity|].
          split; [apply differ_by_nothing|].
          repeat split; auto; discriminate.
      + exists (Raise e0), g0, []. split; [reflexivity|].
        split; [apply differ_by_nothing|]. repeat split; auto; try discriminate.
        intros e H. injection H as <-. exact (py_mod_raises _ _ _ Em).
    - exists (Ok tt), g0, []. split; [reflexivity|].
      split; [apply differ_by_nothing|]. repeat split; auto; discriminate. }
  destruct r1 as [[]|e0].
  2:{ intro H. injection H as <- <-. exists cps, deals.
      split; [exact Hd|]. split; [exact Hoff|]. split; [exact Hone|].
      split; [exact Hy|].
      intros e H. injection H as <-. exact (Hex e0 eq_refl). }
  unfold bind at 1, of_result at 1.
  destruct (py_get data "paging" (JObj [])) as [paging|e0] eqn:E4.
  2:{ intro H. injection H as <- <-. exists cps, deals.
      split; [exact Hd|]. split; [exact Hoff|]. split; [exact Hone|].
      split; [exact Hy|].
      intros e H. injection H as <-. exact (py_get_raises _ _ _ _ E4). }
  unfold bind at 1, of_result at 1.
  destruct (py_contains "next" paging) as [[|]|e0] eqn:E5; cbn [negb].
  3:{ intro H. injection H as <- <-. exists cps, deals.
      split; [exact Hd|]. split; [exact Hoff|]. split; [exact Hone|].
      split; [exact Hy|].
      intros e H. injection H as <-. exact (py_contains_page_exn _ _ _ E5). }
  2:{ intro H. injection H as <- <-. exists cps, deals.
      split; [exact Hd|]. split; [exact Hoff|]. split; [exact Hone|].
      split; [exact Hy|]. discriminate. }
  unfold bind at 1, of_result at 1.
  destruct (py_getitem paging "next") as [next|e0] eqn:E6.
  2:{ intro H. injection H as <- <-. exists cps, deals.
      split; [exact Hd|]. split; [exact Hoff|]. split; [exact Hone|].
      split; [exact Hy|].
      intros e H. injection H as <-. exact (py_getitem_page_exn _ _ _ E6). }
  unfold bind at 1, of_result at 1.
  destruct (py_getitem next "after") as [cursor|e0] eqn:E7.
  2:{ intro H. injection H as <- <-. exists cps, deals.
      split; [exact Hd|]. split; [exact Hoff|]. split; [exact Hone|].
      split; [exact Hy|].
      intros e H. injection H as <-. exact (py_getitem_page_exn _ _ _ E7). }
  intro H. cbn in H. injection H as <- <-. exists cps, deals.
  cbn [world yielded].
  split; [exact Hd|]. split; [exact Hoff|]. split; [exact Hone|].
  split; [exact Hy|]. discriminate.
Qed.

(** Exceptions a turn of the loop can let through. *)
Definition turn_exn (e : exn) : Prop :=
  is_HubSpotRateLimitError e = false
  /\ (is_HubSpotAPIError e = true \/ e = ValueError \/ page_exn e).

Lemma loop_body_effect (env : Env) (properties : option (list string))
    (archived cb : bool) (n : Z) (g : Gen) (r : result control) (g' : Gen) :
  loop_body env properties archived cb n g = (r, g') ->
  exists cps deals,
    sent (world g')
    = sent (world g) ++ [build_params 100 (after g) properties archived]
    /\ checkpoints (world g') = checkpoints (world g) ++ cps
    /\ (cb = false -> cps = [])
    /\ yielded g' = yielded g ++ deals
    /\ (forall e, r = Raise e -> turn_exn e).
Proof.
  rewrite loop_body_fetch.
  pose proof (fetched_sent env properties archived g) as Hsent.
  pose proof (fetched_checkpoints env properties archived g) as Hcps.
  destruct (classify 30 (answer env properties archived g)) as [data|e0] eqn:Ec.
  - unfold try_except.
    destruct (process_page cb n data
                (with_world g (fetched env properties archived g)))
      as [r1 g1] eqn:Ep.
    destruct (process_page_effect _ _ _ _ _ _ Ep)
      as [cps [deals [Hd [Hoff [_ [Hy Hex]]]]]].
    destruct Hd as [_ [_ [_ [_ [Hs Hc]]]]].
    cbn [world with_world yielded] in Hs, Hc, Hy.
    assert (Hres : forall r2, (r2, g1) = (r, g') ->
              (forall e, r2 = Raise e -> page_exn e) ->
              exists cps deals,
                sent (world g')
                = sent (world g) ++ [build_params 100 (after g) properties archived]
                /\ checkpoints (world g') = checkpoints (world g) ++ cps
                /\ (cb = false -> cps = [])
                /\ yielded g' = yielded g ++ deals
                /\ (forall e, r = Raise e -> turn_exn e)).
    { intros r2 H Hp. injection H as <- <-. exists cps, deals.
      split; [rewrite Hs; exact Hsent|]. split; [rewrite Hc, Hcps; reflexivity|].
      split; [exact Hoff|]. split; [exact Hy|].
      intros e He. specialize (Hp e He). split.
      - destruct Hp as [H|[H|[[k H]|H]]]; subst e; reflexivity.
      - right. right. exact Hp. }
    destruct r1 as [c|e1].
    + intro H. apply (Hres (Ok c) H). discriminate.
    + rewrite (page_exn_unhandled e1 (Hex e1 eq_refl)).
      intro H. apply (Hres (Raise e1) H).
      intros e He. injection He as <-. exact (Hex e1 eq_refl).
  - unfold handler.
    destruct (is_HubSpotRateLimitError e0) eqn:Er.
    + intro H. cbn in H. injection H as <- <-. exists [], [].
      cbn [world yielded with_world]. rewrite !app_nil_r.
      split; [exact Hsent|]. split; [exact Hcps|]. split; [reflexivity|].
      split; [reflexivity|]. discriminate.
    + assert (Hres : (Raise e0, with_world g (fetched env properties archived g))
                     = (r, g') ->
                exists cps deals,
                  sent (world g')
                  = sent (world g)
                    ++ [build_params 100 (after g) properties archived]
                  /\ checkpoints (world g') = checkpoints (world g) ++ cps
                  /\ (cb = false -> cps = [])
                  /\ yielded g' = yielded g ++ deals
                  /\ (forall e, r = Raise e -> turn_exn e)).
      { intro H. injection H as <- <-. exists [], [].
        cbn [world yielded with_world]. rewrite !app_nil_r.
        split; [exact Hsent|]. split; [exact Hcps|]. split; [reflexivity|].
        split; [reflexivity|].
        intros e He. injection He as <-. split; [exact Er|].
        destruct (classify_raises _ _ _ Ec) as [H|[H|[H|H]]].
        - left. exact H.
        - right. left. exact H.
        - right. right. left. exact H.
        - right. right. right. left. exact H. }
      destruct (is_HubSpotAPIError e0); exact Hres.
Qed.

Lemma loop_body_sends_one (env : Env) (properties : option (list string))
    (archived cb : bool) (n : Z) (g : Gen) :
  sent (world (snd (loop_body env properties archived cb n g)))
  = sent (world g) ++ [build_params 100 (after g) properties archived].
Proof.
  destruct (loop_body env properties archived cb n g) as [r g'] eqn:E.
  destruct (loop_body_effect _ _ _ _ _ _ _ _ E) as [cps [deals [Hs _]]].
  exact Hs.
Qed.

Lemma loop_effect (env : Env) (properties : option (list string))
    (archived cb : bool) (n : Z) (fuel : nat) :
  forall (g : Gen) (o : outcome) (g' : Gen),
    get_all_deals_loop env properties archived cb n fuel g = (o, g') ->
    exists cursors cps deals,
      sent (world g')
      = sent (world g)
        ++ map (fun c => build_params 100 c properties archived) cursors
      /\ (List.length cursors <= fuel)%nat
      /\ (o = OutOfFuel -> List.length cursors = fuel)
      /\ (forall d, hd d cursors = after g \/ cursors = [])
      /\ checkpoints (world g') = checkpoints (world g) ++ cps
      /\ (cb = false -> cps = [])
      /\ yielded g' = yielded g ++ deals
      /\ (forall e, o = Raised e -> turn_exn e).
Proof.
  induction fuel as [|fuel IH]; intros g o g' Hrun.
  - cbn in Hrun. injection Hrun as <- <-. exists [], [], [].
    cbn [map]. rewrite !app_nil_r. repeat split; auto; discriminate.
  - cbn [get_all_deals_loop] in Hrun.
    destruct (loop_body env properties archived cb n g) as [r g1] eqn:Eb.
    destruct (loop_body_effect _ _ _ _ _ _ _ _ Eb)
      as [cps1 [deals1 [Hs1 [Hc1 [Hoff1 [Hy1 Hex1]]]]]].
    destruct r as [[|]|e1].
    + destruct (IH g1 o g' Hrun)
        as [cursors [cps [deals [Hs [Hlen [Hout [_ [Hc [Hoff [Hy Hex]]]]]]]]]].
      exists (after g :: cursors), (cps1 ++ cps), (deals1 ++ deals).
      split; [rewrite Hs, Hs1, <- app_assoc; reflexivity|].
      split; [cbn [List.length]; lia|].
      split; [intro H; cbn [List.length]; rewrite (Hout H); reflexivity|].
      split; [intro d; left; reflexivity|].
      split; [rewrite Hc, Hc1, <- app_assoc; reflexivity|].
      split; [intro H; rewrite (Hoff1 H), (Hoff H); reflexivity|].
      split; [rewrite Hy, Hy1, <- app_assoc; reflexivity|exact Hex].
    + injection Hrun as <- <-. exists [after g], cps1, deals1.
      split; [exact Hs1|]. split; [cbn; lia|]. split; [discriminate|].
      split; [intro d; left; reflexivity|].
      split; [exact Hc1|]. split; [exact Hoff1|]. split; [exact Hy1|].
      discriminate.
    + injection Hrun as <- <-. exists [after g], cps1, deals1.
      split; [exact Hs1|]. split; [cbn; lia|]. split; [discriminate|].
      split; [intro d; left; reflexivity|].
      split; [exact Hc1|]. split; [exact Hoff1|]. split; [exact Hy1|].
      intros e He. injection He as <-. exact (Hex1 e1 eq_refl).
Qed.

(* ================================================================= *)
(** ** Every run of the generator *)

Lemma build_params_fixed (limit : Z) (cursor : json)
    (properties : option (list string)) (archived : bool) :
  dict_lookup "limit" (build_params limit cursor properties archived)
  = Some (JNum (Z.min limit 100))
  /\ dict_lookup "archived" (build_params limit cursor properties archived)
     = Some (JStr (if archived then "true" else "false"))
  /\ dict_lookup "after" (build_params limit cursor properties archived)
     = (if truthy cursor then Some cursor else None).
Proof.
  unfold build_params. destruct (truthy cursor); repeat split; reflexivity.
Qed.

Lemma loop_ignores_interval (env : Env) (properties : option (list string))
    (archived : bool) (n n' : Z) (fuel : nat) :
  forall g,
    get_all_deals_loop env properties archived false n fuel g
    = get_all_deals_loop env properties archived false n' fuel g.
Proof.
  induction fuel as [|fuel IH]; intro g; [reflexivity|].
  cbn [get_all_deals_loop].
  change (loop_body env properties archived false n g)
    with (loop_body env properties archived false n' g).
  destruct (loop_body env properties archived false n' g) as [[[|]|e] g1];
    [apply IH|reflexivity|reflexivity].
Qed.

(** X11. Without a callback the interval plays no part: the run is the
    same for every interval, zero included, and ends with the callback
    log as it found it. *)
Theorem no_callback_no_checkpoint (env : Env)
    (properties : option (list string)) (archived : bool) (n n' : Z)
    (fuel : nat) (w : World) :
  get_all_deals env properties archived false n fuel w
  = get_all_deals env properties archived false n' fuel w
  /\ checkpoints (world (snd (get_all_deals env properties archived false n
                                 fuel w)))
     = checkpoints w.
Proof.
  split; [apply loop_ignores_interval|].
  unfold get_all_deals.
  destruct (get_all_deals_loop env properties archived false n fuel (start w))
    as [o g'] eqn:Erun.
  destruct (loop_effect _ _ _ _ _ _ _ _ _ Erun)
    as [cursors [cps [deals [_ [_ [_ [_ [Hc [Hoff _]]]]]]]]].
  cbn [snd]. rewrite Hc, (Hoff eq_refl), app_nil_r. reflexivity.
Qed.

(* ================================================================= *)
(** ** Retrying and giving up *)

(** X12. Only the rate-limit error is retried.  When the fetch of a
    turn raises it, the loop sleeps ten seconds and goes round again with
    its frame (cursor, counters, records yielded) as it was; when the
    fetch raises anything else, the run ends there with that exception,
    without sleeping, the frame as it was. *)
Theorem only_rate_limit_is_retried (env : Env)
    (properties : option (list string)) (archived cb : bool) (n : Z)
    (fuel : nat) (g : Gen) (e : exn) :
  fst (get_deals env 100 (after g) properties archived 30 (world g)) = Raise e ->
  let w1 := snd (get_deals env 100 (after g) properties archived 30 (world g)) in
  (is_HubSpotRateLimitError e = true ->
   get_all_deals_loop env properties archived cb n (S fuel) g
   = get_all_deals_loop env properties archived cb n fuel
       (with_world g (slept 10%Q w1)))
  /\ (is_HubSpotRateLimitError e = false ->
      get_all_deals_loop env properties archived cb n (S fuel) g
      = (Raised e, with_world g w1)).
Proof.
  rewrite get_deals_run. cbn [fst snd]. intros He.
  fold (answer env properties archived g) in He.
  fold (fetched env properties archived g).
  split; intro Hr; cbn [get_all_deals_loop].
  - destruct e; try discriminate Hr.
    rewrite (loop_body_throttled _ _ _ _ _ _ _ He). reflexivity.
  - rewrite (loop_body_fatal _ _ _ _ _ _ _ He Hr). reflexivity.
Qed.

(** A 429 answer whose [Retry-After] is a date. *)
Definition dated_throttle_env : Env :=
  {| elapsed := fun _ => 0%Q;
     server := fun _ _ =>
       Responds {| status_code := 429;
                   retry_after_header :=
                     Some (OtherText "Wed, 21 Oct 2015 07:28:00 GMT");
                   body := None |} |}.

Lemma only_rate_limit_is_retried_witness :
  get_all_deals_loop dated_throttle_env None false false 5 1
    (start (init_world 0%Q))
  = (Raised ValueError,
     with_world (start (init_world 0%Q))
       (snd (get_deals dated_throttle_env 100 JNull None false 30
               (init_world 0%Q)))).
Proof.
  exact (proj2 (only_rate_limit_is_retried dated_throttle_env None false false
                  5 0 (start (init_world 0%Q)) ValueError eq_refl) eq_refl).
Defined.

(** X13. There is no cap on retries: against a remote end that answers
    429 to everything, the run never ends.  Whatever the number of turns
    allowed, it uses them all, yields nothing, completes no page, and has
    sent the request for the first page once per turn. *)
Theorem endless_throttling (env : Env) (properties : option (list string))
    (archived cb : bool) (n : Z) (fuel : nat) (w : World) :
  (forall k ps, exists h, server env k ps = Responds (throttle_response h)) ->
  exists g,
    get_all_deals env properties archived cb n fuel w = (OutOfFuel, g)
    /\ yielded g = [] /\ page_count g = 0
    /\ sent (world g)
       = sent w ++ repeat (build_params 100 JNull properties archived) fuel.
Proof.
  intro Hall. unfold get_all_deals.
  assert (Hgen : forall fuel g,
             exists w',
               get_all_deals_loop env properties archived cb n fuel g
               = (OutOfFuel, with_world g w')
               /\ sent w'
                  = sent (world g)
                    ++ repeat (build_params 100 (after g) properties archived)
                         fuel).
  { clear fuel. induction fuel as [|fuel IH]; intro g.
    - exists (world g). cbn. rewrite app_nil_r.
      destruct g; split; reflexivity.
    - cbn [get_all_deals_loop].
      destruct (Hall (List.length (sent (world g)))
                  (build_params 100 (after g) properties archived))
        as [h Hh].
      rewrite (loop_body_throttled env properties archived cb n g
                 (match h with Some d => d | None => 10 end)).
      2:{ unfold answer. rewrite Hh. destruct h; reflexivity. }
      destruct (IH (with_world g
                      (slept 10%Q (fetched env properties archived g))))
        as [w' [Hrun Hsent]].
      exists w'. split; [exact Hrun|].
      rewrite Hsent. cbn [world after with_world slept sent].
      rewrite fetched_sent, <- app_assoc. reflexivity. }
  destruct (Hgen fuel (start w)) as [w' [Hrun Hsent]].
  eexists. split; [exact Hrun|]. repeat split. exact Hsent.
Qed.

Definition always_throttled_env : Env :=
  {| elapsed := fun _ => 0%Q;
     server := fun _ _ => Responds (throttle_response (Some 1)) |}.

Lemma endless_throttling_witness :
  exists g,
    get_all_deals always_throttled_env None false false 5 40 (init_world 0%Q)
    = (OutOfFuel, g)
    /\ yielded g = [] /\ page_count g = 0
    /\ sent (world g)
       = sent (init_world 0%Q) ++ repeat (build_params 100 JNull None false) 40.
Proof.
  apply (endless_throttling always_throttled_env None false false 5 40
           (init_world 0%Q)).
  intros k ps. exists (Some 1). reflexivity.
Defined.

Lemma build_params_falsy (limit : Z) (cursor : json)
    (properties : option (list string)) (archived : bool) :
  truthy cursor = false ->
  build_params limit cursor properties archived
  = build_params limit JNull properties archived.
Proof. intro H. unfold build_params. rewrite H. reflexivity. Qed.

(** X14. A cursor that is not truthy sends the generator back to the
    start.  Against a remote end that always answers the request without
    cursor with the same page, a page whose [next.after] is empty (or
    [null], [0], [false]) is fetched and yielded again and again: the run
    never ends, and after [fuel] turns it has yielded the records of the
    page [fuel] times over. *)
Theorem falsy_cursor_loops (env : Env) (properties : option (list string))
    (archived cb : bool) (n : Z) (fuel : nat) (w : World) (p : page) (c : json) :
  (forall k, server env k (build_params 100 JNull properties archived)
             = Responds (ok_response (page_body p))) ->
  next_cursor p = Some c ->
  truthy c = false ->
  (cb = true -> n <> 0) ->
  exists g,
    get_all_deals env properties archived cb n fuel w = (OutOfFuel, g)
    /\ yielded g = List.concat (repeat (entries p) fuel)
    /\ page_count g = Z.of_nat fuel
    /\ sent (world g)
       = sent w ++ repeat (build_params 100 JNull properties archived) fuel.
Proof.
  intros Hsrv Hnext Hc Hn. unfold get_all_deals.
  assert (Hgen : forall fuel g,
             truthy (after g) = false ->
             exists g',
               get_all_deals_loop env properties archived cb n fuel g
               = (OutOfFuel, g')
               /\ yielded g' = yielded g ++ List.concat (repeat (entries p) fuel)
               /\ page_count g' = page_count g + Z.of_nat fuel
               /\ sent (world g')
                  = sent (world g)
                    ++ repeat (build_params 100 JNull properties archived) fuel).
  { clear fuel. induction fuel as [|fuel IH]; intros g Hg.
    - exists g. cbn. rewrite !app_nil_r. repeat split. lia.
    - cbn [get_all_deals_loop].
      assert (Hans : answer env properties archived g
                     = Responds (ok_response (page_body p))).
      { unfold answer. rewrite (build_params_falsy _ _ _ _ Hg). apply Hsrv. }
      rewrite (loop_body_served env properties archived cb n Hn g p Hans).
      cbv zeta. rewrite Hnext.
      match goal with |- exists g', get_all_deals_loop _ _ _ _ _ _ ?G = _ /\ _ =>
        destruct (IH G Hc) as [g' [Hrun [Hy [Hpc Hs]]]] end.
      exists g'. split; [exact Hrun|].
      cbn [yielded page_count total_deals world page_done with_world]
        in Hy, Hpc, Hs.
      assert (Hsd : sent (if cb && ((page_count g + 1) mod n =? 0)
                          then checkpointed (page_count g + 1)
                                 (total_deals g
                                  + Z.of_nat (List.length (entries p)))
                                 (fetched env properties archived g)
                          else fetched env properties archived g)
                    = sent (fetched env properties archived g)).
      { destruct (cb && _); reflexivity. }
      rewrite Hsd, fetched_sent, (build_params_falsy _ _ _ _ Hg) in Hs.
      split; [|split].
      + rewrite Hy. cbn [repeat List.concat]. rewrite <- app_assoc. reflexivity.
      + rewrite Hpc. lia.
      + rewrite Hs, <- app_assoc. reflexivity. }
  destruct (Hgen fuel (start w) eq_refl) as [g' [Hrun [Hy [Hpc Hs]]]].
  exists g'. split; [exact Hrun|]. split; [exact Hy|]. split; [exact Hpc|].
  exact Hs.
Qed.

Definition empty_cursor_page : page :=
  {| throttles := []; entries := [test_deal];
     next_cursor := Some (JStr "") |}.

Definition empty_cursor_env : Env :=
  {| elapsed := fun _ => 0%Q;
     server := fun _ _ => Responds (ok_response (page_body empty_cursor_page)) |}.

Lemma falsy_cursor_loops_witness :
  exists g,
    get_all_deals empty_cursor_env None false false 5 7 (init_world 0%Q)
    = (OutOfFuel, g)
    /\ yielded g = List.concat (repeat (entries empty_cursor_page) 7)
    /\ page_count g = Z.of_nat 7
    /\ sent (world g)
       = sent (init_world 0%Q) ++ repeat (build_params 100 JNull None false) 7.
Proof.
  apply (falsy_cursor_loops empty_cursor_env None false false 5 7
           (init_world 0%Q) empty_cursor_page (JStr "")).
  - intro k. reflexivity.
  - reflexivity.
  - reflexivity.
  - intro H. discriminate H.
Defined.

(* ================================================================= *)
(** ** Records yielded before a failure *)

(** From request number [k] on, the remote end serves the pages of
    [pages], each naming the next cursor; after them the client is at
    request number [k'] with cursor [cursor']. *)
Fixpoint serves_until (env : Env) (properties : option (list string))
    (archived : bool) (k : nat) (cursor : json) (pages : list page)
    (k' : nat) (cursor' : json) : Prop :=
  match pages with
  | [] => k' = k /\ cursor' = cursor
  | p :: rest =>
      let ps := build_params 100 cursor properties archived in
      throttled env ps k (throttles p)
      /\ server env (k + List.length (throttles p)) ps
         = Responds (ok_response (page_body p))
      /\ exists c,
           next_cursor p = Some c
           /\ serves_until env properties archived
                (S (k + List.length (throttles p))) c rest k' cursor'
  end.

(** Walking a served stretch of the chain takes one turn per request and
    leaves the loop at the cursor the last page named. *)
Lemma loop_prefix (env : Env) (properties : option (list string))
    (archived cb : bool) (n : Z) (pages : list page) :
  (cb = true -> n <> 0) ->
  forall (g : Gen) (fuel k' : nat) (cursor' : json),
    serves_until env properties archived (List.length (sent (world g)))
      (after g) pages k' cursor' ->
    exists g',
      get_all_deals_loop env properties archived cb n
        (requests_count pages + fuel) g
      = get_all_deals_loop env properties archived cb n fuel g'
      /\ after g' = cursor'
      /\ List.length (sent (world g')) = k'
      /\ yielded g' = yielded g ++ List.concat (map entries pages)
      /\ page_count g' = page_count g + Z.of_nat (List.length pages).
Proof.
  intro Hn. induction pages as [|p rest IH]; intros g fuel k' cursor' Hsv.
  - destruct Hsv as [-> ->]. exists g. cbn. rewrite app_nil_r.
    repeat split. lia.
  - destruct Hsv as [Hth [Hans [c [Hnext Hrest]]]].
    destruct (loop_throttled_prefix env properties archived cb n
                (throttles p) g (S (requests_count rest + fuel)) Hth)
      as [w1 [Hrun1 [Hsent1 _]]].
    replace (requests_count (p :: rest) + fuel)%nat
      with (List.length (throttles p) + S (requests_count rest + fuel))%nat
      by (unfold requests_count; cbn [map]; unfold list_sum;
          cbn [fold_right]; lia).
    rewrite Hrun1. clear Hrun1.
    set (g1 := with_world g w1).
    assert (Hans1 : answer env properties archived g1
                    = Responds (ok_response (page_body p))).
    { unfold answer, g1. cbn [world after with_world].
      rewrite Hsent1, length_app, repeat_length. exact Hans. }
    cbn [get_all_deals_loop].
    rewrite (loop_body_served env properties archived cb n Hn g1 p Hans1).
    cbv zeta. rewrite Hnext.
    match goal with
    | |- exists g', get_all_deals_loop _ _ _ _ _ _ ?G = _ /\ _ =>
        set (g2 := G)
    end.
    assert (Hsent2 : sent (world g2)
                     = sent (world g)
                       ++ repeat (build_params 100 (after g) properties archived)
                            (S (List.length (throttles p)))).
    { unfold g2. cbn [world page_done with_world].
      assert (Hsd : forall b x y, sent (if b : bool
                                        then checkpointed x y
                                               (fetched env properties archived g1)
                                        else fetched env properties archived g1)
                                  = sent (fetched env properties archived g1)).
      { intros b x y. destruct b; reflexivity. }
      rewrite Hsd, fetched_sent. unfold g1. cbn [world after with_world].
      rewrite Hsent1, <- app_assoc. f_equal.
      change [build_params 100 (after g) properties archived]
        with (repeat (build_params 100 (after g) properties archived) 1).
      rewrite <- repeat_app. f_equal. lia. }
    destruct (IH g2 fuel k' cursor') as [g' [Hrun [Ha [Hk [Hy Hpc]]]]].
    { unfold g2 at 2. cbn [after]. rewrite Hsent2, length_app, repeat_length.
      replace (List.length (sent (world g)) + S (List.length (throttles p)))%nat
        with (S (List.length (sent (world g)) + List.length (throttles p)))
        by lia.
      exact Hrest. }
    exists g'. split; [exact Hrun|]. split; [exact Ha|]. split; [exact Hk|].
    unfold g2 in Hy, Hpc.
    cbn [yielded page_count page_done with_world g1] in Hy, Hpc.
    split.
    + rewrite Hy. cbn [map List.concat]. rewrite <- app_assoc. reflexivity.
    + rewrite Hpc. cbn [List.length]. lia.
Qed.

(** X15. Records already yielded survive a failure.  When the remote
    end serves a stretch of the chain and the fetch after it raises
    anything but the rate-limit error, the run ends with that exception,
    having yielded exactly the records of the pages served, in order. *)
Theorem records_before_failure (env : Env) (properties : option (list string))
    (archived cb : bool) (n : Z) (fuel : nat) (w : World) (pages : list page)
    (k : nat) (cursor : json) (e : exn) :
  (cb = true -> n <> 0) ->
  serves_until env properties archived (List.length (sent w)) JNull pages
    k cursor ->
  classify 30 (server env k (build_params 100 cursor properties archived))
  = Raise e ->
  is_HubSpotRateLimitError e = false ->
  (requests_count pages < fuel)%nat ->
  exists g,
    get_all_deals env properties archived cb n fuel w = (Raised e, g)
    /\ yielded g = List.concat (map entries pages)
    /\ page_count g = Z.of_nat (List.length pages)
    /\ List.length (sent (world g)) = S k.
Proof.
  intros Hn Hsv He Hr Hfuel. unfold get_all_deals.
  destruct (loop_prefix env properties archived cb n pages Hn (start w)
              (fuel - requests_count pages) k cursor Hsv)
    as [g1 [Hrun [Ha [Hk [Hy Hpc]]]]].
  replace (requests_count pages + (fuel - requests_count pages))%nat
    with fuel in Hrun by lia.
  rewrite Hrun.
  destruct (fuel - requests_count pages)%nat as [|fuel'] eqn:Ef; [lia|].
  cbn [get_all_deals_loop].
  rewrite (loop_body_fatal env properties archived cb n g1 e).
  - eexists. split; [reflexivity|].
    cbn [yielded page_count world with_world].
    split; [exact Hy|]. split; [rewrite Hpc; cbn; lia|].
    rewrite fetched_sent, length_app, Hk. cbn. lia.
  - unfold answer. rewrite Ha, Hk. exact He.
  - exact Hr.
Qed.

(** Two pages, then a server error. *)
Definition two_linked_pages : list page :=
  [ {| throttles := []; entries := [deal "1" "A"; deal "2" "B"];
       next_cursor := Some (JStr "c1") |};
    {| throttles := []; entries := [deal "3" "C"];
       next_cursor := Some (JStr "c2") |} ].

Definition failing_after_two_env : Env :=
  {| elapsed := fun _ => 0%Q;
     server := fun k _ =>
       nth k (map (fun p => Responds (ok_response (page_body p)))
                two_linked_pages)
         (Responds {| status_code := 500; retry_after_header := None;
                      body := None |}) |}.

Lemma records_before_failure_witness :
  exists g,
    get_all_deals failing_after_two_env None false false 5 3 (init_world 0%Q)
    = (Raised (HubSpotAPIError (RequestFailed (ReqHTTPError 500))), g)
    /\ yielded g = List.concat (map entries two_linked_pages)
    /\ page_count g = Z.of_nat (List.length two_linked_pages)
    /\ List.length (sent (world g)) = 3%nat.
Proof.
  apply (records_before_failure failing_after_two_env None false false 5 3
           (init_world 0%Q) two_linked_pages 2 (JStr "c2")).
  - intro H. discriminate H.
  - cbn. repeat split; try reflexivity.
    eexists. split; [reflexivity|]. repeat split; try reflexivity.
    eexists. split; [reflexivity|]. split; reflexivity.
  - reflexivity.
  - reflexivity.
  - cbn. lia.
Defined.

(* ================================================================= *)
(** ** Edge cases of a turn *)

Lemma classify_ok_object (kvs : list (string * json)) (records : list json) :
  dict_lookup "results" kvs = Some (JArr records) ->
  classify 30 (Responds (ok_response (JObj kvs))) = Ok (JObj kvs).
Proof.
  intro H. unfold classify.
  cbn [ok_response status_code body Z.eqb Z.leb Z.ltb Z.compare Pos.compare
       Pos.compare_cont andb py_get].
  rewrite H. reflexivity.
Qed.

(** X16. An interval of zero with a callback: the records of the first
    page are yielded, then the division by zero in the checkpoint test
    ends the run; the callback has not been called and no further page is
    fetched. *)
Theorem zero_interval_fails (env : Env) (properties : option (list string))
    (archived : bool) (fuel : nat) (g : Gen) (kvs : list (string * json))
    (records : list json) :
  answer env properties archived g = Responds (ok_response (JObj kvs)) ->
  dict_lookup "results" kvs = Some (JArr records) ->
  exists g',
    get_all_deals_loop env properties archived true 0 (S fuel) g
    = (Raised ZeroDivisionError, g')
    /\ yielded g' = yielded g ++ records
    /\ page_count g' = page_count g + 1
    /\ checkpoints (world g') = checkpoints (world g)
    /\ sent (world g')
       = sent (world g) ++ [build_params 100 (after g) properties archived].
Proof.
  intros Hans Hres. cbn [get_all_deals_loop].
  rewrite loop_body_fetch, Hans, (classify_ok_object kvs records Hres).
  unfold try_except, process_page.
  unfold bind at 1, of_result at 1. cbn [py_get]. rewrite Hres.
  unfold bind at 1, incr_page_count.
  unfold bind at 1, of_result at 1. cbn [py_iter].
  unfold bind at 1. rewrite yield_each_run.
  cbn [after page_count total_deals yielded world with_world].
  unfold bind at 1, of_result at 1. cbn [py_len].
  unfold bind at 1.
  unfold bind at 1, get_page_count. cbn [page_count].
  unfold bind at 1, of_result at 1. unfold py_mod. cbn [Z.eqb].
  cbn [handler is_HubSpotRateLimitError is_HubSpotAPIError].
  eexists. split; [reflexivity|]. cbn [yielded page_count world].
  split; [reflexivity|]. split; [reflexivity|].
  split; [apply fetched_checkpoints|apply fetched_sent].
Qed.

Lemma zero_interval_fails_witness :
  exists g',
    get_all_deals_loop (script_env single_page) None false true 0 1
      (start (init_world 0%Q))
    = (Raised ZeroDivisionError, g')
    /\ yielded g' = yielded (start (init_world 0%Q)) ++ [test_deal]
    /\ page_count g' = page_count (start (init_world 0%Q)) + 1
    /\ checkpoints (world g') = checkpoints (world (start (init_world 0%Q)))
    /\ sent (world g')
       = sent (world (start (init_world 0%Q)))
         ++ [build_params 100 (after (start (init_world 0%Q))) None false].
Proof.
  apply (zero_interval_fails (script_env single_page) None false 0
           (start (init_world 0%Q)) [("results", JArr [test_deal])]%string
           [test_deal]).
  - reflexivity.
  - reflexivity.
Defined.

(** X17. A [paging] entry that is [null], a boolean or a number is not
    read as "no more pages": the records of the page are yielded and the
    membership test on it ends the run with [TypeError]. *)
Theorem scalar_paging_is_type_error (env : Env)
    (properties : option (list string)) (archived cb : bool) (n : Z)
    (fuel : nat) (g : Gen) (kvs : list (string * json)) (records : list json)
    (paging : json) :
  answer env properties archived g = Responds (ok_response (JObj kvs)) ->
  dict_lookup "results" kvs = Some (JArr records) ->
  dict_lookup "paging" kvs = Some paging ->
  has_len paging = false ->
  (cb = true -> n <> 0) ->
  exists g',
    get_all_deals_loop env properties archived cb n (S fuel) g
    = (Raised TypeError, g')
    /\ yielded g' = yielded g ++ records
    /\ page_count g' = page_count g + 1.
Proof.
  intros Hans Hres Hpg Hscalar Hn. cbn [get_all_deals_loop].
  assert (Hget : py_get (JObj kvs) "paging" (JObj []) = Ok paging).
  { unfold py_get. rewrite Hpg. reflexivity. }
  rewrite (loop_body_page env properties archived cb n g kvs records paging
             Hans Hres Hget Hn).
  cbv zeta.
  assert (Hc : py_contains "next" paging = Raise TypeError).
  { destruct paging; cbn in Hscalar; try discriminate Hscalar; reflexivity. }
  rewrite Hc. eexists. split; [reflexivity|]. split; reflexivity.
Qed.

Definition null_paging_env : Env :=
  {| elapsed := fun _ => 0%Q;
     server := fun _ _ =>
       Responds (ok_response
         (JObj [("results", JArr [test_deal]); ("paging", JNull)]%string)) |}.

Lemma scalar_paging_is_type_error_witness :
  exists g',
    get_all_deals_loop null_paging_env None false false 5 1
      (start (init_world 0%Q))
    = (Raised TypeError, g')
    /\ yielded g' = yielded (start (init_world 0%Q)) ++ [test_deal]
    /\ page_count g' = page_count (start (init_world 0%Q)) + 1.
Proof.
  apply (scalar_paging_is_type_error null_paging_env None false false 5 0
           (start (init_world 0%Q))
           [("results", JArr [test_deal]); ("paging", JNull)]%string
           [test_deal] JNull).
  - reflexivity.
  - reflexivity.
  - reflexivity.
  - reflexivity.
  - intro H. discriminate H.
Defined.

(* ================================================================= *)
(** * Credential validation *)

(** The two rate-limit headers [validate_credentials] reads from the
    answer, [X-HubSpot-RateLimit-Remaining] and [X-HubSpot-RateLimit-Max]. *)
Record RateHeaders : Type := {
  remaining_header : option header_value;
  max_header : option header_value
}.

Definition sent_count : M World nat :=
  fun w => (Ok (List.length (sent w)), w).

(** The dictionary [validate_credentials] returns. *)
Definition validation_report (remaining max : Z) : json :=
  JObj [ ("valid", JBool true);
         ("scopes", JArr [JStr "crm.objects.deals.read"]);
         ("rate_limit",
          JObj [ ("remaining", JNum remaining);
                 ("max", JNum max);
                 ("reset_at", JNull) ]) ]%string.

(** [validate_credentials]; [rate_headers k] are the rate-limit headers
    of the answer to request number [k]. *)
Definition validate_credentials (env : Env) (rate_headers : nat -> RateHeaders)
  : M World json :=
  try_except
    (k <- sent_count ;;
     r <- requests_get env [("limit", JNum 1)]%string ;;
     (if status_code r =? 401 then raise HubSpotAuthenticationError
      else ret tt) ;;;
     (if status_code r =? 403 then
        error_data <- of_result (response_json r) ;;
        _ <- of_result (py_get error_data "message" JNull) ;;
        raise HubSpotAuthenticationError
      else ret tt) ;;;
     of_result (raise_for_status r) ;;;
     remaining <- of_result (header_int (remaining_header (rate_headers k)) 0) ;;
     max <- of_result (header_int (max_header (rate_headers k)) 150) ;;
     ret (validation_report remaining max))
    (fun e =>
       match e with
       | RequestException _ => Some (raise HubSpotAuthenticationError)
       | _ => None
       end).

(** What [validate_credentials] makes of the answer to its request. *)
Definition validation_result (o : http_outcome) (h : RateHeaders) : result json :=
  match o with
  | Fails _ => Raise HubSpotAuthenticationError
  | Responds r =>
      if status_code r =? 401 then Raise HubSpotAuthenticationError
      else if status_code r =? 403 then
        match body r with
        | None => Raise HubSpotAuthenticationError
        | Some (JObj _) => Raise HubSpotAuthenticationError
        | Some _ => Raise AttributeError
        end
      else if (400 <=? status_code r) && (status_code r <? 600) then
        Raise HubSpotAuthenticationError
      else
        match header_int (remaining_header h) 0 with
        | Raise e => Raise e
        | Ok remaining =>
            match header_int (max_header h) 150 with
            | Raise e => Raise e
            | Ok max => Ok (validation_report remaining max)
            end
        end
  end.

Lemma validate_credentials_run (env : Env) (rate_headers : nat -> RateHeaders)
    (w : World) :
  validate_credentials env rate_headers w
  = (validation_result
       (server env (List.length (sent w)) [("limit", JNum 1)]%string)
       (rate_headers (List.length (sent w))),
     requested [("limit", JNum 1)]%string w).
Proof.
  unfold validate_credentials, try_except, bind at 1, sent_count.
  unfold bind at 1, requests_get, validation_result.
  fold (requested [("limit", JNum 1)]%string w).
  destruct (server env (List.length (sent w)) [("limit", JNum 1)]%string)
    as [e|r]; [reflexivity|].
  unfold bind, of_result, raise, ret.
  destruct (status_code r =? 401) eqn:E401; [reflexivity|].
  destruct (status_code r =? 403) eqn:E403.
  - unfold response_json. destruct (body r) as [d|]; [|reflexivity].
    destruct d as [| | | | |kvs]; try reflexivity.
    unfold py_get. destruct (dict_lookup "message" kvs); reflexivity.
  - unfold raise_for_status.
    destruct ((400 <=? status_code r) && (status_code r <? 600)); [reflexivity|].
    destruct (remaining_header (rate_headers (List.length (sent w))))
      as [[k|s]|]; cbn [header_int]; try reflexivity;
      destruct (max_header (rate_headers (List.length (sent w))))
        as [[k'|s']|]; reflexivity.
Qed.

(** X18. Validation goes around the rate controller: it sends exactly
    one request, asking for one record, without waiting and without
    recording a timestamp, so it never counts against the window,
    whatever the answer. *)
Theorem validate_credentials_bypasses_window (env : Env)
    (rate_headers : nat -> RateHeaders) (w : World) :
  let w' := snd (validate_credentials env rate_headers w) in
  _request_times w' = _request_times w
  /\ sleeps w' = sleeps w
  /\ clock w' = clock w /\ ticks w' = ticks w
  /\ checkpoints w' = checkpoints w
  /\ sent w' = sent w ++ [[("limit", JNum 1)]%string].
Proof.
  rewrite validate_credentials_run. cbn. repeat split; reflexivity.
Qed.

(** X19. Validation succeeds exactly when the status of the answer is
    outside 400..599 and each of the two rate-limit headers is absent or
    an integer; the body is never read.  The report then carries the
    header values, with 0 for an absent "remaining" and 150 for an absent
    "max". *)
Theorem validate_credentials_succeeds_iff (env : Env)
    (rate_headers : nat -> RateHeaders) (w : World) (report : json) :
  fst (validate_credentials env rate_headers w) = Ok report
  <-> exists r remaining max,
        server env (List.length (sent w)) [("limit", JNum 1)]%string
        = Responds r
        /\ (status_code r < 400 \/ 600 <= status_code r)
        /\ header_int (remaining_header (rate_headers (List.length (sent w)))) 0
           = Ok remaining
        /\ header_int (max_header (rate_headers (List.length (sent w)))) 150
           = Ok max
        /\ report = validation_report remaining max.
Proof.
  rewrite validate_credentials_run. cbn [fst]. unfold validation_result.
  destruct (server env _ _) as [e|r].
  - split; [discriminate|]. intros [r [rem [mx [H _]]]]. discriminate H.
  - destruct (status_code r =? 401) eqn:E401.
    { apply Z.eqb_eq in E401. split; [discriminate|].
      intros [r' [rem [mx [H [Hs _]]]]]. injection H as <-. lia. }
    destruct (status_code r =? 403) eqn:E403.
    { apply Z.eqb_eq in E403. split.
      - destruct (body r) as [[| | | | |]|]; discriminate.
      - intros [r' [rem [mx [H [Hs _]]]]]. injection H as <-. lia. }
    destruct ((400 <=? status_code r) && (status_code r <? 600)) eqn:Eerr.
    { apply andb_true_iff in Eerr. destruct Eerr as [E1 E2].
      apply Z.leb_le in E1. apply Z.ltb_lt in E2. split; [discriminate|].
      intros [r' [rem [mx [H [Hs _]]]]]. injection H as <-. lia. }
    assert (Hstatus : status_code r < 400 \/ 600 <= status_code r).
    { apply andb_false_iff in Eerr. destruct Eerr as [E|E].
      - apply Z.leb_gt in E. left. exact E.
      - apply Z.ltb_ge in E. right. exact E. }
    split.
    + intro H.
      destruct (header_int (remaining_header _) 0) as [rem|e]; [|discriminate H].
      destruct (header_int (max_header _) 150) as [mx|e]; [|discriminate H].
      injection H as <-. exists r, rem, mx. repeat split; auto.
    + intros [r' [rem [mx [_ [_ [Hr [Hm ->]]]]]]].
      rewrite Hr, Hm. reflexivity.
Qed.

(** X20. Every failure of the transport and every 4xx or 5xx status
    is reported as an authentication failure: a time-out, a connection
    error, 401, 429 and 500 alike, and 403 when its body is a JSON object
    or is no JSON at all. *)
Theorem validate_credentials_failures (env : Env)
    (rate_headers : nat -> RateHeaders) (w : World) :
  let o := server env (List.length (sent w)) [("limit", JNum 1)]%string in
  let result := fst (validate_credentials env rate_headers w) in
  (forall e, o = Fails e -> result = Raise HubSpotAuthenticationError)
  /\ (forall r, o = Responds r ->
      400 <= status_code r < 600 -> status_code r <> 403 ->
      result = Raise HubSpotAuthenticationError)
  /\ (forall r, o = Responds r -> status_code r = 403 ->
      (body r = None \/ exists kvs, body r = Some (JObj kvs)) ->
      result = Raise HubSpotAuthenticationError).
Proof.
  intros o result. unfold result. rewrite validate_credentials_run.
  cbn [fst]. fold o. unfold validation_result.
  split; [|split].
  - intros e ->. reflexivity.
  - intros r -> [H1 H2] H403.
    destruct (status_code r =? 401); [reflexivity|].
    apply Z.eqb_neq in H403. rewrite H403.
    apply Z.leb_le in H1. apply Z.ltb_lt in H2. rewrite H1, H2. reflexivity.
  - intros r -> H403 Hb. rewrite H403. cbn [Z.eqb Pos.eqb].
    destruct Hb as [Hb|[kvs Hb]]; rewrite Hb; reflexivity.
Qed.

Definition server_error_env : Env :=
  {| elapsed := fun _ => 0%Q;
     server := fun _ _ =>
       Responds {| status_code := 500; retry_after_header := None;
                   body := None |} |}.

Definition no_rate_headers : nat -> RateHeaders :=
  fun _ => {| remaining_header := None; max_header := None |}.

Lemma validate_credentials_failures_witness :
  fst (validate_credentials server_error_env no_rate_headers (init_world 0%Q))
  = Raise HubSpotAuthenticationError.
Proof.
  refine (proj1 (proj2 (validate_credentials_failures server_error_env
                          no_rate_headers (init_world 0%Q)))
            _ eq_refl _ _).
  - cbn. lia.
  - cbn. discriminate.
Defined.

(** X21. Two answers make validation fail with something else than the
    authentication error: a 403 whose body is JSON but no object raises
    [AttributeError], and an answer that would validate but carries a
    rate-limit header that is no integer raises [ValueError].  Nothing
    else is ever raised. *)
Theorem validate_credentials_raises_only (env : Env)
    (rate_headers : nat -> RateHeaders) (w : World) :
  let o := server env (List.length (sent w)) [("limit", JNum 1)]%string in
  let h := rate_headers (List.length (sent w)) in
  let result := fst (validate_credentials env rate_headers w) in
  match result with
  | Ok _ => True
  | Raise e =>
      e = HubSpotAuthenticationError
      \/ (e = AttributeError
          /\ exists r d, o = Responds r /\ status_code r = 403
                         /\ body r = Some d /\ forall kvs, d <> JObj kvs)
      \/ (e = ValueError
          /\ exists r, o = Responds r
                       /\ (status_code r < 400 \/ 600 <= status_code r)
                       /\ ((exists s, remaining_header h = Some (OtherText s))
                           \/ (exists s, max_header h = Some (OtherText s))))
  end.
Proof.
  intros o h result. unfold result. rewrite validate_credentials_run.
  cbn [fst]. fold o. fold h. unfold validation_result.
  destruct o as [e|r]; [left; reflexivity|].
  destruct (status_code r =? 401); [left; reflexivity|].
  destruct (status_code r =? 403) eqn:E403.
  - apply Z.eqb_eq in E403.
    destruct (body r) as [d|] eqn:Eb; [|left; reflexivity].
    destruct d; try (left; reflexivity);
      right; left; (split; [reflexivity|]); eexists; eexists;
      (split; [reflexivity|]); (split; [exact E403|]);
      (split; [exact Eb|]); intros kvs' H; discriminate H.
  - destruct ((400 <=? status_code r) && (status_code r <? 600)) eqn:Eerr;
      [left; reflexivity|].
    assert (Hstatus : status_code r < 400 \/ 600 <= status_code r).
    { apply andb_false_iff in Eerr. destruct Eerr as [E|E].
      - apply Z.leb_gt in E. left. exact E.
      - apply Z.ltb_ge in E. right. exact E. }
    destruct (remaining_header h) as [[k|s]|] eqn:Er; cbn [header_int].
    + destruct (max_header h) as [[k'|s']|] eqn:Em; cbn [header_int];
        try exact I.
      right. right. split; [reflexivity|]. exists r.
      split; [reflexivity|]. split; [exact Hstatus|]. right. exists s'.
      reflexivity.
    + right. right. split; [reflexivity|]. exists r.
      split; [reflexivity|]. split; [exact Hstatus|]. left. exists s.
      reflexivity.
    + destruct (max_header h) as [[k'|s']|] eqn:Em; cbn [header_int];
        try exact I.
      right. right. split; [reflexivity|]. exists r.
      split; [reflexivity|]. split; [exact Hstatus|]. right. exists s'.
      reflexivity.
Qed.

(** Validation and fetching disagree on 403: the one reports an
    authentication failure, the other the generic error. *)
Example forbidden_validation_against_fetch :
  let env := status_env 403 (fun _ => 0%Q) None
               (Some (JObj [("message", JStr "missing scope")]%string)) in
  fst (validate_credentials env no_rate_headers (init_world 0%Q))
  = Raise HubSpotAuthenticationError
  /\ fst (get_deals env 100 JNull None false 30 (init_world 0%Q))
     = Raise (HubSpotAPIError (RequestFailed (ReqHTTPError 403))).
Proof. split; reflexivity. Qed.

(* ================================================================= *)
(** * The controller and its arithmetic *)

(** The operations [_wait_for_rate_limit] performs on timestamps. *)
Record TimeOps : Type := {
  time : Type;
  t_sub : time -> time -> time;   (* a - b *)
  t_gt : time -> time -> bool;    (* a > b *)
  t_window : time;                (* RATE_LIMIT_WINDOW *)
  t_zero : time                   (* 0 *)
}.

(** The body of [_wait_for_rate_limit] as a function of the list: [now] is
    the first clock reading and [after_sleep d] the reading taken after
    [time.sleep(d)].  It gives the new list and the sleep made, if any;
    [None] stands for the [IndexError] of [self._request_times[0]] on an
    empty list. *)
Definition wait_step (ops : TimeOps) (now : time ops)
    (after_sleep : time ops -> time ops) (ts : list (time ops))
  : option (list (time ops) * option (time ops)) :=
  let cutoff_time := t_sub ops now (t_window ops) in
  let ts := filter (fun t => t_gt ops t cutoff_time) ts in
  if RATE_LIMIT_MAX <=? Z.of_nat (List.length ts) then
    match ts with
    | [] => None
    | oldest :: _ =>
        let wait_time := t_sub ops (t_window ops) (t_sub ops now oldest) in
        if t_gt ops wait_time (t_zero ops) then
          let now := after_sleep wait_time in
          let cutoff_time := t_sub ops now (t_window ops) in
          let ts := filter (fun t => t_gt ops t cutoff_time) ts in
          Some (ts ++ [now], Some wait_time)
        else Some (ts ++ [now], None)
    end
  else Some (ts ++ [now], None).

(** A sequence of admissions, each with its clock reading and the reading
    after a sleep: the final list and the sleeps made. *)
Fixpoint wait_steps (ops : TimeOps) (readings : list (time ops * time ops))
    (ts slept : list (time ops)) : option (list (time ops) * list (time ops)) :=
  match readings with
  | [] => Some (ts, slept)
  | (now, later) :: rest =>
      match wait_step ops now (fun _ => later) ts with
      | None => None
      | Some (ts', s) =>
          wait_steps ops rest ts'
            (slept ++ match s with Some d => [d] | None => [] end)
      end
  end.

(** Exact arithmetic. *)
Definition exact_time : TimeOps :=
  {| time := Q; t_sub := Qminus; t_gt := fun a b => Qltb b a;
     t_window := RATE_LIMIT_WINDOW; t_zero := 0%Q |}.

(** The arithmetic of Python's [float]: IEEE 754 binary64, round to
    nearest even. *)
Definition binary64_time : TimeOps :=
  {| time := float; t_sub := PrimFloat.sub;
     t_gt := fun a b => PrimFloat.ltb b a;
     t_window := 10%float; t_zero := 0%float |}.

(** The effectful model is [wait_step] at exact arithmetic. *)
Lemma wait_for_rate_limit_is_wait_step (env : Env) (w : World) :
  let now := (clock w + elapsed env (ticks w))%Q in
  exists slept,
    wait_step exact_time now
      (fun d => (now + d + elapsed env (S (ticks w)))%Q) (_request_times w)
    = Some (_request_times (snd (_wait_for_rate_limit env w)), slept)
    /\ sleeps (snd (_wait_for_rate_limit env w))
       = sleeps w ++ match slept with Some d => [d] | None => [] end.
Proof.
  intro now. rewrite wait_for_rate_limit_run. cbn [snd].
  unfold wait_step, after_wait. fold now.
  cbn [exact_time time t_sub t_gt t_window t_zero].
  change (filter (fun t => Qltb (now - RATE_LIMIT_WINDOW) t) (_request_times w))
    with (prune (now - RATE_LIMIT_WINDOW) (_request_times w)).
  destruct (prune (now - RATE_LIMIT_WINDOW) (_request_times w)) as [|t0 ts].
  - exists None. cbn. rewrite app_nil_r. split; reflexivity.
  - destruct (RATE_LIMIT_MAX <=? Z.of_nat (List.length (t0 :: ts))); cbn [andb].
    + destruct (Qltb 0 (RATE_LIMIT_WINDOW - (now - t0))).
      * eexists. split; reflexivity.
      * exists None. cbn [sleeps _request_times].
        rewrite app_nil_r. split; reflexivity.
    + exists None. cbn [sleeps _request_times].
      rewrite app_nil_r. split; reflexivity.
Qed.

(** *** Where rounding lets the quota slip *)

(** 150 admissions while the clock reads 2^-70, then one when it reads
    10: the clock never runs backwards. *)
Definition tiny_then_ten : list (float * float) :=
  repeat (0x1p-70%float, 0x1p-70%float) 150 ++ [(10%float, 10%float)].

(** The claim of the window, for binary64 timestamps and a clock that
    does not run backwards: after any sequence of admissions on a fresh
    instance, no trailing window holds more than the quota. *)
Fixpoint readings_ascend (prev : float) (readings : list (float * float)) : bool :=
  match readings with
  | [] => true
  | (now, later) :: rest =>
      PrimFloat.leb prev now && PrimFloat.leb now later
      && readings_ascend later rest
  end.

Definition binary64_window_count (T : float) (ts : list float) : nat :=
  List.length
    (filter (fun t => PrimFloat.ltb (PrimFloat.sub T 10%float) t
                      && PrimFloat.leb t T) ts).

Definition binary64_quota_kept : Prop :=
  forall readings ts slept T,
    readings_ascend 0%float readings = true ->
    wait_steps binary64_time readings [] [] = Some (ts, slept) ->
    (binary64_window_count T ts <= 150)%nat.

(** The same claim for exact timestamps and any clock: after any
    sequence of admissions on a fresh instance, no trailing window of the
    stored list holds more than the quota. *)
Definition quota_kept : Prop :=
  forall (env : Env) (n : nat) (T : Q),
    window_count T (_request_times (snd (admissions env n (init_world 0%Q))))
    <= RATE_LIMIT_MAX.

(** A clock that steps back by five seconds between the end of the sleep
    and the reading taken after it. *)
Definition stepping_back_env : Env :=
  {| elapsed := fun k => if (k =? 151)%nat then (-5)%Q else 0%Q;
     server := server quiet_env |}.

(** C1, as stated, fails on the code, in two ways.  With binary64
    timestamps and the clock at 2^-70 for 150 admissions and then at 10,
    [now - oldest] rounds to 10, the wait comes out as 0, the guard
    [wait_time > 0] skips the sleep, and the list holds 151 timestamps,
    all of them in the window that ends at 10.  And whatever the
    arithmetic, after 150 admissions at time 0 and a sleep of 10, a clock
    that then reads 5 leaves 151 timestamps in the window that ends
    at 5. *)
Lemma quota_kept_counterexample :
  (PrimFloat.sub 10%float (PrimFloat.sub 10%float 0x1p-70%float) = 0%float
   /\ (exists ts,
         wait_steps binary64_time tiny_then_ten [] [] = Some (ts, [])
         /\ List.length ts = 151%nat
         /\ binary64_window_count 10%float ts = 151%nat)
   /\ ~ binary64_quota_kept)
  /\ ((let w := snd (admissions stepping_back_env 151 (init_world 0%Q)) in
       List.length (_request_times w) = 151%nat
       /\ window_count 5%Q (_request_times w) = 151
       /\ sleeps w = [10%Q] /\ clock w = 5%Q)
      /\ ~ quota_kept).
Proof.
  split.
  - split; [vm_compute; reflexivity|].
    assert (Hrun : exists ts,
               wait_steps binary64_time tiny_then_ten [] [] = Some (ts, [])
               /\ List.length ts = 151%nat
               /\ binary64_window_count 10%float ts = 151%nat).
    { eexists. split; [vm_compute; reflexivity|].
      split; vm_compute; reflexivity. }
    split; [exact Hrun|].
    intro H. destruct Hrun as [ts [Hts [_ Hcount]]].
    specialize (H tiny_then_ten ts [] 10%float).
    rewrite Hcount in H.
    assert (Ha : readings_ascend 0%float tiny_then_ten = true)
      by (vm_compute; reflexivity).
    specialize (H Ha Hts). lia.
  - assert (Hw : window_count 5%Q
                   (_request_times
                      (snd (admissions stepping_back_env 151 (init_world 0%Q))))
                 = 151) by (vm_compute; reflexivity).
    split.
    + cbv zeta. split; [vm_compute; reflexivity|]. split; [exact Hw|].
      split; vm_compute; reflexivity.
    + intro H. specialize (H stepping_back_env 151%nat 5%Q).
      rewrite Hw in H. unfold RATE_LIMIT_MAX in H. lia.
Qed.

(** The first sequence with exact arithmetic: the 151st admission sleeps
    2^-70 seconds and the earlier entries leave the window. *)
Example exact_tiny_then_ten :
  wait_steps exact_time
    (repeat ((1 # 1180591620717411303424)%Q, (1 # 1180591620717411303424)%Q) 150
     ++ [(10%Q, (10 + (1 # 1180591620717411303424))%Q)]) [] []
  = Some ([(10 + (1 # 1180591620717411303424))%Q],
          [(10 - (10 - (1 # 1180591620717411303424)))%Q]).
Proof. vm_compute. reflexivity. Qed.

(** *** The quota with exact arithmetic and a clock that does not run back *)

Lemma window_count_filter (T : Q) (f : Q -> bool) (ts : list Q) :
  window_count T (filter f ts) <= window_count T ts.
Proof.
  unfold window_count. apply inj_le.
  induction ts as [|t ts IH]; [cbn; lia|].
  cbn [filter]. destruct (f t); cbn [filter];
    destruct (in_window T t); cbn [List.length]; lia.
Qed.

(** C1, amended.  Timestamps are taken as exact numbers (no rounding in
    [now - window] and [window - (now - oldest)]) and the clock does not
    run backwards.  Then for any number of admissions on a fresh
    instance: no trailing window of 10 seconds, ending at any time, holds
    more than 150 of the timestamps recorded so far; the stored list is
    exactly the part of that history newer than [now - 10], so no window
    of it holds more than 150 either.  And an admission, in any state,
    returns normally, leaves the old list without the entries not newer
    than [now - 10] followed by the current timestamp [now], sleeps
    [10 - (now - oldest)] seconds, a positive time, when the in-window
    count is at the quota, and does not sleep otherwise. *)
Theorem admissions_within_quota (env : Env) (n : nat) (w : World) :
  (forall k, (0 <= elapsed env k)%Q) ->
  _request_times w = [] ->
  let h := fst (admissions env n w) in
  let w' := snd (admissions env n w) in
  List.length h = n
  /\ (forall T, window_count T h <= 150)
  /\ _request_times w'
     = filter (fun t => negb (Qle_bool t (clock w' - 10))) h
  /\ (forall T, window_count T (_request_times w') <= 150)
  /\ (forall w1,
        exists w2,
          _wait_for_rate_limit env w1 = (Ok tt, w2)
          /\ _request_times w2
             = filter (fun t => negb (Qle_bool t (clock w2 - 10)))
                 (_request_times w1)
               ++ [clock w2]
          /\ (let now := (clock w1 + elapsed env (ticks w1))%Q in
              let in_window :=
                filter (fun t => negb (Qle_bool t (now - 10)))
                  (_request_times w1) in
              (150 <= Z.of_nat (List.length in_window) ->
               exists oldest rest,
                 in_window = oldest :: rest
                 /\ (0 < 10 - (now - oldest))%Q
                 /\ sleeps w2 = sleeps w1 ++ [(10 - (now - oldest))%Q])
              /\ (Z.of_nat (List.length in_window) < 150 ->
                  sleeps w2 = sleeps w1))).
Proof.
  intros Hel Hfresh h w'.
  destruct (admissions_respect_quota_aux env n w Hel Hfresh) as [Hlen Hwin].
  assert (H0 : window_of_history w []).
  { split; [rewrite Hfresh; reflexivity|]. split; [constructor|].
    split; [rewrite Hfresh; cbn; unfold RATE_LIMIT_MAX; lia|].
    intro T'. cbn. unfold RATE_LIMIT_MAX. lia. }
  destruct (admissions_history env Hel n w [] H0) as [Hlist _].
  cbn [app] in Hlist. fold h in Hlen, Hwin, Hlist. fold w' in Hlist.
  split; [exact Hlen|]. split; [exact Hwin|]. split; [exact Hlist|].
  split.
  - intro T. rewrite Hlist.
    pose proof (window_count_filter T
                  (fun t => negb (Qle_bool t (clock w' - 10))) h) as Hf.
    specialize (Hwin T). unfold RATE_LIMIT_MAX in Hwin.
    change (prune (clock w' - RATE_LIMIT_WINDOW) h)
      with (filter (fun t => negb (Qle_bool t (clock w' - 10))) h).
    lia.
  - intro w1. exists (after_wait env w1).
    split; [apply wait_for_rate_limit_run|].
    split; [exact (after_wait_list env w1 (Hel _))|].
    exact (after_wait_sleeps env w1).
Qed.

(** Two hundred admissions without a pause in between: the quota is
    reached and the controller sleeps. *)
Lemma admissions_within_quota_witness :
  let h := fst (admissions quiet_env 200 (init_world 0%Q)) in
  let w' := snd (admissions quiet_env 200 (init_world 0%Q)) in
  List.length h = 200%nat
  /\ (forall T, window_count T h <= 150)
  /\ _request_times w'
     = filter (fun t => negb (Qle_bool t (clock w' - 10))) h
  /\ (forall T, window_count T (_request_times w') <= 150)
  /\ (forall w1,
        exists w2,
          _wait_for_rate_limit quiet_env w1 = (Ok tt, w2)
          /\ _request_times w2
             = filter (fun t => negb (Qle_bool t (clock w2 - 10)))
                 (_request_times w1)
               ++ [clock w2]
          /\ (let now := (clock w1 + elapsed quiet_env (ticks w1))%Q in
              let in_window :=
                filter (fun t => negb (Qle_bool t (now - 10)))
                  (_request_times w1) in
              (150 <= Z.of_nat (List.length in_window) ->
               exists oldest rest,
                 in_window = oldest :: rest
                 /\ (0 < 10 - (now - oldest))%Q
                 /\ sleeps w2 = sleeps w1 ++ [(10 - (now - oldest))%Q])
              /\ (Z.of_nat (List.length in_window) < 150 ->
                  sleeps w2 = sleeps w1))).
Proof.
  apply (admissions_within_quota quiet_env 200 (init_world 0%Q)).
  - apply quiet_env_clock.
  - reflexivity.
Defined.

(* ================================================================= *)
(** * Where a run ends, for any page *)

(** What a successfully fetched page holds, read off its JSON: the
    records a [for] loop over its [results] walks through (none when
    [results] is absent), and its [paging] entry (an empty object when
    absent). *)
Definition page_records (data : json) : list json :=
  match data with
  | JObj kvs =>
      match dict_lookup "results" kvs with
      | Some (JArr records) => records
      | Some (JObj fields) => map (fun kv => JStr (fst kv)) fields
      | Some (JStr s) => chars s
      | _ => []
      end
  | _ => []
  end.

Definition paging_of (data : json) : json :=
  match data with
  | JObj kvs =>
      match dict_lookup "paging" kvs with
      | Some paging => paging
      | None => JObj []
      end
  | _ => JObj []
  end.

(** ["next" not in paging], for the values on which Python defines it. *)
Definition lacks_next (paging : json) : Prop :=
  match paging with
  | JObj fields => dict_lookup "next" fields = None
  | JArr items => ~ In (JStr "next") items
  | JStr s => String.index 0 "next" s = None
  | _ => False
  end.

Lemma classify_ok_inv (timeout : Z) (o : http_outcome) (data : json) :
  classify timeout o = Ok data ->
  exists kvs results,
    data = JObj kvs
    /\ py_get data "results" (JArr []) = Ok results
    /\ py_iter results = Ok (page_records data)
    /\ py_get data "paging" (JObj []) = Ok (paging_of data).
Proof.
  unfold classify. destruct o as [e|r]; [destruct e; discriminate|].
  destruct (status_code r =? 429);
    [destruct (header_int _ _); discriminate|].
  destruct (status_code r =? 401); [discriminate|].
  destruct ((400 <=? status_code r) && (status_code r <? 600)); [discriminate|].
  destruct (body r) as [d|]; [|discriminate].
  destruct d as [| | | | |kvs]; try discriminate.
  unfold py_get at 1.
  destruct (dict_lookup "results" kvs) as [results|] eqn:Er.
  - destruct (py_len results) as [k|e] eqn:El; [|discriminate].
    intro H. injection H as <-. exists kvs, results.
    split; [reflexivity|]. unfold py_get, page_records, paging_of. rewrite Er.
    split; [reflexivity|].
    split; [destruct results; try discriminate El; reflexivity|].
    destruct (dict_lookup "paging" kvs); reflexivity.
  - cbn [py_len]. intro H. injection H as <-. exists kvs, (JArr []).
    split; [reflexivity|]. unfold py_get, page_records, paging_of. rewrite Er.
    split; [reflexivity|]. split; [reflexivity|].
    destruct (dict_lookup "paging" kvs); reflexivity.
Qed.

Lemma is_str_eq (key : string) (v : json) :
  is_str key v = true <-> v = JStr key.
Proof.
  destruct v; cbn; split; intro H; try discriminate H.
  - apply String.eqb_eq in H. subst. reflexivity.
  - injection H as ->. apply String.eqb_refl.
Qed.

Lemma lacks_next_contains (paging : json) :
  lacks_next paging <-> py_contains "next" paging = Ok false.
Proof.
  destruct paging as [| | | s | items | fields]; cbn;
    try (split; [contradiction|discriminate]).
  - destruct (String.index 0 "next" s); split; intro H;
      try discriminate H; reflexivity.
  - split.
    + intro H. f_equal. apply not_true_is_false. intro He.
      apply existsb_exists in He. destruct He as [x [Hx Hs]].
      apply is_str_eq in Hs. subst x. exact (H Hx).
    + intros H Hin. injection H as H.
      assert (He : existsb (is_str "next") items = true).
      { apply existsb_exists. exists (JStr "next").
        split; [exact Hin|]. apply is_str_eq. reflexivity. }
      congruence.
  - destruct (dict_lookup "next" fields); split; intro H;
      try discriminate H; reflexivity.
Qed.

(** C4, amended.  Take a turn whose fetch succeeds, with no checkpoint
    callback or one that returns normally and a non-zero interval.  The
    records of the page are yielded, and the run ends normally there
    exactly when the [paging] entry of the page, an absent one counting
    as an empty object, does not contain "next" (an object without that
    key, a list without that element, a string without that substring).
    Otherwise the run does not end normally at that page.  When [paging]
    is an object whose [next] is an object carrying [after], the loop
    takes that value as its cursor and goes round again; the request of
    the following turn is built from it, with the [after] parameter set
    to it if it is truthy and with no [after] parameter if it is not.
    When that [next] carries no [after], the run ends with
    [KeyError]. *)
Theorem ends_exactly_without_next (env : Env) (properties : option (list string))
    (archived cb : bool) (n : Z) (fuel : nat) (g : Gen) (data : json) :
  fst (get_deals env 100 (after g) properties archived 30 (world g)) = Ok data ->
  (cb = true -> n <> 0) ->
  exists r g',
    loop_body env properties archived cb n g = (r, g')
    /\ yielded g' = yielded g ++ page_records data
    /\ (r = Ok Break <-> lacks_next (paging_of data))
    /\ (r = Ok Break ->
        get_all_deals_loop env properties archived cb n (S fuel) g
        = (Exhausted, g'))
    /\ (r <> Ok Break ->
        fst (get_all_deals_loop env properties archived cb n 1 g) <> Exhausted)
    /\ (forall fields next cursor,
          paging_of data = JObj fields ->
          dict_lookup "next" fields = Some (JObj next) ->
          dict_lookup "after" next = Some cursor ->
          r = Ok Continue
          /\ after g' = cursor
          /\ get_all_deals_loop env properties archived cb n (S fuel) g
             = get_all_deals_loop env properties archived cb n fuel g'
          /\ sent (world (snd (loop_body env properties archived cb n g')))
             = sent (world g') ++ [build_params 100 cursor properties archived]
          /\ dict_lookup "after" (build_params 100 cursor properties archived)
             = (if truthy cursor then Some cursor else None))
    /\ (forall fields next,
          paging_of data = JObj fields ->
          dict_lookup "next" fields = Some (JObj next) ->
          dict_lookup "after" next = None ->
          get_all_deals_loop env properties archived cb n (S fuel) g
          = (Raised (KeyError "after"), g')).
Proof.
  rewrite get_deals_run. cbn [fst].
  fold (answer env properties archived g). intros Hfetch Hn.
  destruct (classify_ok_inv _ _ _ Hfetch) as [kvs [results [-> [Hres [Hit Hpg]]]]].
  assert (Hbody :
    loop_body env properties archived cb n g
    = let g1 := page_done cb n (page_records (JObj kvs))
                  (with_world g (fetched env properties archived g)) in
      match py_contains "next" (paging_of (JObj kvs)) with
      | Raise e => (Raise e, g1)
      | Ok false => (Ok Break, g1)
      | Ok true =>
          match py_getitem (paging_of (JObj kvs)) "next" with
          | Raise e => (Raise e, g1)
          | Ok next =>
              match py_getitem next "after" with
              | Raise e => (Raise e, g1)
              | Ok cursor =>
                  (Ok Continue,
                   {| after := cursor; page_count := page_count g1;
                      total_deals := total_deals g1; yielded := yielded g1;
                      world := world g1 |})
              end
          end
      end).
  { rewrite loop_body_fetch, Hfetch. unfold try_except.
    rewrite (process_page_run cb n kvs results (paging_of (JObj kvs))
               (page_records (JObj kvs)) _ Hres Hit Hpg Hn).
    cbv zeta.
    destruct (py_contains "next" (paging_of (JObj kvs))) as [[|]|e] eqn:Ec.
    - destruct (py_getitem (paging_of (JObj kvs)) "next") as [next|e] eqn:En.
      + destruct (py_getitem next "after") as [cursor|e] eqn:Ea; [reflexivity|].
        rewrite (py_getitem_raises _ _ _ Ea). reflexivity.
      + rewrite (py_getitem_raises _ _ _ En). reflexivity.
    - reflexivity.
    - rewrite (py_contains_raises _ _ _ Ec). reflexivity. }
  cbv zeta in Hbody.
  pose proof (lacks_next_contains (paging_of (JObj kvs))) as Hlacks.
  set (data := JObj kvs) in *.
  set (g1 := page_done cb n (page_records data)
               (with_world g (fetched env properties archived g))) in *.
  assert (Hy1 : yielded g1 = yielded g ++ page_records data) by reflexivity.
  cbn [get_all_deals_loop].
  destruct (py_contains "next" (paging_of data)) as [[|]|e] eqn:Ec.
  - (* "next" is there *)
    assert (Hnot : ~ lacks_next (paging_of data)).
    { intro H. apply Hlacks in H. discriminate H. }
    destruct (py_getitem (paging_of data) "next") as [next|e] eqn:En.
    + destruct (py_getitem next "after") as [cursor|e] eqn:Ea.
      * eexists. eexists. split; [exact Hbody|]. rewrite Hbody.
        cbn [yielded fst]. split; [exact Hy1|].
        split; [split; [discriminate|contradiction]|].
        split; [discriminate|]. split; [intros _; destruct fuel; discriminate|].
        split.
        -- intros fields nx c Hf Hnx Hc.
           rewrite Hf in En. cbn [py_getitem] in En. rewrite Hnx in En.
           injection En as <-. cbn [py_getitem] in Ea. rewrite Hc in Ea.
           injection Ea as <-.
           split; [reflexivity|]. split; [reflexivity|]. split; [reflexivity|].
           split; [apply loop_body_sends_one|apply build_params_fixed].
        -- intros fields nx Hf Hnx Hna.
           rewrite Hf in En. cbn [py_getitem] in En. rewrite Hnx in En.
           injection En as <-. cbn [py_getitem] in Ea. rewrite Hna in Ea.
           discriminate Ea.
      * eexists. eexists. split; [exact Hbody|]. rewrite Hbody.
        cbn [fst]. split; [exact Hy1|].
        split; [split; [discriminate|contradiction]|].
        split; [discriminate|]. split; [intros _; discriminate|].
        split.
        -- intros fields nx c Hf Hnx Hc.
           rewrite Hf in En. cbn [py_getitem] in En. rewrite Hnx in En.
           injection En as <-. cbn [py_getitem] in Ea. rewrite Hc in Ea.
           discriminate Ea.
        -- intros fields nx Hf Hnx Hna.
           rewrite Hf in En. cbn [py_getitem] in En. rewrite Hnx in En.
           injection En as <-. cbn [py_getitem] in Ea. rewrite Hna in Ea.
           injection Ea as <-. reflexivity.
    + eexists. eexists. split; [exact Hbody|]. rewrite Hbody.
      cbn [fst]. split; [exact Hy1|].
      split; [split; [discriminate|contradiction]|].
      split; [discriminate|]. split; [intros _; discriminate|].
      split.
      * intros fields nx c Hf Hnx Hc.
        rewrite Hf in En. cbn [py_getitem] in En. rewrite Hnx in En.
        discriminate En.
      * intros fields nx Hf Hnx Hna.
        rewrite Hf in En. cbn [py_getitem] in En. rewrite Hnx in En.
        discriminate En.
  - (* "next" is not there *)
    assert (Hyes : lacks_next (paging_of data)) by (apply Hlacks; reflexivity).
    eexists. eexists. split; [exact Hbody|]. rewrite Hbody.
    split; [exact Hy1|]. split; [split; intro; [exact Hyes|reflexivity]|].
    split; [reflexivity|]. split; [intro H; contradiction H; reflexivity|].
    split.
    + intros fields nx c Hf Hnx Hc. exfalso.
      rewrite Hf in Hyes. cbn in Hyes. congruence.
    + intros fields nx Hf Hnx Hna. exfalso.
      rewrite Hf in Hyes. cbn in Hyes. congruence.
  - (* the membership test fails *)
    assert (Hnot : ~ lacks_next (paging_of data)).
    { intro H. apply Hlacks in H. discriminate H. }
    eexists. eexists. split; [exact Hbody|]. rewrite Hbody.
    cbn [fst]. split; [exact Hy1|].
    split; [split; [discriminate|contradiction]|].
    split; [discriminate|]. split; [intros _; discriminate|].
    split.
    + intros fields nx c Hf Hnx Hc. rewrite Hf in Ec. discriminate Ec.
    + intros fields nx Hf Hnx Hna. rewrite Hf in Ec. discriminate Ec.
Qed.

(** A page whose [paging] entry is a list holding "next": the membership
    test finds it, and the run does not end there. *)
Definition list_paging_body : json :=
  JObj [("results", JObj [("a", JNull); ("b", JNull)]);
        ("paging", JArr [JStr "next"])]%string.

Definition list_paging_env : Env :=
  {| elapsed := fun _ => 0%Q;
     server := fun _ _ => Responds (ok_response list_paging_body) |}.

Lemma ends_exactly_without_next_witness :
  (exists g',
     get_all_deals_loop (script_env single_page) None false true 5 1
       (start (init_world 0%Q)) = (Exhausted, g')
     /\ yielded g' = [test_deal])
  /\ (exists g',
        loop_body (script_env two_page_dataset) None false true 5
          (start (init_world 0%Q)) = (Ok Continue, g')
        /\ yielded g' = [deal "123" "Deal 1"]
        /\ after g' = JStr "cursor123"
        /\ sent (world (snd (loop_body (script_env two_page_dataset) None false
                               true 5 g')))
           = sent (world g')
             ++ [build_params 100 (JStr "cursor123") None false]
        /\ dict_lookup "after" (build_params 100 (JStr "cursor123") None false)
           = Some (JStr "cursor123"))
  /\ (exists g',
        loop_body empty_cursor_env None false true 5 (start (init_world 0%Q))
        = (Ok Continue, g')
        /\ after g' = JStr ""
        /\ dict_lookup "after" (build_params 100 (JStr "") None false) = None)
  /\ (exists r g',
        loop_body list_paging_env None false true 5 (start (init_world 0%Q))
        = (r, g')
        /\ yielded g' = [JStr "a"; JStr "b"]
        /\ fst (get_all_deals_loop list_paging_env None false true 5 1
                  (start (init_world 0%Q))) <> Exhausted)
  /\ (exists g',
        get_all_deals_loop next_without_after_env None false true 5 1
          (start (init_world 0%Q)) = (Raised (KeyError "after"), g')
        /\ yielded g' = [test_deal]).
Proof.
  assert (Hn : true = true -> 5 <> 0) by (intros _ H; discriminate H).
  split; [|split; [|split; [|split]]].
  - destruct (ends_exactly_without_next (script_env single_page) None false
                true 5 0 (start (init_world 0%Q))
                (page_body {| throttles := []; entries := [test_deal];
                              next_cursor := None |})
                eq_refl Hn)
      as [r [g' [_ [Hy [Hend [Hrun _]]]]]].
    exists g'. split; [|exact Hy]. apply Hrun. apply Hend. reflexivity.
  - destruct (ends_exactly_without_next (script_env two_page_dataset) None false
                true 5 0 (start (init_world 0%Q))
                (page_body {| throttles := []; entries := [deal "123" "Deal 1"];
                              next_cursor := Some (JStr "cursor123") |})
                eq_refl Hn)
      as [r [g' [Hbody [Hy [_ [_ [_ [Hnext _]]]]]]]].
    destruct (Hnext [("next", JObj [("after", JStr "cursor123")])]%string
                [("after", JStr "cursor123")]%string (JStr "cursor123")
                eq_refl eq_refl eq_refl)
      as [Hr [Ha [_ [Hs Hp]]]].
    exists g'. rewrite <- Hr.
    split; [exact Hbody|]. split; [exact Hy|]. split; [exact Ha|].
    split; [exact Hs|exact Hp].
  - destruct (ends_exactly_without_next empty_cursor_env None false
                true 5 0 (start (init_world 0%Q))
                (page_body empty_cursor_page) eq_refl Hn)
      as [r [g' [Hbody [_ [_ [_ [_ [Hnext _]]]]]]]].
    destruct (Hnext [("next", JObj [("after", JStr "")])]%string
                [("after", JStr "")]%string (JStr "")
                eq_refl eq_refl eq_refl)
      as [Hr [Ha [_ [_ Hp]]]].
    exists g'. rewrite <- Hr.
    split; [exact Hbody|]. split; [exact Ha|exact Hp].
  - destruct (ends_exactly_without_next list_paging_env None false
                true 5 0 (start (init_world 0%Q))
                list_paging_body eq_refl Hn)
      as [r [g' [Hbody [Hy [Hend [_ [Hnot _]]]]]]].
    exists r, g'. split; [exact Hbody|]. split; [exact Hy|].
    apply Hnot. intro Hr. apply Hend in Hr. apply Hr.
    left. reflexivity.
  - destruct (ends_exactly_without_next next_without_after_env None false
                true 5 0 (start (init_world 0%Q))
                next_without_after eq_refl Hn)
      as [r [g' [_ [Hy [_ [_ [_ [_ Hkey]]]]]]]].
    exists g'. split; [|exact Hy].
    exact (Hkey [("next", JObj [])]%string [] eq_refl eq_refl eq_refl).
Defined.

(* ================================================================= *)
(** * The requests of a run *)

(** The cursors of the turns a run takes from frame [g], one per turn,
    in order: the cursor the frame holds when the turn starts. *)
Fixpoint cursors_sent (env : Env) (properties : option (list string))
    (archived cb : bool) (n : Z) (fuel : nat) (g : Gen) : list json :=
  match fuel with
  | O => []
  | S fuel' =>
      after g
      :: match loop_body env properties archived cb n g with
         | (Ok Continue, g') =>
             cursors_sent env properties archived cb n fuel' g'
         | _ => []
         end
  end.

Lemma loop_sends_cursors (env : Env) (properties : option (list string))
    (archived cb : bool) (n : Z) (fuel : nat) :
  forall g,
    sent (world (snd (get_all_deals_loop env properties archived cb n fuel g)))
    = sent (world g)
      ++ map (fun c => build_params 100 c properties archived)
           (cursors_sent env properties archived cb n fuel g).
Proof.
  induction fuel as [|fuel IH]; intro g.
  - cbn. rewrite app_nil_r. reflexivity.
  - cbn [get_all_deals_loop cursors_sent map].
    pose proof (loop_body_sends_one env properties archived cb n g) as H1.
    destruct (loop_body env properties archived cb n g) as [[[|]|e] g'];
      cbn [snd] in H1 |- *.
    + rewrite IH, H1, <- app_assoc. reflexivity.
    + exact H1.
    + exact H1.
Qed.

Lemma cursors_sent_length (env : Env) (properties : option (list string))
    (archived cb : bool) (n : Z) (fuel : nat) :
  forall g,
    (List.length (cursors_sent env properties archived cb n fuel g) <= fuel)%nat
    /\ (fst (get_all_deals_loop env properties archived cb n fuel g) = OutOfFuel
        -> List.length (cursors_sent env properties archived cb n fuel g) = fuel).
Proof.
  induction fuel as [|fuel IH]; intro g.
  - cbn. split; [lia|reflexivity].
  - cbn [get_all_deals_loop cursors_sent List.length].
    destruct (loop_body env properties archived cb n g) as [[[|]|e] g'];
      cbn [fst List.length].
    + destruct (IH g') as [Hle Heq]. split; [lia|].
      intro H. rewrite (Heq H). reflexivity.
    + split; [lia|discriminate].
    + split; [lia|discriminate].
Qed.

(** X9. Every turn of the loop sends exactly one request, built from the
    cursor the turn starts with: page size 100, the caller's property
    list and archived flag, and the cursor as [after] if it is truthy.
    So the requests of a run are exactly the requests of its turns, in
    order, nothing else being sent; the first is the request without
    cursor, a run that uses up [fuel] turns has sent [fuel] requests,
    and a run that ends has sent at least one. *)
Theorem generator_requests (env : Env) (properties : option (list string))
    (archived cb : bool) (n : Z) (fuel : nat) (w : World) :
  let run := get_all_deals env properties archived cb n fuel w in
  let cursors := cursors_sent env properties archived cb n fuel (start w) in
  (forall g,
     sent (world (snd (loop_body env properties archived cb n g)))
     = sent (world g) ++ [build_params 100 (after g) properties archived])
  /\ sent (world (snd run))
     = sent w ++ map (fun c => build_params 100 c properties archived) cursors
  /\ (fuel <> 0%nat ->
      exists rest,
        cursors = JNull :: rest
        /\ dict_lookup "after" (build_params 100 JNull properties archived)
           = None)
  /\ (List.length cursors <= fuel)%nat
  /\ (fst run = OutOfFuel -> List.length cursors = fuel)
  /\ (fst run <> OutOfFuel -> (1 <= List.length cursors)%nat)
  /\ (forall c,
        dict_lookup "limit" (build_params 100 c properties archived)
        = Some (JNum 100)
        /\ dict_lookup "archived" (build_params 100 c properties archived)
           = Some (JStr (if archived then "true" else "false"))
        /\ dict_lookup "after" (build_params 100 c properties archived)
           = (if truthy c then Some c else None)).
Proof.
  cbv zeta. unfold get_all_deals.
  split; [apply loop_body_sends_one|].
  split; [apply (loop_sends_cursors env properties archived cb n fuel (start w))|].
  split.
  { intro Hf. destruct fuel as [|fuel]; [contradiction Hf; reflexivity|].
    cbn [cursors_sent start after]. eexists. split; reflexivity. }
  destruct (cursors_sent_length env properties archived cb n fuel (start w))
    as [Hle Heq].
  split; [exact Hle|]. split; [exact Heq|].
  split.
  { destruct fuel as [|fuel]; [intro H; contradiction H; reflexivity|].
    intros _. cbn [cursors_sent List.length]. lia. }
  intro c. apply (build_params_fixed 100 c properties archived).
Qed.

(* ================================================================= *)
(** * A checkpoint callback that may raise *)

(** What the caller's callback does when called: given the calls made to
    it so far, the present one last, it returns normally ([None]) or
    raises. *)
Definition callback_fn : Type := list (Z * Z) -> option exn.

(** [checkpoint_callback(page=..., deals_so_far=...)] for such a
    callback: the call is recorded, then the callback returns or raises. *)
Definition call_checkpoint_fn (f : callback_fn) (page deals_so_far : Z)
  : M World unit :=
  call_checkpoint page deals_so_far ;;;
  (fun w =>
     match f (checkpoints w) with
     | Some e => (Raise e, w)
     | None => (Ok tt, w)
     end).

(** One turn of [while True:], the callback being [None] or a function.
    The call of the callback stands inside the [try] block, as in the
    source. *)
Definition loop_body_fn (env : Env) (properties : option (list string))
    (archived : bool) (checkpoint_callback : option callback_fn)
    (checkpoint_interval : Z)
  : M Gen control :=
  try_except
    (cursor <- get_after ;;
     data <- lift (get_deals env 100 cursor properties archived 30) ;;
     results <- of_result (py_get data "results" (JArr [])) ;;
     incr_page_count ;;;
     deals <- of_result (py_iter results) ;;
     yield_each deals ;;;
     _ <- of_result (py_len results) ;;
     (match checkpoint_callback with
      | Some f =>
          pages <- get_page_count ;;
          m <- of_result (py_mod pages checkpoint_interval) ;;
          if m =? 0 then
            total <- get_total_deals ;;
            lift (call_checkpoint_fn f pages total)
          else ret tt
      | None => ret tt
      end) ;;;
     paging <- of_result (py_get data "paging" (JObj [])) ;;
     has_next <- of_result (py_contains "next" paging) ;;
     if negb has_next then ret Break
     else
       next <- of_result (py_getitem paging "next") ;;
       cursor <- of_result (py_getitem next "after") ;;
       set_after cursor ;;;
       ret Continue)
    (fun e =>
       if is_HubSpotRateLimitError e then
         Some (lift (time_sleep 10%Q) ;;; ret Continue)
       else if is_HubSpotAPIError e then Some (raise e)
       else None).

Fixpoint get_all_deals_loop_fn (env : Env) (properties : option (list string))
    (archived : bool) (checkpoint_callback : option callback_fn)
    (checkpoint_interval : Z) (fuel : nat) (g : Gen) : outcome * Gen :=
  match fuel with
  | O => (OutOfFuel, g)
  | S fuel' =>
      match loop_body_fn env properties archived checkpoint_callback
              checkpoint_interval g with
      | (Ok Break, g') => (Exhausted, g')
      | (Ok Continue, g') =>
          get_all_deals_loop_fn env properties archived checkpoint_callback
            checkpoint_interval fuel' g'
      | (Raise e, g') => (Raised e, g')
      end
  end.

Definition get_all_deals_fn (env : Env) (properties : option (list string))
    (archived : bool) (checkpoint_callback : option callback_fn)
    (checkpoint_interval : Z) (fuel : nat) (w : World) : outcome * Gen :=
  get_all_deals_loop_fn env properties archived checkpoint_callback
    checkpoint_interval fuel (start w).

(** Whether a callback was passed. *)
Definition passed (checkpoint_callback : option callback_fn) : bool :=
  match checkpoint_callback with Some _ => true | None => false end.

Definition returns_normally (checkpoint_callback : option callback_fn) : Prop :=
  forall f calls, checkpoint_callback = Some f -> f calls = None.

Lemma bind_raises {S A B} (c : M S A) (k : A -> M S B) (s s' : S) (e : exn) :
  bind c k s = (Raise e, s') ->
  c s = (Raise e, s')
  \/ exists a s1, c s = (Ok a, s1) /\ k a s1 = (Raise e, s').
Proof.
  unfold bind. destruct (c s) as [[a|e1] s1]; intro H.
  - right. exists a, s1. split; [reflexivity|exact H].
  - left. injection H as -> ->. reflexivity.
Qed.

Lemma of_result_raises {S A} (r : result A) (s s' : S) (e : exn) :
  of_result r s = (Raise e, s') -> r = Raise e.
Proof. unfold of_result. intro H. injection H as H _. exact H. Qed.

Lemma bind_ext {S A B} (c1 c2 : M S A) (k1 k2 : A -> M S B) :
  (forall s, c1 s = c2 s) ->
  (forall a s, k1 a s = k2 a s) ->
  forall s, bind c1 k1 s = bind c2 k2 s.
Proof.
  intros Hc Hk s. unfold bind. rewrite Hc.
  destruct (c2 s) as [[a|e] s1]; [apply Hk|reflexivity].
Qed.

(** With no callback, or with one that returns normally, a turn is the
    turn of [loop_body]. *)
Lemma loop_body_fn_returning (env : Env) (properties : option (list string))
    (archived : bool) (callback : option callback_fn) (n : Z) (g : Gen) :
  returns_normally callback ->
  loop_body_fn env properties archived callback n g
  = loop_body env properties archived (passed callback) n g.
Proof.
  intro Hret. unfold loop_body_fn, loop_body, try_except.
  match goal with
  | |- match ?a with _ => _ end = match ?b with _ => _ end =>
      assert (Hb : a = b); [|rewrite Hb; reflexivity]
  end.
  apply bind_ext; [reflexivity|intros cursor g0].
  apply bind_ext; [reflexivity|intros data g1].
  apply bind_ext; [reflexivity|intros results g2].
  apply bind_ext; [reflexivity|intros [] g3].
  apply bind_ext; [reflexivity|intros deals g4].
  apply bind_ext; [reflexivity|intros [] g5].
  apply bind_ext; [reflexivity|intros k g6].
  apply bind_ext; [|reflexivity].
  intro g7. destruct callback as [f|]; [|reflexivity]. cbn [passed].
  apply bind_ext; [reflexivity|intros pages g8].
  apply bind_ext; [reflexivity|intros m g9].
  destruct (m =? 0); [|reflexivity].
  apply bind_ext; [reflexivity|intros total g10].
  unfold lift, call_checkpoint_fn, bind, call_checkpoint.
  cbn [checkpoints]. rewrite (Hret f _ eq_refl). reflexivity.
Qed.

Lemma get_all_deals_fn_returning (env : Env) (properties : option (list string))
    (archived : bool) (callback : option callback_fn) (n : Z) (fuel : nat)
    (w : World) :
  returns_normally callback ->
  get_all_deals_fn env properties archived callback n fuel w
  = get_all_deals env properties archived (passed callback) n fuel w.
Proof.
  intro Hret. unfold get_all_deals_fn, get_all_deals.
  generalize (start w). induction fuel as [|fuel IH]; intro g; [reflexivity|].
  cbn [get_all_deals_loop_fn get_all_deals_loop].
  rewrite (loop_body_fn_returning _ _ _ _ _ _ Hret).
  destruct (loop_body env properties archived (passed callback) n g)
    as [[[|]|e] g']; [apply IH|reflexivity|reflexivity].
Qed.

(** The callback raises [e] at some call. *)
Definition callback_raises (callback : option callback_fn) (e : exn) : Prop :=
  exists f calls, callback = Some f /\ f calls = Some e.

Lemma loop_body_fn_raises (env : Env) (properties : option (list string))
    (archived : bool) (callback : option callback_fn) (n : Z) (g g' : Gen)
    (e : exn) :
  loop_body_fn env properties archived callback n g = (Raise e, g') ->
  is_HubSpotRateLimitError e = false
  /\ (is_HubSpotAPIError e = true \/ e = ValueError \/ page_exn e
      \/ callback_raises callback e).
Proof.
  unfold loop_body_fn, try_except.
  match goal with
  | |- match ?a with _ => _ end = _ -> _ =>
      destruct a as [[c|e0] g0] eqn:Etry
  end; [discriminate|].
  assert (Hsrc : is_HubSpotAPIError e0 = true \/ e0 = ValueError \/ page_exn e0
                 \/ callback_raises callback e0).
  { clear - Etry.
    apply bind_raises in Etry. destruct Etry as [H|[cursor [s1 [H1 H]]]];
      [discriminate H|].
    unfold get_after in H1. injection H1 as <- <-.
    apply bind_raises in H. destruct H as [H|[data [s2 [_ H]]]].
    { unfold lift in H. rewrite get_deals_run in H. cbv zeta in H.
      injection H as H _.
      destruct (classify_raises _ _ _ H) as [Hc|[Hc|[Hc|Hc]]];
        [left; exact Hc|right; left; exact Hc| |].
      - right. right. left. left. exact Hc.
      - right. right. left. right. left. exact Hc. }
    apply bind_raises in H. destruct H as [H|[results [s3 [_ H]]]].
    { right. right. left.
      exact (py_get_raises _ _ _ _ (of_result_raises _ _ _ _ H)). }
    apply bind_raises in H. destruct H as [H|[[] [s4 [_ H]]]];
      [discriminate H|].
    apply bind_raises in H. destruct H as [H|[deals [s5 [_ H]]]].
    { right. right. left.
      exact (py_iter_raises _ _ (of_result_raises _ _ _ _ H)). }
    apply bind_raises in H. destruct H as [H|[[] [s6 [_ H]]]];
      [rewrite yield_each_run in H; discriminate H|].
    apply bind_raises in H. destruct H as [H|[k [s7 [_ H]]]].
    { right. right. left.
      exact (py_len_raises _ _ (of_result_raises _ _ _ _ H)). }
    apply bind_raises in H. destruct H as [H|[[] [s8 [_ H]]]].
    { destruct callback as [f|]; [|discriminate H].
      apply bind_raises in H. destruct H as [H|[pages [s9 [_ H]]]];
        [discriminate H|].
      apply bind_raises in H. destruct H as [H|[m [s10 [_ H]]]].
      { right. right. left.
        exact (py_mod_raises _ _ _ (of_result_raises _ _ _ _ H)). }
      destruct (m =? 0); [|discriminate H].
      apply bind_raises in H. destruct H as [H|[total [s11 [_ H]]]];
        [discriminate H|].
      unfold lift, call_checkpoint_fn, bind, call_checkpoint in H.
      cbn [checkpoints] in H.
      match type of H with
      | context [f ?calls] => destruct (f calls) as [e1|] eqn:Ef
      end; [|discriminate H].
      injection H as <- _. right. right. right.
      eexists. eexists. split; [reflexivity|exact Ef]. }
    apply bind_raises in H. destruct H as [H|[paging [s9 [_ H]]]].
    { right. right. left.
      exact (py_get_raises _ _ _ _ (of_result_raises _ _ _ _ H)). }
    apply bind_raises in H. destruct H as [H|[has_next [s10 [_ H]]]].
    { right. right. left.
      exact (py_contains_page_exn _ _ _ (of_result_raises _ _ _ _ H)). }
    destruct (negb has_next); [discriminate H|].
    apply bind_raises in H. destruct H as [H|[next [s11 [_ H]]]].
    { right. right. left.
      exact (py_getitem_page_exn _ _ _ (of_result_raises _ _ _ _ H)). }
    apply bind_raises in H. destruct H as [H|[c1 [s12 [_ H]]]].
    { right. right. left.
      exact (py_getitem_page_exn _ _ _ (of_result_raises _ _ _ _ H)). }
    apply bind_raises in H. destruct H as [H|[[] [s13 [_ H]]]];
      discriminate H. }
  destruct (is_HubSpotRateLimitError e0) eqn:Er; [discriminate|].
  assert (He : (Raise e0, g0) = (@Raise control e, g') ->
               is_HubSpotRateLimitError e = false
               /\ (is_HubSpotAPIError e = true \/ e = ValueError \/ page_exn e
                   \/ callback_raises callback e)).
  { intro H. injection H as <- _. split; [exact Er|exact Hsrc]. }
  destruct (is_HubSpotAPIError e0); exact He.
Qed.

(** X10. Throttling never reaches the consumer: whatever the remote end
    and the checkpoint callback do, a run does not end with the
    rate-limit error.  What it ends with is an error of the
    [HubSpotAPIError] family, or [ValueError], [AttributeError],
    [TypeError], [KeyError] or [ZeroDivisionError], or an exception the
    callback raised; so with no callback, or one that returns normally,
    no exception of the [requests] library reaches the consumer. *)
Theorem generator_raises_only (env : Env) (properties : option (list string))
    (archived : bool) (callback : option callback_fn) (n : Z) (fuel : nat)
    (w : World) :
  match fst (get_all_deals_fn env properties archived callback n fuel w) with
  | Raised e =>
      is_HubSpotRateLimitError e = false
      /\ (is_HubSpotAPIError e = true
          \/ e = ValueError \/ e = AttributeError \/ e = TypeError
          \/ (exists k, e = KeyError k) \/ e = ZeroDivisionError
          \/ callback_raises callback e)
      /\ (returns_normally callback ->
          get_all_deals_fn env properties archived callback n fuel w
          = get_all_deals env properties archived (passed callback) n fuel w
          /\ forall r, e <> RequestException r)
  | _ => True
  end.
Proof.
  assert (Hloop : forall g o g',
            get_all_deals_loop_fn env properties archived callback n fuel g
            = (o, g') ->
            forall e, o = Raised e ->
              is_HubSpotRateLimitError e = false
              /\ (is_HubSpotAPIError e = true \/ e = ValueError \/ page_exn e
                  \/ callback_raises callback e)).
  { induction fuel as [|fuel IH]; intros g o g' Hrun e He.
    - cbn in Hrun. injection Hrun as <- _. discriminate He.
    - cbn [get_all_deals_loop_fn] in Hrun.
      destruct (loop_body_fn env properties archived callback n g)
        as [[[|]|e1] g1] eqn:Eb.
      + exact (IH g1 o g' Hrun e He).
      + injection Hrun as <- _. discriminate He.
      + injection Hrun as <- _. injection He as <-.
        exact (loop_body_fn_raises _ _ _ _ _ _ _ _ Eb). }
  unfold get_all_deals_fn at 1.
  destruct (get_all_deals_loop_fn env properties archived callback n fuel
              (start w)) as [o g'] eqn:Erun.
  cbn [fst]. destruct o as [|e|]; try exact I.
  destruct (Hloop _ _ _ Erun e eq_refl) as [Hr Hk].
  split; [exact Hr|]. split.
  - destruct Hk as [H|[H|[[H|[H|[H|H]]]|H]]]; auto 10.
  - intro Hret. split; [apply get_all_deals_fn_returning; exact Hret|].
    intros r ->.
    destruct Hk as [H|[H|[[H|[H|[[k H]|H]]]|[f [calls [Hf Hc]]]]]];
      try discriminate H.
    rewrite (Hret f calls Hf) in Hc. discriminate Hc.
Qed.

(** A callback that raises at its first call. *)
Definition failing_callback (e : exn) : callback_fn := fun _ => Some e.

(** An exception of the [requests] library raised by the callback
    reaches the consumer, after the records of the page were yielded;
    a rate-limit error raised by the callback is taken for throttling,
    and the page is fetched and yielded again. *)
Example callback_exception_reaches_consumer :
  (exists g,
     get_all_deals_fn (script_env single_page) None false
       (Some (failing_callback (RequestException ReqConnectionError))) 1 3
       (init_world 0%Q)
     = (Raised (RequestException ReqConnectionError), g)
     /\ yielded g = [test_deal]
     /\ checkpoints (world g) = [(1, 1)])
  /\ (exists g,
        get_all_deals_fn empty_cursor_env None false
          (Some (failing_callback (HubSpotRateLimitError 0))) 1 2
          (init_world 0%Q)
        = (OutOfFuel, g)
        /\ yielded g = [test_deal; test_deal]
        /\ sleeps (world g) = [10%Q; 10%Q]
        /\ sent (world g)
           = [build_params 100 JNull None false;
              build_params 100 JNull None false]).
Proof.
  split; eexists; (split; [vm_compute; reflexivity|]);
    repeat split; reflexivity.
Qed.
